(** * UBC Workday schedule export to iCalendar: parser and generator

    A shallow embedding of [src/js/parser.js] (the [WorkdayParser] object)
    and [src/js/icsGenerator.js] (the [ICSGenerator] object), followed by
    the properties established about them.

    Conventions of the embedding.
    - A JavaScript string is the list of its UTF-16 code units, each a [Z].
      [lit] turns an ASCII literal into such a list.
    - [null] and [undefined] are both [None]; the code only ever tests them
      for truthiness or dereferences them.
    - A cell of the sheet is a text or a number ([Cell]); the Numbers the
      program computes with are doubles ([Num.number]).
    - A regular expression literal of the source is a value of type [re],
      run by a backtracking matcher with the priorities of the ECMAScript
      matcher (leftmost start, alternatives left to right, greedy
      quantifiers).
    - The two places where the source reads the clock are arguments:
      [currentYear] in the parser, [now] in the generator.
    - A property access on [null]/[undefined] throws, and so does the call
      of a string method on a number; what can throw is written in the
      [result] monad. *)

From Stdlib Require Import ZArith List String Ascii Bool Lia Arith.
Import ListNotations.

Open Scope Z_scope.

(* ------------------------------------------------------------------ *)
(** ** JavaScript strings *)

Module JS.

Definition cu := Z.
Definition jstr := list cu.

Definition lit (s : string) : jstr :=
  map (fun a => Z.of_N (N_of_ascii a)) (list_ascii_of_string s).
Arguments lit s%_string.

Definition between (lo hi c : cu) : bool := (lo <=? c) && (c <=? hi).

Definition isDigit (c : cu) : bool := between 48 57 c.
Definition isUpper (c : cu) : bool := between 65 90 c.
Definition isLower (c : cu) : bool := between 97 122 c.
Definition isAlpha (c : cu) : bool := isUpper c || isLower c.
(** [\w] *)
Definition isWord (c : cu) : bool := isAlpha c || isDigit c || (c =? 95).

(** WhiteSpace and LineTerminator of ECMAScript: what [\s], [trim] and
    the numeric conversion skip. *)
Definition isSpace (c : cu) : bool :=
  between 9 13 c || (c =? 32) || (c =? 160) || (c =? 5760)
  || between 8192 8202 c || (c =? 8232) || (c =? 8233) || (c =? 8239)
  || (c =? 8287) || (c =? 12288) || (c =? 65279).

(** LineTerminator: what [.] refuses. *)
Definition isLineTerminator (c : cu) : bool :=
  (c =? 10) || (c =? 13) || (c =? 8232) || (c =? 8233).

(** Case mapping, on the ASCII letters.  Every key, keyword and pattern
    the program compares against is ASCII; other code units are kept. *)
Definition lowerCU (c : cu) : cu := if isUpper c then c + 32 else c.
Definition upperCU (c : cu) : cu := if isLower c then c - 32 else c.

Definition toLowerCase (s : jstr) : jstr := map lowerCU s.
Definition toUpperCase (s : jstr) : jstr := map upperCU s.

Fixpoint dropWhile (p : cu -> bool) (s : jstr) : jstr :=
  match s with
  | [] => []
  | c :: r => if p c then dropWhile p r else s
  end.

Definition trimStart (s : jstr) : jstr := dropWhile isSpace s.
Definition trimEnd (s : jstr) : jstr := rev (dropWhile isSpace (rev s)).
Definition trim (s : jstr) : jstr := trimEnd (trimStart s).

Fixpoint eqb (a b : jstr) : bool :=
  match a, b with
  | [], [] => true
  | x :: a', y :: b' => (x =? y) && eqb a' b'
  | _, _ => false
  end.

Fixpoint startsWith (s key : jstr) : bool :=
  match key, s with
  | [], _ => true
  | k :: key', c :: s' => (c =? k) && startsWith s' key'
  | _ :: _, [] => false
  end.

(** [s.includes(key)] *)
Fixpoint includes (s key : jstr) : bool :=
  startsWith s key ||
  match s with
  | [] => false
  | _ :: r => includes r key
  end.

Definition includesCU (s : jstr) (c : cu) : bool := existsb (Z.eqb c) s.

(** [s.split(c)] for a one-character separator. *)
Fixpoint splitCU (c : cu) (s : jstr) : list jstr :=
  match s with
  | [] => [[]]
  | x :: r =>
      if x =? c then [] :: splitCU c r
      else match splitCU c r with
           | [] => [[x]]
           | h :: t => (x :: h) :: t
           end
  end.

(** [parts.join(sep)] *)
Fixpoint join (sep : jstr) (parts : list jstr) : jstr :=
  match parts with
  | [] => []
  | [p] => p
  | p :: ps => p ++ sep ++ join sep ps
  end.

(** [s.replace(/[...]/g, by)] for a one-character class. *)
Definition replaceCU (p : cu -> bool) (by_ : jstr) (s : jstr) : jstr :=
  flat_map (fun c => if p c then by_ else [c]) s.

(** [s.replace(/pat/g, by)] for a literal, non-empty [pat]: [skip] counts
    the code units of a replaced occurrence still to be dropped. *)
Fixpoint replaceLitFrom (pat by_ : jstr) (skip : nat) (s : jstr) : jstr :=
  match s with
  | [] => []
  | c :: r =>
      match skip with
      | S k => replaceLitFrom pat by_ k r
      | O =>
          if startsWith s pat
          then by_ ++ replaceLitFrom pat by_ (Nat.pred (List.length pat)) r
          else c :: replaceLitFrom pat by_ O r
      end
  end.

Definition replaceLit (pat by_ s : jstr) : jstr := replaceLitFrom pat by_ O s.

(** [s.substring(0, n)] *)
Definition substring0 (n : nat) (s : jstr) : jstr := firstn n s.

(** [parseInt(s, 10)] on a run of decimal digits, which is all the
    program passes to it (every argument is a [\d{..}] capture). *)
Definition parseInt (s : jstr) : Z :=
  fold_left (fun acc c => 10 * acc + (c - 48)) s 0.

(** [String(n)] for an integer. *)
Fixpoint digitsOf (fuel : nat) (n : Z) (acc : jstr) : jstr :=
  match fuel with
  | O => acc
  | S f =>
      let acc' := (48 + n mod 10) :: acc in
      if n / 10 =? 0 then acc' else digitsOf f (n / 10) acc'
  end.

Definition ofNat (n : Z) : jstr := digitsOf (S (Z.to_nat (Z.log2 n))) n [].

Definition ofInt (n : Z) : jstr :=
  if n <? 0 then 45 :: ofNat (- n) else ofNat n.

(** [s.padStart(2, '0')] *)
Definition padStart2 (s : jstr) : jstr :=
  match s with
  | [] => [48; 48]
  | [c] => [48; c]
  | _ => s
  end.

Definition hexDigit (d : Z) : cu := if d <? 10 then 48 + d else 87 + d.

Fixpoint hexOf (fuel : nat) (n : Z) (acc : jstr) : jstr :=
  match fuel with
  | O => acc
  | S f =>
      let acc' := hexDigit (n mod 16) :: acc in
      if n / 16 =? 0 then acc' else hexOf f (n / 16) acc'
  end.

(** [n.toString(16)] for a non-negative integer. *)
Definition toHex (n : Z) : jstr := hexOf (S (Z.to_nat (Z.log2 n))) n [].

Definition truthy (s : jstr) : bool :=
  match s with [] => false | _ => true end.

End JS.

Import JS.

(* ------------------------------------------------------------------ *)
(** ** Numbers

    The program computes with a Number that is not an integer read digit
    by digit in one place, the serial branch of [parseDate]: [isNaN] and
    [parseFloat] of a text, a subtraction, two multiplications and
    [new Date].  A finite Number is held as the fraction [num / den] it
    stands for ([den] positive); every operation rounds its exact result
    to the nearest double, to the even mantissa on a tie, as IEEE 754
    binary64 does.  The sign of a zero plays no part in what follows and
    is not kept. *)

Module Num.

Inductive number : Type :=
| NaN
| Inf (negative : bool)
| Fin (num den : Z).

(** [floor (log2 (n / d))] for [n] and [d] positive. *)
Definition ilog2 (n d : Z) : Z :=
  if d <=? n then Z.log2 (n / d) else - Z.log2_up ((d + n - 1) / n).

(** The integer nearest to [n / d], the even one of two that are equally
    near. *)
Definition nearestEven (n d : Z) : Z :=
  let q := n / d in
  let r := n mod d in
  if 2 * r <? d then q
  else if d <? 2 * r then q + 1
  else if Z.even q then q else q + 1.

(** The double nearest to [n / d], for [n] and [d] positive: a mantissa
    of at most 53 bits at the scale [2^s] of the value, which is at least
    the scale of the subnormals; beyond the largest double, infinity. *)
Definition roundPos (n d : Z) : number :=
  let e := ilog2 n d in
  let s := Z.max (e - 52) (- 1074) in
  if 0 <=? s then
    let m := nearestEven n (d * 2 ^ s) in
    if 2 ^ 1024 <=? m * 2 ^ s then Inf false else Fin (m * 2 ^ s) 1
  else
    Fin (nearestEven (n * 2 ^ (- s)) d) (2 ^ (- s)).

Definition negate (x : number) : number :=
  match x with
  | NaN => NaN
  | Inf b => Inf (negb b)
  | Fin n d => Fin (- n) d
  end.

(** The double nearest to [n / d], for [d] positive. *)
Definition round (n d : Z) : number :=
  if n =? 0 then Fin 0 1
  else if 0 <? n then roundPos n d
  else negate (roundPos (- n) d).

(** [x - k] and [x * k] for an integer [k] that is itself a Number, [k]
    positive in the product. *)
Definition sub (x : number) (k : Z) : number :=
  match x with
  | Fin n d => round (n - k * d) d
  | other => other
  end.

Definition mul (x : number) (k : Z) : number :=
  match x with
  | Fin n d => round (n * k) d
  | other => other
  end.

(** [x > k] *)
Definition gt (x : number) (k : Z) : bool :=
  match x with
  | NaN => false
  | Inf b => negb b
  | Fin n d => k * d <? n
  end.

Definition isNaN (x : number) : bool :=
  match x with NaN => true | _ => false end.

(** The decimal digits at the head of a text, and what follows them. *)
Fixpoint spanDigits (s : jstr) : jstr * jstr :=
  match s with
  | [] => ([], [])
  | c :: r =>
      if isDigit c then let (ds, rest) := spanDigits r in (c :: ds, rest)
      else ([], s)
  end.

(** ExponentPart at the head of [s], if there is one: its value and what
    follows it; otherwise 0 and [s]. *)
Definition exponentPart (s : jstr) : Z * jstr :=
  match s with
  | c :: r =>
      if (c =? 101) || (c =? 69) then
        let (sign, r') :=
          match r with
          | x :: r1 =>
              if x =? 43 then (1, r1)
              else if x =? 45 then (- 1, r1) else (1, r)
          | [] => (1, r)
          end in
        match spanDigits r' with
        | ([], _) => (0, s)
        | (ds, rest) => (sign * parseInt ds, rest)
        end
      else (0, s)
  | [] => (0, s)
  end.

(** The mathematical value of a literal: infinity, or [mantissa] times a
    power of ten. *)
Inductive literal : Type :=
| LitInfinity
| LitDecimal (mantissa exp10 : Z).

(** The longest StrUnsignedDecimalLiteral at the head of [s], with what
    follows it: [Infinity], digits with an optional fraction, or a
    fraction alone, and an optional exponent. *)
Definition unsignedLiteral (s : jstr) : option (literal * jstr) :=
  if startsWith s (lit "Infinity") then Some (LitInfinity, skipn 8 s)
  else
    let (ip, r) := spanDigits s in
    let fraction (r1 : jstr) :=
      let (fp, r2) := spanDigits r1 in
      let (e, r3) := exponentPart r2 in
      (fp, LitDecimal (parseInt (ip ++ fp)) (e - Z.of_nat (List.length fp)),
       r3) in
    match ip, r with
    | _ :: _, c :: r1 =>
        if c =? 46 then
          let '(_, l, r3) := fraction r1 in Some (l, r3)
        else
          let (e, r3) := exponentPart r in Some (LitDecimal (parseInt ip) e, r3)
    | _ :: _, [] => Some (LitDecimal (parseInt ip) 0, [])
    | [], c :: r1 =>
        if c =? 46 then
          match fraction r1 with
          | ([], _, _) => None
          | (_ :: _, l, r3) => Some (l, r3)
          end
        else None
    | [], [] => None
    end.

(** The longest StrDecimalLiteral at the head of [s]: an optional sign and
    an unsigned literal. *)
Definition decimalLiteral (s : jstr) : option (bool * literal * jstr) :=
  match s with
  | c :: r =>
      if c =? 43 then
        match unsignedLiteral r with
        | Some (l, rest) => Some (false, l, rest)
        | None => None
        end
      else if c =? 45 then
        match unsignedLiteral r with
        | Some (l, rest) => Some (true, l, rest)
        | None => None
        end
      else
        match unsignedLiteral s with
        | Some (l, rest) => Some (false, l, rest)
        | None => None
        end
  | [] => None
  end.

(** The Number a literal stands for. *)
Definition literalValue (negative : bool) (l : literal) : number :=
  match l with
  | LitInfinity => Inf negative
  | LitDecimal m e =>
      let x := if 0 <=? e then round (m * 10 ^ e) 1 else round m (10 ^ (- e)) in
      if negative then negate x else x
  end.

(** [parseFloat(s)]: leading white space is skipped, what follows the
    literal is ignored. *)
Definition parseFloat (s : jstr) : number :=
  match decimalLiteral (trimStart s) with
  | Some (negative, l, _) => literalValue negative l
  | None => NaN
  end.

Definition digitValue (c : cu) : Z :=
  if isDigit c then c - 48
  else if between 97 102 c then c - 87
  else if between 65 70 c then c - 55
  else 99.

(** NonDecimalIntegerLiteral: [0x], [0o] or [0b] and digits of that
    radix. *)
Definition radixLiteral (s : jstr) : option Z :=
  match s with
  | 48 :: x :: d :: ds =>
      let radix :=
        if (x =? 120) || (x =? 88) then 16
        else if (x =? 111) || (x =? 79) then 8
        else if (x =? 98) || (x =? 66) then 2
        else 0 in
      if (0 <? radix) && forallb (fun c => digitValue c <? radix) (d :: ds)
      then Some (fold_left (fun acc c => radix * acc + digitValue c) (d :: ds) 0)
      else None
  | _ => None
  end.

(** [Number(s)], the conversion [isNaN] applies to a text: white space
    around the text is skipped, the empty text is 0, and the whole of the
    rest has to be a literal. *)
Definition toNumber (s : jstr) : number :=
  let t := trim s in
  match t with
  | [] => Fin 0 1
  | _ :: _ =>
      match radixLiteral t with
      | Some v => round v 1
      | None =>
          match decimalLiteral t with
          | Some (negative, l, []) => literalValue negative l
          | _ => NaN
          end
      end
  end.

(** [new Date(x)] for a Number of milliseconds, read back as the day its
    time value lies in: TimeClip refuses what is not finite or beyond
    8.64e15 and cuts the fraction off; the day is the time value divided
    by 86400000, rounded down.  [None] is the Invalid Date. *)
Definition dayOfTime (x : number) : option Z :=
  match x with
  | Fin n d =>
      if Z.abs n <=? 8640000000000000 * d
      then Some (Z.quot n d / 86400000)
      else None
  | _ => None
  end.

End Num.

(* ------------------------------------------------------------------ *)
(** ** Regular expressions

    The constructors are the pattern syntax the source uses.  The matcher
    is written in continuation-passing style: [mt ic r s k] matches [r] at
    the state [s] and hands every way of doing so to [k], in priority
    order, until [k] accepts.  [ic] is the [i] flag. *)

Module Regex.

Inductive re : Type :=
| Eps                          (* (?:) *)
| Chr (c : cu)                 (* a literal character *)
| Cls (p : cu -> bool)         (* [...], \d, \s, . *)
| Cat (a b : re)               (* ab *)
| Alt (a b : re)               (* a|b *)
| Star (a : re)                (* a* *)
| Opt (a : re)                 (* a? *)
| Grp (n : nat) (a : re)       (* the n-th capturing group *)
| Bol                          (* ^ *)
| Eol                          (* $ *)
| Wb.                          (* \b *)

(** a+ , a{n} , a{0,n} , a{m,n} (as [Range m (n-m)]) , a{n,} *)
Definition Plus (a : re) : re := Cat a (Star a).

Fixpoint Rep (n : nat) (a : re) : re :=
  match n with
  | O => Eps
  | S n' => Cat a (Rep n' a)
  end.

Fixpoint Upto (n : nat) (a : re) : re :=
  match n with
  | O => Eps
  | S n' => Opt (Cat a (Upto n' a))
  end.

Definition Range (m extra : nat) (a : re) : re := Cat (Rep m a) (Upto extra a).
Definition AtLeast (n : nat) (a : re) : re := Cat (Rep n a) (Star a).

Fixpoint Seq (rs : list re) : re :=
  match rs with
  | [] => Eps
  | [r] => r
  | r :: rs' => Cat r (Seq rs')
  end.

Fixpoint Str (s : jstr) : re :=
  match s with
  | [] => Eps
  | [c] => Chr c
  | c :: s' => Cat (Chr c) (Str s')
  end.

Fixpoint OneOf (rs : list re) : re :=
  match rs with
  | [] => Cls (fun _ => false)
  | [r] => r
  | r :: rs' => Alt r (OneOf rs')
  end.

(** A matcher state: the code unit before the current position (for
    [^] and [\b]), the input still to read, the captures so far (most
    recent first). *)
Record st : Type := { prev : option cu; rest : jstr; caps : list (nat * jstr) }.

Definition advance (x : cu) (t : jstr) (s : st) : st :=
  {| prev := Some x; rest := t; caps := caps s |}.

(** The text consumed between two states of one run. *)
Definition consumed (s s1 : st) : jstr :=
  firstn (List.length (rest s) - List.length (rest s1)) (rest s).

Definition progressed (s s1 : st) : bool :=
  (List.length (rest s1) <? List.length (rest s))%nat.

Definition setCap (n : nat) (txt : jstr) (s : st) : st :=
  {| prev := prev s; rest := rest s; caps := (n, txt) :: caps s |}.

(** Canonicalize of a pattern without the [u] flag: a code unit outside
    ASCII never folds onto an ASCII one. *)
Definition canon (ic : bool) (c : cu) : cu := if ic then upperCU c else c.

Definition inClass (ic : bool) (p : cu -> bool) (x : cu) : bool :=
  p x || (ic && (p (lowerCU x) || p (upperCU x))).

Definition wordBefore (s : st) : bool :=
  match prev s with Some c => isWord c | None => false end.
Definition wordAfter (s : st) : bool :=
  match rest s with c :: _ => isWord c | [] => false end.

Definition orElse {A} (a b : option A) : option A :=
  match a with Some x => Some x | None => b end.

(** The loop of a starred [body] followed by [k].  A turn of the body that
    matched the empty string is refused, as in RepeatMatcher; so from a
    state with [n] code units left the body runs at most [n] times, and
    the count [n] is the loop of the ECMAScript matcher, not a cut-off
    ([starLoop_enough] below). *)
Fixpoint starLoop (body : st -> (st -> option st) -> option st)
         (k : st -> option st) (n : nat) (s0 : st) {struct n} : option st :=
  match n with
  | O => k s0
  | S n' =>
      orElse
        (body s0 (fun s1 => if progressed s0 s1 then starLoop body k n' s1
                            else None))
        (k s0)
  end.

Fixpoint mt (ic : bool) (r : re) (s : st) (k : st -> option st) {struct r}
  : option st :=
  match r with
  | Eps => k s
  | Chr c =>
      match rest s with
      | x :: t => if canon ic x =? canon ic c then k (advance x t s) else None
      | [] => None
      end
  | Cls p =>
      match rest s with
      | x :: t => if inClass ic p x then k (advance x t s) else None
      | [] => None
      end
  | Cat a b => mt ic a s (fun s1 => mt ic b s1 k)
  | Alt a b => orElse (mt ic a s k) (mt ic b s k)
  | Opt a =>
      orElse (mt ic a s (fun s1 => if progressed s s1 then k s1 else None))
             (k s)
  | Star a => starLoop (mt ic a) k (List.length (rest s)) s
  | Grp n a => mt ic a s (fun s1 => k (setCap n (consumed s s1) s1))
  | Bol => match prev s with None => k s | Some _ => None end
  | Eol => match rest s with [] => k s | _ :: _ => None end
  | Wb => if xorb (wordBefore s) (wordAfter s) then k s else None
  end.

(** A pattern every match of which reads a code unit that satisfies
    [q]. *)
Inductive Needs (ic : bool) (q : cu -> bool) : re -> Prop :=
| Needs_chr (c : cu) :
    (forall x, canon ic x = canon ic c -> q x = true) -> Needs ic q (Chr c)
| Needs_cls (p : cu -> bool) :
    (forall x, inClass ic p x = true -> q x = true) -> Needs ic q (Cls p)
| Needs_cat_l (a b : re) : Needs ic q a -> Needs ic q (Cat a b)
| Needs_cat_r (a b : re) : Needs ic q b -> Needs ic q (Cat a b)
| Needs_alt (a b : re) : Needs ic q a -> Needs ic q b -> Needs ic q (Alt a b)
| Needs_grp (n : nat) (a : re) : Needs ic q a -> Needs ic q (Grp n a).

(** [a] is what remains of [b] after some code units. *)
Definition suffixOf (a b : jstr) : Prop := exists pre, b = pre ++ a.

(** One match: where it starts, what it covers, its captures, and the
    state after it. *)
Record rmatch : Type :=
  { index : nat; whole : jstr; groups : list (nat * jstr); after : st }.

Definition matchAt (ic : bool) (r : re) (p : option cu) (s : jstr)
  : option st :=
  mt ic r {| prev := p; rest := s; caps := [] |} Some.

Definition mkMatch (i : nat) (s : jstr) (e : st) : rmatch :=
  {| index := i;
     whole := firstn (List.length s - List.length (rest e)) s;
     groups := caps e;
     after := e |}.

(** [r.exec(s)] from position [i], leftmost start first. *)
Fixpoint searchFrom (ic : bool) (r : re) (p : option cu) (s : jstr) (i : nat)
  : option rmatch :=
  match matchAt ic r p s with
  | Some e => Some (mkMatch i s e)
  | None =>
      match s with
      | [] => None
      | c :: t => searchFrom ic r (Some c) t (S i)
      end
  end.

(** [s.match(r)] for [r] without the [g] flag. *)
Definition exec (ic : bool) (r : re) (s : jstr) : option rmatch :=
  searchFrom ic r None s O.

Fixpoint lookupCap (n : nat) (cs : list (nat * jstr)) : option jstr :=
  match cs with
  | [] => None
  | (m, t) :: cs' => if Nat.eqb m n then Some t else lookupCap n cs'
  end.

(** [m[n]], [None] for a group that took no part in the match. *)
Definition group (m : rmatch) (n : nat) : option jstr := lookupCap n (groups m).

(** [m[n]] where the group is on every path of the pattern. *)
Definition group' (m : rmatch) (n : nat) : jstr :=
  match group m n with Some t => t | None => [] end.

(** [s.match(r)] for [r] with the [g] flag: the matched texts, left to
    right; after an empty match the search resumes one code unit on. *)
Fixpoint matchAllFrom (n : nat) (ic : bool) (r : re) (p : option cu) (s : jstr)
  : list jstr :=
  match n with
  | O => []
  | S n' =>
      match searchFrom ic r p s O with
      | None => []
      | Some m =>
          whole m ::
          match whole m, rest (after m) with
          | [], [] => []
          | [], c :: t => matchAllFrom n' ic r (Some c) t
          | _ :: _, _ => matchAllFrom n' ic r (prev (after m)) (rest (after m))
          end
      end
  end.

Definition matchAll (ic : bool) (r : re) (s : jstr) : list jstr :=
  matchAllFrom (S (List.length s)) ic r None s.

(** [s.replace(r, by)] for [r] with the [g] flag and a literal [by]. *)
Fixpoint replaceAllFrom (n : nat) (ic : bool) (r : re) (by_ : jstr)
         (p : option cu) (s : jstr) : jstr :=
  match n with
  | O => s
  | S n' =>
      match searchFrom ic r p s O with
      | None => s
      | Some m =>
          firstn (index m) s ++ by_ ++
          match whole m, rest (after m) with
          | [], [] => []
          | [], c :: t => c :: replaceAllFrom n' ic r by_ (Some c) t
          | _ :: _, _ =>
              replaceAllFrom n' ic r by_ (prev (after m)) (rest (after m))
          end
      end
  end.

Definition replaceAll (ic : bool) (r : re) (by_ s : jstr) : jstr :=
  replaceAllFrom (S (List.length s)) ic r by_ None s.

(** [s.split(r)] for a pattern without captures.  [acc] holds, reversed,
    the piece being collected; a separator is a match that ends beyond
    the start of that piece. *)
Fixpoint splitFrom (n : nat) (ic : bool) (r : re) (acc : jstr)
         (p : option cu) (s : jstr) : list jstr :=
  match n with
  | O => [rev acc ++ s]
  | S n' =>
      match s with
      | [] => [rev acc]
      | c :: t =>
          match matchAt ic r p s with
          | None => splitFrom n' ic r (c :: acc) (Some c) t
          | Some e =>
              if (List.length (rest e) <? List.length s)%nat
              then rev acc :: splitFrom n' ic r [] (prev e) (rest e)
              else match acc with
                   | [] => splitFrom n' ic r [c] (Some c) t
                   | _ :: _ => rev acc :: splitFrom n' ic r [] p s
                   end
          end
      end
  end.

Definition split (ic : bool) (r : re) (s : jstr) : list jstr :=
  match s with
  | [] => match matchAt ic r None [] with Some _ => [] | None => [[]] end
  | _ :: _ => splitFrom (S (2 * List.length s)) ic r [] None s
  end.

(** Character classes of the source. *)
Definition digit : re := Cls isDigit.                     (* \d *)
Definition space : re := Cls isSpace.                     (* \s *)
Definition alpha : re := Cls isAlpha.                     (* [A-Za-z] *)
Definition anyChar : re := Cls (fun c => negb (isLineTerminator c)). (* . *)
Definition among (cs : list cu) : re := Cls (fun c => existsb (Z.eqb c) cs).

End Regex.

Import Regex.


(* ------------------------------------------------------------------ *)
(** ** Data model *)

Inductive DayCode : Type := SU | MO | TU | WE | TH | FR | SA.

Definition DayCode_eqb (a b : DayCode) : bool :=
  match a, b with
  | SU, SU | MO, MO | TU, TU | WE, WE | TH, TH | FR, FR | SA, SA => true
  | _, _ => false
  end.

(** The two-letter text of a code, as the arrays of the source hold it. *)
Definition dayText (d : DayCode) : jstr :=
  match d with
  | SU => lit "SU" | MO => lit "MO" | TU => lit "TU" | WE => lit "WE"
  | TH => lit "TH" | FR => lit "FR" | SA => lit "SA"
  end.

Record ClockTime : Type := { hours : Z; minutes : Z }.
Record CalendarDate : Type := { year : Z; month : Z; day : Z }.

(** A date object [{year, month, day}]: its three fields are integers, or
    all three are NaN, which is what [parseDate] reads out of an Invalid
    Date. *)
Inductive DateValue : Type :=
| Calendar (d : CalendarDate)
| NaNDate.

(** A cell of the decoded sheet, and any value the program copies from
    one: a text or a number.  The program never computes with a number
    cell: it tests it for truthiness, compares it with [''], asks for its
    [typeof], writes it into a template literal, or calls a string method
    on it, which throws.  A number is therefore held as the text [String]
    gives for it; it is falsy when it is zero or NaN.  A boolean cell goes
    the way of a number: [true] that of one that is not zero, with the
    text [true], and [false] that of zero. *)
Inductive Cell : Type :=
| Text (s : jstr)
| Num (shown : jstr).

Definition cellTruthy (c : Cell) : bool :=
  match c with
  | Text s => truthy s
  | Num shown => negb (JS.eqb shown (lit "0") || JS.eqb shown (lit "NaN"))
  end.

(** [String(v)], which is also what a template literal writes for [v]. *)
Definition cellString (c : Cell) : jstr :=
  match c with
  | Text s => s
  | Num shown => shown
  end.

(** What [parseSinglePattern] and [parseMeetingPatterns] build.  [error] is
    the property only the failure branch of [parseMeetingPatterns] sets. *)
Record MeetingPattern : Type :=
  { p_days : list DayCode;
    p_startTime : option ClockTime;
    p_endTime : option ClockTime;
    p_startDate : option DateValue;
    p_endDate : option DateValue;
    p_location : jstr;
    p_raw : Cell;
    p_error : bool }.

(** What [parseRow] returns, one per pattern. *)
Record MeetingEvent : Type :=
  { courseCode : jstr;
    courseTitle : jstr;
    section : Cell;
    format : Cell;
    deliveryMode : Cell;
    instructor : Cell;
    days : list DayCode;
    startTime : option ClockTime;
    endTime : option ClockTime;
    startDate : option DateValue;
    endDate : option DateValue;
    location : jstr;
    raw : Cell }.

(** A row of the decoded sheet: its cells in column order, keyed by the
    header text (the decoder's empty-string default included). *)
Definition Row : Type := list (jstr * Cell).

(** A TypeError is the only exception the program can raise: reading a
    property of [null] or [undefined] throws one, and so does calling a
    string method on a number. *)
Inductive exn : Type := TypeError.

Inductive result (A : Type) : Type :=
| Ok (a : A)
| Throw (e : exn).
Arguments Ok {A} a.
Arguments Throw {A} e.

Definition bind {A B} (r : result A) (f : A -> result B) : result B :=
  match r with
  | Ok a => f a
  | Throw e => Throw e
  end.

Notation "x <- r ;; k" := (bind r (fun x => k))
  (at level 61, r at next level, right associativity).

(** An entry of the [errors] of [parse]: the text for a sheet without
    rows, or [`Error parsing row: ${e.message}`] for the exception a row
    raised, whose message text is the engine's. *)
Inductive Message : Type :=
| NoData
| RowError (e : exn).

(* ------------------------------------------------------------------ *)
(** ** The platform's [Date]

    A [Date] is modelled by its day number (days since 1970-01-01), or
    [None] for an Invalid Date.  The program only builds dates at midnight
    and only reads their calendar fields, so the time of day and the zone
    play no part; the proleptic Gregorian calendar is the one of
    ECMAScript. *)

Module Cal.

Definition isLeap (y : Z) : bool :=
  ((y mod 4 =? 0) && negb (y mod 100 =? 0)) || (y mod 400 =? 0).

Definition daysInMonth (y m : Z) : Z :=
  if m =? 2 then (if isLeap y then 29 else 28)
  else if (m =? 4) || (m =? 6) || (m =? 9) || (m =? 11) then 30
  else 31.

(** The calendar repeats every 400 years, 146097 days; the computations
    below count within such an era, in years that begin on 1 March.  A
    day [doe] of the era lies in century [centuryOf], there in the
    four-year cycle [cycleOf], there in year [yearOfCycle]; the last day of
    a cycle and of the era is a 29 February, hence the [Z.min]. *)
Definition centuryOf (doe : Z) : Z := Z.min 3 (doe / 36524).
Definition cycleOf (doe : Z) : Z := (doe - centuryOf doe * 36524) / 1461.
Definition dayOfCycle (doe : Z) : Z :=
  doe - centuryOf doe * 36524 - cycleOf doe * 1461.
Definition yearOfCycle (doe : Z) : Z := Z.min 3 (dayOfCycle doe / 365).
Definition yoeOf (doe : Z) : Z :=
  100 * centuryOf doe + 4 * cycleOf doe + yearOfCycle doe.
Definition yearStart (yoe : Z) : Z := 365 * yoe + yoe / 4 - yoe / 100.
Definition doyOf (doe : Z) : Z := dayOfCycle doe - yearOfCycle doe * 365.
Definition mpOf (doy : Z) : Z := (5 * doy + 2) / 153.
Definition monthStart (mp : Z) : Z := (153 * mp + 2) / 5.
Definition monthOfMp (mp : Z) : Z := if mp <? 10 then mp + 3 else mp - 9.
Definition mpOfMonth (m : Z) : Z := (m + 9) mod 12.

(** Day number of the civil date [y]-[m]-[d], for [m] in 1..12; [d] may be
    any integer and counts on from the first of the month. *)
Definition daysFromCivil (y m d : Z) : Z :=
  let y' := if m <=? 2 then y - 1 else y in
  let era := y' / 400 in
  let yoe := y' mod 400 in
  let doy := monthStart (mpOfMonth m) + d - 1 in
  era * 146097 + (yearStart yoe + doy) - 719468.

(** Civil date of a day number. *)
Definition civilFromDays (n : Z) : CalendarDate :=
  let z := n + 719468 in
  let era := z / 146097 in
  let doe := z mod 146097 in
  let yoe := yoeOf doe in
  let doy := doyOf doe in
  let mp := mpOf doy in
  let m := monthOfMp mp in
  {| year := yoe + era * 400 + (if m <=? 2 then 1 else 0);
     month := m;
     day := doy - monthStart mp + 1 |}.

(** MakeDay(year, month, date) with a zero-based, possibly overflowing
    month. *)
Definition makeDay (y m0 dt : Z) : Z :=
  daysFromCivil (y + m0 / 12) (m0 mod 12 + 1) 1 + dt - 1.

(** TimeClip: a time value is kept within 100,000,000 days of the epoch. *)
Definition timeClip (n : Z) : option Z :=
  if Z.abs n <=? 100000000 then Some n else None.

(** [new Date(y, m0, d)]; a year 0..99 means 1900..1999. *)
Definition newDate (y m0 d : Z) : option Z :=
  let yr := if (0 <=? y) && (y <=? 99) then 1900 + y else y in
  timeClip (makeDay yr m0 d).

Definition getFullYear (t : Z) : Z := year (civilFromDays t).
Definition getMonth (t : Z) : Z := month (civilFromDays t) - 1.
Definition getDate (t : Z) : Z := day (civilFromDays t).
(** 1970-01-01 was a Thursday. *)
Definition getDay (t : Z) : Z := (t + 4) mod 7.

(** [date.setDate(dt)] *)
Definition setDate (t : Z) (dt : Z) : option Z :=
  timeClip (makeDay (getFullYear t) (getMonth t) dt).

End Cal.

(* ------------------------------------------------------------------ *)
(** ** The patterns of [parser.js] *)

Module Pat.

Definition chr (a : ascii) : cu := Z.of_N (N_of_ascii a).
Definition CH (a : ascii) : re := Chr (chr a).
Arguments chr a%_char.
Arguments CH a%_char.

Definition LF : cu := 10.
Definition CR : cu := 13.
Definition HYPHEN : cu := 45.
Definition EN_DASH : cu := 8211.
Definition EM_DASH : cu := 8212.

(** [[-–—to]+] *)
Definition dashTo : re :=
  Plus (among [HYPHEN; EN_DASH; EM_DASH; chr "t"; chr "o"]).

(** [\d{1,2}(?::\d{2})?\s*(?:AM|PM|a\.m\.|p\.m\.)?] *)
Definition timeAtom : re :=
  Seq [Range 1 1 digit;
       Opt (Cat (CH ":") (Rep 2 digit));
       Star space;
       Opt (OneOf [Str (lit "AM"); Str (lit "PM");
                   Str (lit "a.m."); Str (lit "p.m.")])].

(** The time-range pattern of [parseTimeRange] and [parsePatternWithRegex]
    (flag [i]). *)
Definition timeRange : re :=
  Seq [Grp 1 timeAtom; Star space; dashTo; Star space; Grp 2 timeAtom].

(** [[A-Za-z]{3}\s+\d{1,2}(?:,?\s+\d{4})?|\d{4}-\d{2}-\d{2}] *)
Definition dateAtom : re :=
  Alt (Seq [Rep 3 alpha; Plus space; Range 1 1 digit;
            Opt (Seq [Opt (CH ","); Plus space; Rep 4 digit])])
      (Seq [Rep 4 digit; CH "-"; Rep 2 digit; CH "-"; Rep 2 digit]).

(** The date-range pattern of [parseDateRange] and [parsePatternWithRegex]
    (flag [i]). *)
Definition dateRange : re :=
  Seq [Grp 1 dateAtom; Star space; dashTo; Star space; Grp 2 dateAtom].

(** [dayTokensRegex] (flags [gi]) *)
Definition dayTokens : re :=
  Seq [Wb;
       Grp 1 (OneOf (map (fun w => Str (lit w))
         ["Monday"; "Tuesday"; "Wednesday"; "Thursday"; "Friday"; "Saturday";
          "Sunday"; "Mon"; "Tue"; "Wed"; "Thu"; "Fri"; "Sat"; "Sun";
          "Mo"; "Tu"; "We"; "Th"; "Fr"; "Sa"; "Su"]%string));
       Wb].

(** [/\|\s*([^|]+)$/] *)
Definition trailingPipe : re :=
  Seq [CH "|"; Star space;
       Grp 1 (Plus (Cls (fun c => negb (c =? chr "|")))); Eol].

(** [/\b([A-Z0-9]{2,}\s+\d{2,})\b/] *)
Definition room : re :=
  Seq [Wb;
       Grp 1 (Seq [AtLeast 2 (Cls (fun c => isUpper c || isDigit c));
                   Plus space; AtLeast 2 digit]);
       Wb].

(** [/(\d{1,2}):(\d{2})\s*(AM|PM)?/] *)
Definition clock : re :=
  Seq [Grp 1 (Range 1 1 digit); CH ":"; Grp 2 (Rep 2 digit); Star space;
       Opt (Grp 3 (Alt (Str (lit "AM")) (Str (lit "PM"))))].

(** [/(\d{4})-(\d{2})-(\d{2})/] *)
Definition isoDate : re :=
  Seq [Grp 1 (Rep 4 digit); CH "-"; Grp 2 (Rep 2 digit); CH "-";
       Grp 3 (Rep 2 digit)].

(** [/([A-Za-z]{3})[a-z]*\s+(\d{1,2})(?:,?\s+(\d{4}))?/i] *)
Definition textDate : re :=
  Seq [Grp 1 (Rep 3 alpha); Star (Cls isLower); Plus space;
       Grp 2 (Range 1 1 digit);
       Opt (Seq [Opt (CH ","); Plus space; Grp 3 (Rep 4 digit)])].

(** [/^([A-Z]{2,4}\s*\d{3}[A-Z]?)\s*[-–—]\s*(.+)$/i] *)
Definition courseTitleRe : re :=
  Seq [Bol;
       Grp 1 (Seq [Range 2 2 (Cls isUpper); Star space; Rep 3 digit;
                   Opt (Cls isUpper)]);
       Star space; among [HYPHEN; EN_DASH; EM_DASH]; Star space;
       Grp 2 (Plus anyChar);
       Eol].

(** [<br\s*\/?>] *)
Definition brTag : re :=
  Seq [Str (lit "<br"); Star space; Opt (CH "/"); CH ">"].

(** [/(?:<br\s*\/?>|\n){2,}|(?:\r\n){2,}|(?:\n\s*\n)/gi] *)
Definition blockSeparator : re :=
  OneOf [AtLeast 2 (Alt brTag (Chr LF));
         AtLeast 2 (Cat (Chr CR) (Chr LF));
         Seq [Chr LF; Star space; Chr LF]].

(** [/\s+/] *)
Definition spaces : re := Plus space.

End Pat.

(* ------------------------------------------------------------------ *)
(** ** [WorkdayParser] *)

Module WorkdayParser.

Import Pat.

(** [normalizeTime(timeStr)] *)
Definition normalizeTime (timeStr : jstr) : option ClockTime :=
  if negb (truthy timeStr) then None else
  let cleaned := replaceCU (Z.eqb (chr ".")) [] (toUpperCase (trim timeStr)) in
  let cleaned :=
    if negb (includesCU cleaned (chr ":")) then cleaned ++ lit ":00"
    else cleaned in
  match exec false clock cleaned with
  | None => None
  | Some m =>
      let h := parseInt (group' m 1) in
      let mi := parseInt (group' m 2) in
      let period := group m 3 in
      let periodIs (p : jstr) :=
        match period with Some t => JS.eqb t p | None => false end in
      let h :=
        if periodIs (lit "PM") && negb (h =? 12) then h + 12
        else if periodIs (lit "AM") && (h =? 12) then 0
        else h in
      Some {| hours := h; minutes := mi |}
  end.

(** [parseTimeRange(timeStr)]: the pair is the object
    [{startTime, endTime}]. *)
Definition parseTimeRange (timeStr : jstr)
  : option ClockTime * option ClockTime :=
  match exec true timeRange timeStr with
  | Some m => (normalizeTime (group' m 1), normalizeTime (group' m 2))
  | None => (None, None)
  end.

(** The table [dayMap], in the order [Object.entries] lists it. *)
Definition dayMap : list (jstr * DayCode) :=
  map (fun kv => (lit (fst kv), snd kv))
    [("m", MO); ("mo", MO); ("mon", MO); ("monday", MO);
     ("t", TU); ("tu", TU); ("tue", TU); ("tues", TU); ("tuesday", TU);
     ("w", WE); ("we", WE); ("wed", WE); ("wednesday", WE);
     ("th", TH); ("thu", TH); ("thur", TH); ("thurs", TH); ("thursday", TH);
     ("r", TH);
     ("f", FR); ("fri", FR); ("friday", FR);
     ("s", SA); ("sa", SA); ("sat", SA); ("saturday", SA);
     ("su", SU); ("sun", SU); ("sunday", SU)]%string.

(** The inner loop of [parseDays]: the value of the first entry the token
    equals or, being longer than one code unit, starts with. *)
Fixpoint firstEntry (token : jstr) (entries : list (jstr * DayCode))
  : option DayCode :=
  match entries with
  | [] => None
  | (key, val) :: rest =>
      if JS.eqb token key
         || ((1 <? List.length token)%nat && startsWith token key)
      then Some val
      else firstEntry token rest
  end.

Definition daysInclude (ds : list DayCode) (v : DayCode) : bool :=
  existsb (DayCode_eqb v) ds.

(** One turn of the outer loop of [parseDays]. *)
Definition pushDay (ds : list DayCode) (token : jstr) : list DayCode :=
  match firstEntry token dayMap with
  | Some v => if daysInclude ds v then ds else ds ++ [v]
  | None => ds
  end.

Definition dayTokensOf (daysStr : jstr) : list jstr :=
  let normalized :=
    replaceCU (Z.eqb (chr ".")) []
      (replaceCU (fun c => (c =? chr ",") || (c =? chr "|")) (lit " ")
         (toLowerCase daysStr)) in
  split false spaces normalized.

(** [parseDays(daysStr)] *)
Definition parseDays (daysStr : jstr) : list DayCode :=
  if negb (truthy daysStr) then []
  else fold_left pushDay (dayTokensOf daysStr) [].

(** The month table of [parseDate]. *)
Definition monthNames : list (jstr * Z) :=
  map (fun kv => (lit (fst kv), snd kv))
    [("jan", 1); ("feb", 2); ("mar", 3); ("apr", 4); ("may", 5); ("jun", 6);
     ("jul", 7); ("aug", 8); ("sep", 9); ("oct", 10); ("nov", 11);
     ("dec", 12)]%string.

Fixpoint lookupMonth (key : jstr) (tbl : list (jstr * Z)) : option Z :=
  match tbl with
  | [] => None
  | (k, v) :: rest => if JS.eqb key k then Some v else lookupMonth key rest
  end.

(** [new Date((serial - 25569) * 86400 * 1000)] read back through
    [getUTCFullYear], [getUTCMonth() + 1] and [getUTCDate]; the fields of
    an Invalid Date are NaN. *)
Definition serialDate (serial : Num.number) : DateValue :=
  match Num.dayOfTime
          (Num.mul (Num.mul (Num.sub serial 25569) 86400) 1000) with
  | Some n => Calendar (Cal.civilFromDays n)
  | None => NaNDate
  end.

Section WithClock.

(** [new Date().getFullYear()] *)
Variable currentYear : Z.

(** [parseDate(dateStr)] *)
Definition parseDate (dateStr : jstr) : option DateValue :=
  if negb (truthy dateStr) then None else
  match exec false isoDate dateStr with
  | Some m =>
      Some (Calendar {| year := parseInt (group' m 1);
                        month := parseInt (group' m 2);
                        day := parseInt (group' m 3) |})
  | None =>
      if negb (Num.isNaN (Num.toNumber dateStr))
         && Num.gt (Num.parseFloat dateStr) 20000
      then
        let serial := Num.parseFloat dateStr in
        Some (serialDate serial)
      else
        match exec true textDate dateStr with
        | Some m =>
            let monthKey := toLowerCase (group' m 1) in
            let y := match group m 3 with
                     | Some t => parseInt t
                     | None => currentYear
                     end in
            match lookupMonth monthKey monthNames with
            | Some mo =>
                Some (Calendar {| year := y; month := mo;
                                  day := parseInt (group' m 2) |})
            | None => None
            end
        | None => None
        end
  end.

(** [parseDateRange(dateStr)]: the pair is [{startDate, endDate}]. *)
Definition parseDateRange (dateStr : jstr)
  : option DateValue * option DateValue :=
  match exec true dateRange dateStr with
  | Some m => (parseDate (group' m 1), parseDate (group' m 2))
  | None => (None, None)
  end.

Definition mkPattern (ds : list DayCode)
           (times : option ClockTime * option ClockTime)
           (dates : option DateValue * option DateValue)
           (loc : jstr) : MeetingPattern :=
  {| p_days := ds;
     p_startTime := fst times; p_endTime := snd times;
     p_startDate := fst dates; p_endDate := snd dates;
     p_location := loc; p_raw := Text []; p_error := false |}.

(** [parsePatternWithRegex(str)] *)
Definition parsePatternWithRegex (str : jstr) : MeetingPattern :=
  let dateMatch := exec true dateRange str in
  let timeMatch := exec true timeRange str in
  let dayMatches := matchAll true dayTokens str in
  let location :=
    match exec false trailingPipe str with
    | Some locMatch => group' locMatch 1
    | None =>
        match exec false room str with
        | Some roomMatch => group' roomMatch 1
        | None => []
        end
    end in
  let ds :=
    match dayMatches with
    | [] => []
    | _ :: _ => parseDays (join (lit " ") dayMatches)
    end in
  let times :=
    match timeMatch with
    | Some m => parseTimeRange (group' m 1 ++ lit " - " ++ group' m 2)
    | None => (None, None)
    end in
  let dates :=
    match dateMatch with
    | Some m => parseDateRange (group' m 1 ++ lit " - " ++ group' m 2)
    | None => (None, None)
    end in
  mkPattern ds times dates (trim location).

(** The strict, pipe-separated attempt of [parseSinglePattern]: the value
    of [result] before the fallback. *)
Definition parseStrict (patternStr : jstr) : option MeetingPattern :=
  if includesCU patternStr (chr "|") then
    let parts := map trim (splitCU (chr "|") patternStr) in
    if (2 <=? List.length parts)%nat then
      let ds := parseDays (nth 0 parts []) in
      let times := parseTimeRange (nth 1 parts []) in
      let dates :=
        if (2 <? List.length parts)%nat then parseDateRange (nth 2 parts [])
        else (None, None) in
      let loc := if (3 <? List.length parts)%nat then nth 3 parts [] else [] in
      if (0 <? List.length ds)%nat then Some (mkPattern ds times dates loc)
      else None
    else None
  else None.

(** [parseSinglePattern(patternStr)]; [None] is [null]. *)
Definition parseSinglePattern (patternStr : jstr) : option MeetingPattern :=
  let result := parseStrict patternStr in
  let result :=
    match result with
    | Some r => Some r
    | None => Some (parsePatternWithRegex patternStr)
    end in
  result.

Definition withRaw (p : MeetingPattern) (block : jstr) : MeetingPattern :=
  {| p_days := p_days p;
     p_startTime := p_startTime p; p_endTime := p_endTime p;
     p_startDate := p_startDate p; p_endDate := p_endDate p;
     p_location := p_location p; p_raw := Text block; p_error := p_error p |}.

Definition errorPattern (block : jstr) : MeetingPattern :=
  {| p_days := [];
     p_startTime := None; p_endTime := None;
     p_startDate := None; p_endDate := None;
     p_location := []; p_raw := Text block; p_error := true |}.

(** The blocks a cell is cut into. *)
Definition patternBlocks (patternsStr : jstr) : list jstr :=
  let cleanStr :=
    replaceLit (lit "&amp;") (lit "&")
      (replaceLit (lit "&nbsp;") (lit " ") patternsStr) in
  filter (fun s => (0 <? List.length s)%nat)
    (map (fun s => trim (replaceCU (Z.eqb LF) (lit " ")
                           (replaceAll false brTag (lit " ") s)))
         (split true blockSeparator cleanStr)).

(** [parseMeetingPatterns(patternsStr)]: a value that is no text, or a
    blank one, gives no pattern. *)
Definition parseMeetingPatterns (patternsStr : Cell) : list MeetingPattern :=
  match patternsStr with
  | Num _ => []
  | Text str =>
      if negb (truthy str) || JS.eqb (trim str) [] then []
      else
        map (fun block =>
               match parseSinglePattern block with
               | Some pattern => withRaw pattern block
               | None => errorPattern block
               end)
            (patternBlocks str)
  end.

(** [parseCourseTitle(title)]: the pair is [{code, title}]. *)
Definition parseCourseTitle (title : jstr) : jstr * jstr :=
  if negb (truthy title) then (lit "Unknown", [])
  else
    match exec true courseTitleRe title with
    | Some m => (toUpperCase (trim (group' m 1)), trim (group' m 2))
    | None => (substring0 20 title, title)
    end.

(** A call [f(v)] of one of [parseDate], [normalizeTime], [parseDays] and
    [parseCourseTitle] with a value read from a row.  Each of them begins
    with [if (!v) return ...], returning what it also returns for the
    empty text, and then calls a string method on [v]: on a number that
    is not falsy the call throws. *)
Definition applyTo {A} (f : jstr -> A) (v : option Cell) : result A :=
  match v with
  | Some (Text str) => Ok (f str)
  | Some (Num shown) =>
      if cellTruthy (Num shown) then Throw TypeError else Ok (f [])
  | None => Ok (f [])
  end.

(** [row[name]] *)
Fixpoint getCell (row : Row) (name : jstr) : option Cell :=
  match row with
  | [] => None
  | (k, v) :: rest => if JS.eqb k name then Some v else getCell rest name
  end.

(** [row[name] || ''] *)
Definition cellOrEmpty (row : Row) (name : string) : Cell :=
  match getCell row (lit name) with
  | Some v => if cellTruthy v then v else Text []
  | None => Text []
  end.
Arguments cellOrEmpty row name%_string.

(** [findColumnValue(row, possibleNames)] *)
Fixpoint findColumnValue (row : Row) (possibleNames : list jstr)
  : option Cell :=
  match row with
  | [] => None
  | (key, v) :: rest =>
      let keyLower := trim (toLowerCase key) in
      if existsb (fun name => JS.eqb keyLower (toLowerCase name)) possibleNames
      then Some v
      else findColumnValue rest possibleNames
  end.

Definition truthyCell (c : option Cell) : bool :=
  match c with Some v => cellTruthy v | None => false end.

(** [a || b] on values that are objects or missing. *)
Definition orOpt {A} (a b : option A) : option A :=
  match a with Some x => Some x | None => b end.

(** The test that sends [parseRow] to its first branch. *)
Definition needsExplicit (patterns : list MeetingPattern) : bool :=
  match patterns with
  | [] => true
  | [p] => p_error p
  | _ => false
  end.

Definition toEvent (courseInfo : jstr * jstr)
           (sec fmt mode instr meetingPatterns : Cell)
           (pattern : MeetingPattern) : MeetingEvent :=
  {| courseCode := fst courseInfo;
     courseTitle := snd courseInfo;
     section := sec;
     format := fmt;
     deliveryMode := mode;
     instructor := instr;
     days := p_days pattern;
     startTime := p_startTime pattern;
     endTime := p_endTime pattern;
     startDate := p_startDate pattern;
     endDate := p_endDate pattern;
     location := p_location pattern;
     raw := if cellTruthy (p_raw pattern) then p_raw pattern
            else meetingPatterns |}.

(** The patterns of a row after the explicit columns have been taken into
    account: the [if]/[else] in the middle of [parseRow]. *)
Definition reconcile (meetingPatterns : Cell)
           (globalDays : option (list DayCode))
           (globalDates : option (option DateValue * option DateValue))
           (globalTimes : option (option ClockTime * option ClockTime))
           (patterns : list MeetingPattern) : list MeetingPattern :=
  let gStartTime := match globalTimes with Some t => fst t | None => None end in
  let gEndTime := match globalTimes with Some t => snd t | None => None end in
  let gStartDate := match globalDates with Some d => fst d | None => None end in
  let gEndDate := match globalDates with Some d => snd d | None => None end in
  if needsExplicit patterns then
    match globalDays, globalDates, globalTimes with
    | None, None, None => patterns
    | _, _, _ =>
        let basePattern := hd_error patterns in
        let base {A} (f : MeetingPattern -> option A) : option A :=
          match basePattern with Some b => f b | None => None end in
        [{| p_days :=
              match globalDays with
              | Some ds => ds
              | None => match basePattern with
                        | Some b => p_days b
                        | None => []
                        end
              end;
            p_startTime := orOpt gStartTime (base p_startTime);
            p_endTime := orOpt gEndTime (base p_endTime);
            p_startDate := orOpt gStartDate (base p_startDate);
            p_endDate := orOpt gEndDate (base p_endDate);
            p_location :=
              match basePattern with Some b => p_location b | None => [] end;
            p_raw := meetingPatterns;
            p_error := false |}]
    end
  else
    map (fun p =>
           {| p_days :=
                if (0 <? List.length (p_days p))%nat then p_days p
                else match globalDays with Some ds => ds | None => [] end;
              p_startTime := orOpt (p_startTime p) gStartTime;
              p_endTime := orOpt (p_endTime p) gEndTime;
              p_startDate := orOpt (p_startDate p) gStartDate;
              p_endDate := orOpt (p_endDate p) gEndDate;
              p_location := p_location p;
              p_raw := p_raw p;
              p_error := p_error p |})
        patterns.

(** The alias lists [parseRow] hands to [findColumnValue]. *)
Definition startDateNames : list jstr :=
  map lit ["Start Date"; "Meeting Start Date"; "First Meeting Date"]%string.
Definition endDateNames : list jstr :=
  map lit ["End Date"; "Meeting End Date"; "Last Meeting Date"]%string.
Definition startTimeNames : list jstr :=
  map lit ["Start Time"; "Meeting Start Time"]%string.
Definition endTimeNames : list jstr :=
  map lit ["End Time"; "Meeting End Time"]%string.
Definition daysNames : list jstr :=
  map lit ["Days"; "Meeting Days"; "Day Pattern"]%string.

(** [globalDates], [globalTimes] and [globalDays] of [parseRow]. *)
Definition globalDatesOf (row : Row)
  : result (option (option DateValue * option DateValue)) :=
  let explicitStartDate := findColumnValue row startDateNames in
  let explicitEndDate := findColumnValue row endDateNames in
  if truthyCell explicitStartDate && truthyCell explicitEndDate
  then
    startDate <- applyTo parseDate explicitStartDate ;;
    endDate <- applyTo parseDate explicitEndDate ;;
    Ok (Some (startDate, endDate))
  else Ok None.

Definition globalTimesOf (row : Row)
  : result (option (option ClockTime * option ClockTime)) :=
  let explicitStartTime := findColumnValue row startTimeNames in
  let explicitEndTime := findColumnValue row endTimeNames in
  if truthyCell explicitStartTime && truthyCell explicitEndTime
  then
    startTime <- applyTo normalizeTime explicitStartTime ;;
    endTime <- applyTo normalizeTime explicitEndTime ;;
    Ok (Some (startTime, endTime))
  else Ok None.

Definition globalDaysOf (row : Row) : result (option (list DayCode)) :=
  let explicitDays := findColumnValue row daysNames in
  if truthyCell explicitDays
  then ds <- applyTo parseDays explicitDays ;; Ok (Some ds)
  else Ok None.

(** [parseRow(row)] *)
Definition parseRow (row : Row) : result (list MeetingEvent) :=
  let courseListing := cellOrEmpty row "Course Listing" in
  let sec := cellOrEmpty row "Section" in
  let instructionalFormat := cellOrEmpty row "Instructional Format" in
  let mode := cellOrEmpty row "Delivery Mode" in
  let meetingPatterns := cellOrEmpty row "Meeting Patterns" in
  let instr := cellOrEmpty row "Instructor" in
  globalDates <- globalDatesOf row ;;
  globalTimes <- globalTimesOf row ;;
  globalDays <- globalDaysOf row ;;
  courseInfo <- applyTo parseCourseTitle (Some courseListing) ;;
  let patterns := parseMeetingPatterns meetingPatterns in
  let patterns :=
    reconcile meetingPatterns globalDays globalDates globalTimes patterns in
  Ok (map (toEvent courseInfo sec instructionalFormat mode instr
                   meetingPatterns)
          patterns).

(** [filterDataRows(rows)] *)
Definition filterDataRows (rows : list Row) : list Row :=
  filter (fun row =>
            let courseListing := cellOrEmpty row "Course Listing" in
            if match courseListing with
               | Text str =>
                   includes (toLowerCase str) (lit "course listing")
               | Num _ => false
               end
            then false
            else existsb (fun kv => match snd kv with
                                    | Text [] => false
                                    | _ => true
                                    end) row)
         rows.

(** The loop of [parse] over the data rows: the events of the rows that
    parse, and an entry of [errors] for each row that throws. *)
Fixpoint parseRows (dataRows : list Row)
  : list MeetingEvent * list Message :=
  match dataRows with
  | [] => ([], [])
  | row :: rest =>
      let (events, errors) := parseRows rest in
      match parseRow row with
      | Ok rowEvents => (rowEvents ++ events, errors)
      | Throw e => (events, RowError e :: errors)
      end
  end.

(** [parse(data)] from the decoded rows on: the pair is
    [{events, errors}]. *)
Definition parse (rows : list Row) : list MeetingEvent * list Message :=
  match rows with
  | [] => ([], [NoData])
  | _ :: _ => parseRows (filterDataRows rows)
  end.

End WithClock.

End WorkdayParser.

(* ------------------------------------------------------------------ *)
(** ** [ICSGenerator] *)

(** The fields [formatTimestamp] reads from [new Date()]. *)
Record Instant : Type :=
  { utcFullYear : Z; utcMonth : Z; utcDate : Z;
    utcHours : Z; utcMinutes : Z; utcSeconds : Z }.

Module ICSGenerator.

Import Pat.

Definition CRLF : jstr := [CR; LF].

(** [generateTimezone()]: the lines of the template literal. *)
Definition generateTimezone : jstr :=
  join [LF]
    (map lit
       ["BEGIN:VTIMEZONE";
        "TZID:America/Vancouver";
        "BEGIN:DAYLIGHT";
        "TZOFFSETFROM:-0800";
        "TZOFFSETTO:-0700";
        "TZNAME:PDT";
        "DTSTART:19700308T020000";
        "RRULE:FREQ=YEARLY;BYMONTH=3;BYDAY=2SU";
        "END:DAYLIGHT";
        "BEGIN:STANDARD";
        "TZOFFSETFROM:-0700";
        "TZOFFSETTO:-0800";
        "TZNAME:PST";
        "DTSTART:19701101T020000";
        "RRULE:FREQ=YEARLY;BYMONTH=11;BYDAY=1SU";
        "END:STANDARD";
        "END:VTIMEZONE"]%string).

(** The table [dayToNum]. *)
Definition dayToNum (d : DayCode) : Z :=
  match d with
  | SU => 0 | MO => 1 | TU => 2 | WE => 3 | TH => 4 | FR => 5 | SA => 6
  end.

(** The loop of [findFirstOccurrence] over the offsets [offsets]: [None] when
    it runs to its end. *)
Fixpoint scanDays (date : Z) (targetDays : list Z) (offsets : list Z)
  : option CalendarDate :=
  match offsets with
  | [] => None
  | i :: rest =>
      match Cal.setDate date (Cal.getDate date + i) with
      | Some checkDate =>
          if existsb (Z.eqb (Cal.getDay checkDate)) targetDays
          then Some {| year := Cal.getFullYear checkDate;
                       month := Cal.getMonth checkDate + 1;
                       day := Cal.getDate checkDate |}
          else scanDays date targetDays rest
      | None => scanDays date targetDays rest
      end
  end.

(** [new Date(startDate.year, startDate.month - 1, startDate.day)]: an
    Invalid Date when the fields are NaN. *)
Definition dateOf (startDate : DateValue) : option Z :=
  match startDate with
  | Calendar d => Cal.newDate (year d) (month d - 1) (day d)
  | NaNDate => None
  end.

(** [findFirstOccurrence(startDate, days)]; [None] is [null].  On an
    Invalid Date every [getDay()] is NaN, no turn of the loop matches and
    the start date is returned. *)
Definition findFirstOccurrence (startDate : DateValue) (ds : list DayCode)
  : option DateValue :=
  let targetDays := map dayToNum ds in
  if (List.length targetDays =? 0)%nat then None
  else
    match dateOf startDate with
    | None => Some startDate
    | Some date =>
        match scanDays date targetDays [0; 1; 2; 3; 4; 5; 6] with
        | Some found => Some (Calendar found)
        | None => Some startDate
        end
    end.

(** [String(date.year)] and the like, for the field [f]. *)
Definition fieldText (date : DateValue) (f : CalendarDate -> Z) : jstr :=
  match date with
  | Calendar d => ofInt (f d)
  | NaNDate => lit "NaN"
  end.

(** [formatDateTime(date, time)] *)
Definition formatDateTime (date : DateValue) (time : ClockTime) : jstr :=
  fieldText date year ++ padStart2 (fieldText date month)
  ++ padStart2 (fieldText date day) ++ lit "T"
  ++ padStart2 (ofInt (hours time)) ++ padStart2 (ofInt (minutes time))
  ++ lit "00".

(** [formatUntilDate(endDate, endTime)]: [endDate.year] is read first. *)
Definition formatUntilDate (endDate : option DateValue)
           (endTime : option ClockTime) : result jstr :=
  match endDate with
  | None => Throw TypeError
  | Some d =>
      Ok (fieldText d year ++ padStart2 (fieldText d month)
          ++ padStart2 (fieldText d day) ++ lit "T235959Z")
  end.

(** [formatTimestamp(date)] *)
Definition formatTimestamp (date : Instant) : jstr :=
  ofInt (utcFullYear date) ++ padStart2 (ofInt (utcMonth date + 1))
  ++ padStart2 (ofInt (utcDate date)) ++ lit "T"
  ++ padStart2 (ofInt (utcHours date)) ++ padStart2 (ofInt (utcMinutes date))
  ++ padStart2 (ofInt (utcSeconds date)) ++ lit "Z".

(** ToInt32 *)
Definition toInt32 (z : Z) : Z := (z + 2 ^ 31) mod 2 ^ 32 - 2 ^ 31.

(** [simpleHash(str)] *)
Definition simpleHash (str : jstr) : jstr :=
  let hash :=
    fold_left
      (fun hash char =>
         let hash := (toInt32 (Z.shiftl hash 5) - hash) + char in
         Z.land (toInt32 hash) (toInt32 hash))
      str 0 in
  toHex (Z.abs hash).

(** [generateUID(event)] *)
Definition generateUID (event : MeetingEvent) : jstr :=
  let base :=
    courseCode event ++ lit "-" ++ cellString (section event) ++ lit "-"
    ++ join [] (map dayText (days event)) ++ lit "-"
    ++ match startTime event with
       | Some t => ofInt (hours t) ++ ofInt (minutes t)
       | None => lit "undefinedundefined"
       end in
  simpleHash base ++ lit "@ubc-workday-calendar".

(** [escapeText(text)]: four replacements, one after the other. *)
Definition escapeText (text : jstr) : jstr :=
  let bs := chr "\" in
  replaceCU (Z.eqb LF) [bs; chr "n"]
    (replaceCU (Z.eqb (chr ",")) [bs; chr ","]
       (replaceCU (Z.eqb (chr ";")) [bs; chr ";"]
          (replaceCU (Z.eqb bs) [bs; bs] text))).

Definition isNil {A} (l : list A) : bool :=
  match l with [] => true | _ :: _ => false end.

Section WithClock.

(** [new Date()] *)
Variable now : Instant.

(** The lines of a VEVENT, once the guards of [generateEvent] are
    passed. *)
Definition eventLines (event : MeetingEvent) (firstDate : DateValue)
           (st et : ClockTime) (until : jstr) : list jstr :=
  let dtstart := formatDateTime firstDate st in
  let dtend := formatDateTime firstDate et in
  let uid := generateUID event in
  let summary := courseCode event in
  let summary :=
    if cellTruthy (section event)
    then summary ++ lit " (" ++ cellString (section event) ++ lit ")"
    else summary in
  let summary :=
    if cellTruthy (format event)
    then summary ++ lit " - " ++ cellString (format event) else summary in
  let descParts :=
    (if truthy (courseTitle event) then [courseTitle event] else [])
    ++ (if cellTruthy (instructor event)
        then [lit "Instructor: " ++ cellString (instructor event)] else [])
    ++ (if cellTruthy (deliveryMode event)
        then [lit "Mode: " ++ cellString (deliveryMode event)] else []) in
  let description := join [chr "\"; chr "n"] descParts in
  let rrule :=
    lit "FREQ=WEEKLY;BYDAY=" ++ join (lit ",") (map dayText (days event))
    ++ lit ";UNTIL=" ++ until in
  [lit "BEGIN:VEVENT";
   lit "UID:" ++ uid;
   lit "DTSTAMP:" ++ formatTimestamp now;
   lit "DTSTART;TZID=America/Vancouver:" ++ dtstart;
   lit "DTEND;TZID=America/Vancouver:" ++ dtend;
   lit "RRULE:" ++ rrule;
   lit "SUMMARY:" ++ escapeText summary]
  ++ (if truthy (location event)
      then [lit "LOCATION:" ++ escapeText (location event)] else [])
  ++ (if truthy description
      then [lit "DESCRIPTION:" ++ escapeText description] else [])
  ++ [lit "END:VEVENT"].

(** [generateEvent(event)]; [Ok None] is [null]. *)
Definition generateEvent (event : MeetingEvent) : result (option jstr) :=
  match startDate event, startTime event, endTime event with
  | Some sd, Some st, Some et =>
      if isNil (days event) then Ok None
      else
        match findFirstOccurrence sd (days event) with
        | None => Ok None
        | Some firstDate =>
            until <- formatUntilDate (endDate event) (endTime event) ;;
            Ok (Some (join CRLF (eventLines event firstDate st et until)))
        end
  | _, _, _ => Ok None
  end.

(** The loop of [generate]: the blocks pushed for [events]. *)
Fixpoint eventBlocks (events : list MeetingEvent) : result (list jstr) :=
  match events with
  | [] => Ok []
  | event :: rest =>
      vevent <- generateEvent event ;;
      more <- eventBlocks rest ;;
      Ok (match vevent with
          | Some text => if truthy text then text :: more else more
          | None => more
          end)
  end.

(** [generate(events)] *)
Definition generate (events : list MeetingEvent) : result jstr :=
  blocks <- eventBlocks events ;;
  Ok (join CRLF
        (map lit ["BEGIN:VCALENDAR";
                  "VERSION:2.0";
                  "PRODID:-//UBC Workday to Calendar//EN";
                  "CALSCALE:GREGORIAN";
                  "METHOD:PUBLISH";
                  "X-WR-CALNAME:UBC Class Schedule";
                  "X-WR-TIMEZONE:America/Vancouver"]%string
         ++ [generateTimezone] ++ blocks ++ [lit "END:VCALENDAR"])).

End WithClock.

(** The [while] loop of [foldLine]: the pieces pushed for [remaining], the
    last one included.  A turn takes 75 code units and puts one back, so
    [fuel] turns are enough for a line of [fuel] code units
    ([foldLoop_enough] below). *)
Fixpoint foldLoop (fuel : nat) (remaining : jstr) : list jstr :=
  match fuel with
  | O => [remaining]
  | S f =>
      if (75 <? List.length remaining)%nat
      then firstn 75 remaining :: foldLoop f (chr " " :: skipn 75 remaining)
      else [remaining]
  end.

(** [foldLine(line)] *)
Definition foldLine (line : jstr) : jstr :=
  if (List.length line <=? 75)%nat then line
  else join CRLF (foldLoop (List.length line) line).

End ICSGenerator.

(* ------------------------------------------------------------------ *)
(** ** The page script

    The pure parts of the script that drives the page: what it counts as
    a valid event before it calls [ICSGenerator.generate], and how it
    shows a time. *)

Module App.

(** [event.days.length > 0 && event.startTime && event.endTime], the test
    of [showPreview] and of the filter of [downloadICS]. *)
Definition isValid (e : MeetingEvent) : bool :=
  (0 <? List.length (days e))%nat
  && match startTime e with Some _ => true | None => false end
  && match endTime e with Some _ => true | None => false end.

(** [validEvents] of [downloadICS] *)
Definition validEvents (currentEvents : list MeetingEvent)
  : list MeetingEvent :=
  filter isValid currentEvents.

(** [formatTime(time)] *)
Definition formatTime (time : option ClockTime) : jstr :=
  match time with
  | None => []
  | Some t =>
      let h := hours t in
      let mins := padStart2 (ofInt (minutes t)) in
      let period := if 12 <=? h then lit "PM" else lit "AM" in
      let h := if 12 <? h then h - 12 else h in
      let h := if h =? 0 then 12 else h in
      ofInt h ++ lit ":" ++ mins ++ lit " " ++ period
  end.

End App.

(* ------------------------------------------------------------------ *)
(** ** Sample inputs *)

Module Samples.

Definition cells (kvs : list (string * string)) : Row :=
  map (fun kv => (lit (fst kv), Text (lit (snd kv)))) kvs.

(** A row whose meeting-pattern cell has all four fields. *)
Definition rowWellFormed : Row :=
  cells [("Course Listing", "CPSC 110 - Computation, Programs, and Programming");
         ("Section", "101");
         ("Instructional Format", "Lecture");
         ("Delivery Mode", "In Person");
         ("Meeting Patterns",
          "Mon Wed | 10:00 - 11:00 | 2024-09-03 - 2024-12-05 | Room 200");
         ("Instructor", "Ada Lovelace")]%string.

(** A row whose meeting-pattern cell says nothing, with explicit Days,
    Start Time and End Time columns and no date column. *)
Definition rowExplicit : Row :=
  cells [("Course Listing", "MATH 100 - Differential Calculus");
         ("Section", "L1A");
         ("Instructional Format", "Laboratory");
         ("Delivery Mode", "");
         ("Meeting Patterns", "TBA");
         ("Instructor", "");
         ("Days", "Tue");
         ("Start Time", "2:00 PM");
         ("End Time", "3:30 PM")]%string.

(** The same row with explicit Start Date and End Date columns. *)
Definition rowExplicitDated : Row :=
  rowExplicit
  ++ cells [("Start Date", "2024-09-03"); ("End Date", "2024-12-05")]%string.

(** A row with days, times and a start date, whose End Date cell holds no
    date. *)
Definition rowOpenEnded : Row :=
  cells [("Course Listing", "CPSC 110 - Computation, Programs, and Programming");
         ("Section", "101");
         ("Instructional Format", "Lecture");
         ("Delivery Mode", "In Person");
         ("Meeting Patterns", "Mon Wed | 10:00 - 11:00");
         ("Instructor", "Ada Lovelace");
         ("Start Date", "2024-09-03");
         ("End Date", "TBD")]%string.

Definition pipeBlock : jstr :=
  lit "Mon Wed | 10:00 - 11:00 | 2024-09-03 - 2024-12-05 | Room 200".

(** A reading of the clock. *)
Definition noon : Instant :=
  {| utcFullYear := 2024; utcMonth := 7; utcDate := 15;
     utcHours := 12; utcMinutes := 0; utcSeconds := 0 |}.

(** The event of [rowWellFormed]. *)
Definition lectureEvent : MeetingEvent :=
  {| courseCode := lit "CPSC 110";
     courseTitle := lit "Computation, Programs, and Programming";
     section := Text (lit "101");
     format := Text (lit "Lecture");
     deliveryMode := Text (lit "In Person");
     instructor := Text (lit "Ada Lovelace");
     days := [MO; WE];
     startTime := Some {| hours := 10; minutes := 0 |};
     endTime := Some {| hours := 11; minutes := 0 |};
     startDate := Some (Calendar {| year := 2024; month := 9; day := 3 |});
     endDate := Some (Calendar {| year := 2024; month := 12; day := 5 |});
     location := lit "Room 200";
     raw := Text (lit "Mon Wed | 10:00 - 11:00 | 2024-09-03 - 2024-12-05 | Room 200") |}.

Definition time (h m : Z) : option ClockTime :=
  Some {| hours := h; minutes := m |}.
Definition date (y m d : Z) : option DateValue :=
  Some (Calendar {| year := y; month := m; day := d |}).

End Samples.

(* ------------------------------------------------------------------ *)
(** ** Reference definitions

    What the specification's words say, to compare with the code. *)

Module Ref.

(** [k; k+1; ...], [len] of them. *)
Fixpoint zrange (k : Z) (len : nat) : list Z :=
  match len with
  | O => []
  | S l => k :: zrange (k + 1) l
  end.

(** The codes a list of tokens stands for, unmatched tokens left out. *)
Definition codesOf (tokens : list jstr) : list DayCode :=
  flat_map (fun token =>
              match WorkdayParser.firstEntry token WorkdayParser.dayMap with
              | Some v => [v]
              | None => []
              end)
           tokens.

(** First-seen order without duplicates: a code stays where it first
    occurs and its later occurrences are dropped. *)
Fixpoint firstSeen (codes : list DayCode) : list DayCode :=
  match codes with
  | [] => []
  | c :: rest => c :: filter (fun d => negb (DayCode_eqb c d)) (firstSeen rest)
  end.

(** A date of the Gregorian calendar. *)
Definition validDate (d : CalendarDate) : Prop :=
  1 <= month d <= 12 /\ 1 <= day d <= Cal.daysInMonth (year d) (month d).

(** The start date [d] and the six days after it are days the platform's
    [Date] can hold: within 100,000,000 days of 1970-01-01. *)
Definition weekInRange (d : CalendarDate) : Prop :=
  - 100000000 <= Cal.daysFromCivil (year d) (month d) (day d)
  /\ Cal.daysFromCivil (year d) (month d) (day d) + 6 <= 100000000.

(** The day number of a calendar date. *)
Definition dayNumber (d : CalendarDate) : Z :=
  Cal.daysFromCivil (year d) (month d) (day d).

(** The calendar date [i] days after [d]. *)
Definition addDays (d : CalendarDate) (i : Z) : CalendarDate :=
  Cal.civilFromDays (dayNumber d + i).

(** The day code of a day of the week, 0 being Sunday. *)
Definition codeOfNum (n : Z) : DayCode :=
  match n with
  | 0 => SU | 1 => MO | 2 => TU | 3 => WE | 4 => TH | 5 => FR | _ => SA
  end.

(** The day of the week of a calendar date, as a day code. *)
Definition weekdayOf (d : CalendarDate) : DayCode :=
  codeOfNum (Cal.getDay (dayNumber d)).

(** The Number [x] is the integer [k]. *)
Definition isInt (k : Z) (x : Num.number) : Prop :=
  exists d, 0 < d /\ x = Num.Fin (k * d) d.

(** The Number [x] is [L] or more, infinity included. *)
Definition atLeast (L : Z) (x : Num.number) : Prop :=
  x = Num.Inf false \/ exists n d, 0 < d /\ x = Num.Fin n d /\ L * d <= n.

(** A cell that is missing or holds a text. *)
Definition noNumber (c : option Cell) : Prop :=
  forall shown, c <> Some (Num shown).

(** The fields of a block: the texts between its pipes, trimmed. *)
Definition pipeFields (block : jstr) : list jstr :=
  map trim (splitCU (Pat.chr "|") block).

(** A meeting-pattern cell from which nothing is recovered: no pattern,
    or one pattern without days, times and dates. *)
Definition unparseable (currentYear : Z) (cell : Cell) : Prop :=
  match WorkdayParser.parseMeetingPatterns currentYear cell with
  | [] => True
  | [p] => p_days p = [] /\ p_startTime p = None /\ p_endTime p = None
           /\ p_startDate p = None /\ p_endDate p = None
  | _ => False
  end.

(** [generateEvent] returns a text for the event. *)
Definition encodable (now : Instant) (e : MeetingEvent) : Prop :=
  exists text, ICSGenerator.generateEvent now e = Ok (Some text).

(** The 12-hour conversion rule of the specification: [marker] is
    [Some true] for PM, [Some false] for AM. *)
Definition to24 (h mi : Z) (marker : option bool) : ClockTime :=
  {| hours := match marker with
              | Some true => if h =? 12 then h else h + 12
              | Some false => if h =? 12 then 0 else h
              | None => h
              end;
     minutes := mi |}.

(** Hours 0..23 as written with one or two digits, minutes 00..59, and
    the spellings of the meridiem marker. *)
Definition hourTexts : list jstr :=
  map ofInt (zrange 0 24) ++ map (fun h => 48 :: ofInt h) (zrange 0 10).
Definition minuteTexts : list jstr :=
  map (fun m => padStart2 (ofInt m)) (zrange 0 60).
Definition markerTexts : list (jstr * option bool) :=
  map (fun tm => (lit (fst tm), snd tm))
    [("", None);
     (" AM", Some false); (" PM", Some true);
     ("AM", Some false); ("PM", Some true);
     (" am", Some false); (" pm", Some true);
     (" a.m.", Some false); (" p.m.", Some true);
     (" A.M.", Some false); (" P.M.", Some true)]%string.

Definition ClockTime_eqb (a b : option ClockTime) : bool :=
  match a, b with
  | Some x, Some y => (hours x =? hours y) && (minutes x =? minutes y)
  | None, None => true
  | _, _ => false
  end.

(** [normalizeTime] follows the rule on the text H:MM followed by a
    marker. *)
Definition clockFormOk (h mi : jstr) (marker : jstr * option bool) : bool :=
  ClockTime_eqb
    (WorkdayParser.normalizeTime (h ++ lit ":" ++ mi ++ fst marker))
    (Some (to24 (parseInt h) (parseInt mi) (snd marker))).

(** A cell [parseMeetingPatterns] returns nothing for before looking at
    its blocks. *)
Definition blankCell (cell : jstr) : bool :=
  negb (truthy cell) || JS.eqb (trim cell) [].

End Ref.

(* ------------------------------------------------------------------ *)
(** ** Further reference definitions *)

Module Extra.

(** What [escapeText] writes for one code unit. *)
Definition escapeChar (c : cu) : jstr :=
  if c =? 92 then [92; 92]
  else if c =? 59 then [92; 59]
  else if c =? 44 then [92; 44]
  else if c =? 10 then [92; 110]
  else [c].

(** Reading escaped text back: a backslash and [n] are a line feed, a
    backslash and any other code unit are that code unit. *)
Fixpoint unescapeText (s : jstr) : jstr :=
  match s with
  | [] => []
  | c :: r =>
      if c =? 92 then
        match r with
        | [] => [c]
        | d :: r' => (if d =? 110 then 10 else d) :: unescapeText r'
        end
      else c :: unescapeText r
  end.

(** Unfolding: the first piece, then every further piece without its
    first code unit. *)
Definition unfoldPieces (pieces : list jstr) : jstr :=
  match pieces with
  | [] => []
  | p :: ps => p ++ flat_map (@tl cu) ps
  end.

(** The polynomial [c0 * 31^(n-1) + ... + c(n-1)] of a string. *)
Definition polyHash (str : jstr) : Z :=
  fold_left (fun h c => 31 * h + c) str 0.

Definition isHexDigit (c : cu) : bool := isDigit c || between 97 102 c.

(** The day code of a first letter. *)
Definition letterCode (c : cu) : option DayCode :=
  if c =? 109 then Some MO          (* m *)
  else if c =? 116 then Some TU     (* t *)
  else if c =? 119 then Some WE     (* w *)
  else if c =? 114 then Some TH     (* r *)
  else if c =? 102 then Some FR     (* f *)
  else if c =? 115 then Some SA     (* s *)
  else None.

(** A column header that is one of [names], case and surrounding white
    space apart. *)
Definition keyMatches (names : list jstr) (key : jstr) : bool :=
  existsb (fun name => JS.eqb (trim (toLowerCase key)) (toLowerCase name))
          names.

(** A row that repeats the header. *)
Definition headerRow (row : Row) : bool :=
  match WorkdayParser.cellOrEmpty row "Course Listing" with
  | Text str => includes (toLowerCase str) (lit "course listing")
  | Num _ => false
  end.

(** A value a string function throws on: a number that is not falsy. *)
Definition throwsOn (v : option Cell) : bool :=
  match v with
  | Some (Num shown) => cellTruthy (Num shown)
  | _ => false
  end.

(** The text a string function works on when it does not throw: the text
    of the cell, the empty text otherwise. *)
Definition textOf (v : option Cell) : jstr :=
  match v with
  | Some (Text str) => str
  | _ => []
  end.

(** Both cells of a pair are populated. *)
Definition populated (a b : option Cell) : bool :=
  WorkdayParser.truthyCell a && WorkdayParser.truthyCell b.

(** A row on which [parseRow] throws. *)
Definition rowThrows (row : Row) : bool :=
  let startDate :=
    WorkdayParser.findColumnValue row WorkdayParser.startDateNames in
  let endDate :=
    WorkdayParser.findColumnValue row WorkdayParser.endDateNames in
  let startTime :=
    WorkdayParser.findColumnValue row WorkdayParser.startTimeNames in
  let endTime :=
    WorkdayParser.findColumnValue row WorkdayParser.endTimeNames in
  (populated startDate endDate && (throwsOn startDate || throwsOn endDate))
  || (populated startTime endTime && (throwsOn startTime || throwsOn endTime))
  || throwsOn (WorkdayParser.findColumnValue row WorkdayParser.daysNames)
  || throwsOn (WorkdayParser.getCell row (lit "Course Listing")).

(** What the explicit cells of a row give when they hold texts: the days
    of a populated days cell, the dates of a populated pair of date
    cells, the times of a populated pair of time cells. *)
Definition explicitDays (row : Row) : option (list DayCode) :=
  let d := WorkdayParser.findColumnValue row WorkdayParser.daysNames in
  if WorkdayParser.truthyCell d
  then Some (WorkdayParser.parseDays (textOf d)) else None.

Definition explicitDates (currentYear : Z) (row : Row)
  : option (option DateValue * option DateValue) :=
  let a := WorkdayParser.findColumnValue row WorkdayParser.startDateNames in
  let b := WorkdayParser.findColumnValue row WorkdayParser.endDateNames in
  if populated a b
  then Some (WorkdayParser.parseDate currentYear (textOf a),
             WorkdayParser.parseDate currentYear (textOf b))
  else None.

Definition explicitTimes (row : Row)
  : option (option ClockTime * option ClockTime) :=
  let a := WorkdayParser.findColumnValue row WorkdayParser.startTimeNames in
  let b := WorkdayParser.findColumnValue row WorkdayParser.endTimeNames in
  if populated a b
  then Some (WorkdayParser.normalizeTime (textOf a),
             WorkdayParser.normalizeTime (textOf b))
  else None.

(** The texts [generate] puts into the document for [events]. *)
Definition encodedTexts (now : Instant) (events : list MeetingEvent)
  : list jstr :=
  flat_map (fun e => match ICSGenerator.generateEvent now e with
                     | Ok (Some text) => [text]
                     | _ => []
                     end)
           events.

(** The code units the separator of a range is made of: a hyphen, an en
    dash, an em dash, and [t] and [o] in either case. *)
Definition rangeMark (c : cu) : bool :=
  existsb (Z.eqb c) [45; 8211; 8212; 116; 111; 84; 79].

End Extra.

(* ================================================================== *)
(** * Properties *)

Import WorkdayParser ICSGenerator Samples Ref.

(* ------------------------------------------------------------------ *)
(** ** The day-token table *)

(** A token of two or more code units that begins with [t] stops the
    inner loop of [parseDays] at the entry ['t'], before any of the
    Thursday keys is looked at. *)
Lemma firstEntry_prefix_t (token : jstr) :
  (1 < List.length token)%nat ->
  startsWith token (lit "t") = true ->
  firstEntry token dayMap = Some TU.
Proof.
  intros Hlen Hpre.
  destruct token as [|c [|c' rest]]; simpl in Hlen; try lia.
  simpl in Hpre. rewrite andb_true_r in Hpre. apply Z.eqb_eq in Hpre. subst c.
  reflexivity.
Qed.

(** Likewise a longer token that begins with [s] stops at the entry
    ['s'], before the Sunday keys. *)
Lemma firstEntry_prefix_s (token : jstr) :
  (1 < List.length token)%nat ->
  startsWith token (lit "s") = true ->
  firstEntry token dayMap = Some SA.
Proof.
  intros Hlen Hpre.
  destruct token as [|c [|c' rest]]; simpl in Hlen; try lia.
  simpl in Hpre. rewrite andb_true_r in Hpre. apply Z.eqb_eq in Hpre. subst c.
  reflexivity.
Qed.

(** C2: what [parseDays] returns for the tokens the claim names.  The
    single letters [R] and [S] give TH and SA as the table says, but every
    spelling of Thursday gives TU and every spelling of Sunday gives SA:
    the entries ['t'] and ['s'] come first in the table and match by
    prefix, so the longer keys are never reached. *)
Theorem C2_parseDays_table_order :
  parseDays (lit "Thursday") = [TU] /\
  parseDays (lit "Thurs") = [TU] /\
  parseDays (lit "Thu") = [TU] /\
  parseDays (lit "Th") = [TU] /\
  parseDays (lit "R") = [TH] /\
  parseDays (lit "S") = [SA] /\
  parseDays (lit "Su") = [SA] /\
  parseDays (lit "Sun") = [SA] /\
  parseDays (lit "Sunday") = [SA].
Proof. repeat split; vm_compute; reflexivity. Qed.

(* ------------------------------------------------------------------ *)
(** ** [normalizeTime] *)

Lemma ClockTime_eqb_eq (a b : option ClockTime) :
  ClockTime_eqb a b = true -> a = b.
Proof.
  destruct a as [[h m]|], b as [[h' m']|]; cbn; try discriminate; auto.
  rewrite andb_true_iff, !Z.eqb_eq. intros [-> ->]. reflexivity.
Qed.

Lemma clockFormOk_all :
  forallb (fun h =>
     forallb (fun mi => forallb (clockFormOk h mi) markerTexts) minuteTexts)
    hourTexts = true.
Proof. vm_compute. reflexivity. Qed.

(** On an hour of one or two digits, a colon, two digits of minutes and
    an optional marker, [normalizeTime] gives the 24-hour time of the
    rule. *)
Lemma normalizeTime_clock_forms (h mi : jstr) (marker : jstr * option bool) :
  In h hourTexts -> In mi minuteTexts -> In marker markerTexts ->
  normalizeTime (h ++ lit ":" ++ mi ++ fst marker)
  = Some (to24 (parseInt h) (parseInt mi) (snd marker)).
Proof.
  intros Hh Hm Hk. apply ClockTime_eqb_eq.
  pose proof clockFormOk_all as H. rewrite forallb_forall in H.
  specialize (H h Hh). rewrite forallb_forall in H.
  specialize (H mi Hm). rewrite forallb_forall in H.
  exact (H marker Hk).
Qed.

(** Digits alone are an hour with minutes 00. *)
Lemma normalizeTime_bare_digits (h : jstr) :
  In h hourTexts -> normalizeTime h = Some (to24 (parseInt h) 0 None).
Proof.
  intros Hh.
  assert (H : forallb (fun h => ClockTime_eqb (normalizeTime h)
                                  (Some (to24 (parseInt h) 0 None)))
                      hourTexts = true) by (vm_compute; reflexivity).
  rewrite forallb_forall in H. apply ClockTime_eqb_eq, H, Hh.
Qed.

(** C5: the four times of the specification are normalised as stated, and
    a string with no digit before a colon gives [null]; but an hour with a
    meridiem marker and no minutes, which the time-range pattern of
    [parseTimeRange] accepts, gets [":00"] appended after the marker and is
    refused. *)
Theorem C5_normalizeTime_hour_with_marker :
  normalizeTime (lit "2:00 PM") = time 14 0 /\
  normalizeTime (lit "12:00 AM") = time 0 0 /\
  normalizeTime (lit "12:30 PM") = time 12 30 /\
  normalizeTime (lit "9") = time 9 0 /\
  normalizeTime (lit "noon") = None /\
  normalizeTime (lit "2 PM") = None /\
  normalizeTime (lit "2pm") = None /\
  parseTimeRange (lit "2 PM - 3 PM") = (None, None).
Proof. repeat split; vm_compute; reflexivity. Qed.

(* ------------------------------------------------------------------ *)
(** ** The guards of [generateEvent] *)

(** [findFirstOccurrence] answers [null] only for an empty day list. *)
Lemma findFirstOccurrence_some (sd : DateValue) (ds : list DayCode) :
  ds <> [] -> exists d, findFirstOccurrence sd ds = Some d.
Proof.
  intros Hds. unfold findFirstOccurrence.
  destruct ds as [|d0 ds']; [congruence|]. cbn [map List.length Nat.eqb].
  destruct (dateOf sd); [|eauto].
  destruct (scanDays _ _ _); eauto.
Qed.

(** An event that lacks a start date, a start time, an end time or days is
    encoded as [null], whatever else it holds. *)
Lemma generateEvent_skips (now : Instant) (e : MeetingEvent) :
  startDate e = None \/ startTime e = None \/ endTime e = None \/ days e = [] ->
  generateEvent now e = Ok None.
Proof.
  unfold generateEvent. intros [H | [H | [H | H]]]; rewrite H.
  - reflexivity.
  - destruct (startDate e); reflexivity.
  - destruct (startDate e), (startTime e); reflexivity.
  - destruct (startDate e), (startTime e), (endTime e); reflexivity.
Qed.

(** An event that passes the four guards and has an end date is encoded. *)
Lemma generateEvent_encodes (now : Instant) (e : MeetingEvent) :
  startDate e <> None -> startTime e <> None -> endTime e <> None ->
  days e <> [] -> endDate e <> None ->
  exists text, generateEvent now e = Ok (Some text).
Proof.
  intros Hsd Hst Het Hds Hed. unfold generateEvent.
  destruct (startDate e) as [sd|]; [|congruence].
  destruct (startTime e) as [st|]; [|congruence].
  destruct (endTime e) as [et|]; [|congruence].
  destruct (findFirstOccurrence_some sd (days e) Hds) as [fd Hfd].
  rewrite Hfd.
  destruct (days e); [congruence|]. cbn [isNil].
  destruct (endDate e) as [ed|]; [|congruence].
  cbn. eauto.
Qed.

(** An event that passes the four guards and has no end date makes
    [formatUntilDate] read [year] of [null]. *)
Lemma generateEvent_throws (now : Instant) (e : MeetingEvent) :
  startDate e <> None -> startTime e <> None -> endTime e <> None ->
  days e <> [] -> endDate e = None ->
  generateEvent now e = Throw TypeError.
Proof.
  intros Hsd Hst Het Hds Hed. unfold generateEvent.
  destruct (startDate e) as [sd|]; [|congruence].
  destruct (startTime e) as [st|]; [|congruence].
  destruct (endTime e) as [et|]; [|congruence].
  destruct (findFirstOccurrence_some sd (days e) Hds) as [fd Hfd].
  rewrite Hfd, Hed.
  destruct (days e); [congruence|]. reflexivity.
Qed.

(** [generate] fails as soon as one of its events does. *)
Lemma generate_throws (now : Instant) (events : list MeetingEvent) :
  (exists e, In e events /\ generateEvent now e = Throw TypeError) ->
  generate now events = Throw TypeError.
Proof.
  intros [e [Hin He]]. unfold generate.
  assert (Hb : eventBlocks now events = Throw TypeError).
  { induction events as [|e' rest IH]; [contradiction|].
    cbn [eventBlocks]. destruct Hin as [-> | Hin].
    - rewrite He. reflexivity.
    - rewrite (IH Hin). destruct (generateEvent now e') as [v|[]]; reflexivity. }
  rewrite Hb. reflexivity.
Qed.

(** [generate] returns a document when every event is skipped or has an
    end date. *)
Lemma generate_returns (now : Instant) (events : list MeetingEvent) :
  Forall (fun e => endDate e <> None
                   \/ startDate e = None \/ startTime e = None
                   \/ endTime e = None \/ days e = []) events ->
  exists text, generate now events = Ok text.
Proof.
  intros Hall. unfold generate.
  assert (Hb : exists blocks, eventBlocks now events = Ok blocks).
  { induction Hall as [|e rest He _ IH]; [cbn; eauto|].
    destruct IH as [blocks Hblocks]. cbn [eventBlocks]. rewrite Hblocks.
    assert (Hev : exists v, generateEvent now e = Ok v).
    { destruct He as [Hed | Hskip].
      - destruct (startDate e) as [sd|] eqn:Esd;
          [|exists None; apply generateEvent_skips; auto].
        destruct (startTime e) as [st|] eqn:Est;
          [|exists None; apply generateEvent_skips; auto].
        destruct (endTime e) as [et|] eqn:Eet;
          [|exists None; apply generateEvent_skips; auto].
        destruct (days e) as [|d ds] eqn:Eds;
          [exists None; apply generateEvent_skips; auto|].
        destruct (generateEvent_encodes now e) as [text Htext];
          try congruence.
        eauto.
      - exists None. apply generateEvent_skips. exact Hskip. }
    destruct Hev as [v Hv]. rewrite Hv. cbn. eauto. }
  destruct Hb as [blocks Hblocks]. rewrite Hblocks. cbn. eauto.
Qed.

(** C1: a row with days, times and a start date whose End Date cell holds
    no date parses to one event that passes every guard of
    [generateEvent] and has no end date; on it [generateEvent], and with
    it [generate], throw a TypeError instead of returning. *)
Theorem C1_generate_throws_without_end_date :
  forall (currentYear : Z) (now : Instant),
  exists e,
    parse currentYear [rowOpenEnded] = ([e], []) /\
    days e = [MO; WE] /\
    startTime e = time 10 0 /\ endTime e = time 11 0 /\
    startDate e = date 2024 9 3 /\ endDate e = None /\
    generateEvent now e = Throw TypeError /\
    generate now (fst (parse currentYear [rowOpenEnded])) = Throw TypeError.
Proof.
  intros currentYear now. eexists.
  split; [vm_compute; reflexivity|].
  repeat split.
Qed.

(* ------------------------------------------------------------------ *)
(** ** [parseSinglePattern] *)

Lemma splitCU_nonempty (c : cu) (s : jstr) :
  (1 <= List.length (splitCU c s))%nat.
Proof.
  induction s as [|x r IH]; cbn [splitCU]; [cbn; lia|].
  destruct (x =? c); [cbn [List.length]; lia|].
  destruct (splitCU c r); cbn [List.length] in *; lia.
Qed.

Lemma splitCU_length (c : cu) (s : jstr) :
  includesCU s c = true -> (2 <= List.length (splitCU c s))%nat.
Proof.
  unfold includesCU. induction s as [|x r IH]; cbn [existsb splitCU].
  - discriminate.
  - rewrite (Z.eqb_sym c x). destruct (x =? c) eqn:E.
    + intros _. pose proof (splitCU_nonempty c r). cbn [List.length]. lia.
    + cbn [orb]. intros H. specialize (IH H).
      destruct (splitCU c r) as [|h t]; cbn [List.length] in *; lia.
Qed.

Lemma isNil_length {A} (l : list A) :
  (0 <? List.length l)%nat = negb (isNil l).
Proof. destruct l; reflexivity. Qed.

(** The strict attempt, for a block that contains a pipe. *)
Lemma parseStrict_pipe (currentYear : Z) (block : jstr) :
  includesCU block (Pat.chr "|") = true ->
  let parts := map trim (splitCU (Pat.chr "|") block) in
  parseStrict currentYear block =
    if isNil (parseDays (nth 0 parts []))
    then None
    else Some (mkPattern
                 (parseDays (nth 0 parts []))
                 (parseTimeRange (nth 1 parts []))
                 (if (2 <? List.length parts)%nat
                  then parseDateRange currentYear (nth 2 parts [])
                  else (None, None))
                 (if (3 <? List.length parts)%nat then nth 3 parts [] else [])).
Proof.
  intros Hpipe parts. unfold parseStrict. rewrite Hpipe. fold parts.
  assert (Hlen : (2 <=? List.length parts)%nat = true).
  { apply Nat.leb_le. unfold parts. rewrite length_map.
    apply splitCU_length. exact Hpipe. }
  rewrite Hlen, isNil_length. destruct (isNil _); reflexivity.
Qed.

(** C4: the block of the specification parses to a pattern with days
    MO and WE, start time 10:00, end time 11:00, start date 2024-09-03,
    end date 2024-12-05 and location [Room 200]; and for every block that
    contains a pipe, the fields (the texts between the pipes, trimmed) are
    at least two, and when [parseDays] of the first field gives a code the
    strict parse succeeds and is the result: its days are [parseDays] of
    the first field, its times [parseTimeRange] of the second, its dates
    [parseDateRange] of the third if there is one, its location the
    fourth if there is one; when [parseDays] of the first field gives no
    code the strict parse fails and the pattern extraction takes over. *)
Theorem C4_parseSinglePattern_pipe :
  forall (currentYear : Z) (block : jstr),
  includesCU block (Pat.chr "|") = true ->
  let fields := pipeFields block in
  (exists p,
     parseSinglePattern currentYear pipeBlock = Some p /\
     p_days p = [MO; WE] /\
     p_startTime p = Some {| hours := 10; minutes := 0 |} /\
     p_endTime p = Some {| hours := 11; minutes := 0 |} /\
     p_startDate p = Some (Calendar {| year := 2024; month := 9; day := 3 |}) /\
     p_endDate p = Some (Calendar {| year := 2024; month := 12; day := 5 |}) /\
     p_location p = lit "Room 200") /\
  (2 <= List.length fields)%nat /\
  (parseDays (nth 0 fields []) <> [] ->
   exists p,
     parseStrict currentYear block = Some p /\
     parseSinglePattern currentYear block = Some p /\
     p_days p = parseDays (nth 0 fields []) /\
     (p_startTime p, p_endTime p) = parseTimeRange (nth 1 fields []) /\
     (p_startDate p, p_endDate p)
     = (if (2 <? List.length fields)%nat
        then parseDateRange currentYear (nth 2 fields [])
        else (None, None)) /\
     p_location p
     = (if (3 <? List.length fields)%nat then nth 3 fields [] else [])) /\
  (parseDays (nth 0 fields []) = [] ->
   parseStrict currentYear block = None /\
   parseSinglePattern currentYear block =
     Some (parsePatternWithRegex currentYear block)).
Proof.
  intros currentYear block Hpipe fields.
  pose proof (parseStrict_pipe currentYear block Hpipe) as Hs.
  cbv zeta in Hs. fold (pipeFields block) in Hs. fold fields in Hs.
  split.
  { eexists. split; [vm_compute; reflexivity|]. repeat split. }
  split.
  { unfold fields, pipeFields. rewrite length_map.
    apply splitCU_length. exact Hpipe. }
  unfold parseSinglePattern. rewrite Hs.
  split; intros Hd.
  - destruct (parseDays (nth 0 fields [])) as [|d0 ds] eqn:Ed; [congruence|].
    cbn [isNil]. eexists. split; [reflexivity|]. split; [reflexivity|].
    cbn [mkPattern p_days p_startTime p_endTime p_startDate p_endDate
         p_location].
    split; [reflexivity|].
    split; [symmetry; apply surjective_pairing|].
    split; [symmetry; apply surjective_pairing|reflexivity].
  - rewrite Hd. split; reflexivity.
Qed.

(** The C4 statement at the block of the specification: its four fields,
    and the pattern they give. *)
Lemma C4_parseSinglePattern_pipe_witness :
  pipeFields pipeBlock
  = [lit "Mon Wed"; lit "10:00 - 11:00"; lit "2024-09-03 - 2024-12-05";
     lit "Room 200"] /\
  exists p,
    parseStrict 2024 pipeBlock = Some p /\
    parseSinglePattern 2024 pipeBlock = Some p /\
    p_days p = [MO; WE] /\
    (p_startTime p, p_endTime p)
    = (Some {| hours := 10; minutes := 0 |},
       Some {| hours := 11; minutes := 0 |}) /\
    (p_startDate p, p_endDate p)
    = (Some (Calendar {| year := 2024; month := 9; day := 3 |}),
       Some (Calendar {| year := 2024; month := 12; day := 5 |})) /\
    p_location p = lit "Room 200".
Proof.
  split; [vm_compute; reflexivity|].
  assert (Hpipe : includesCU pipeBlock (Pat.chr "|") = true) by reflexivity.
  destruct (C4_parseSinglePattern_pipe 2024 pipeBlock Hpipe)
    as [_ [_ [Hsome _]]].
  assert (Hd : parseDays (nth 0 (pipeFields pipeBlock) []) <> [])
    by (vm_compute; discriminate).
  destruct (Hsome Hd) as [p [Hstrict [Hsingle [Hdays [Htimes [Hdates Hloc]]]]]].
  exists p. split; [exact Hstrict|]. split; [exact Hsingle|].
  split; [rewrite Hdays; vm_compute; reflexivity|].
  split; [rewrite Htimes; vm_compute; reflexivity|].
  split; [rewrite Hdates; vm_compute; reflexivity|].
  rewrite Hloc. vm_compute. reflexivity.
Defined.

(** [parseSinglePattern] always has a record to return, and the record
    does not carry the [error] property. *)
Lemma parseSinglePattern_some (currentYear : Z) (block : jstr) :
  exists p, parseSinglePattern currentYear block = Some p /\ p_error p = false.
Proof.
  unfold parseSinglePattern.
  destruct (parseStrict currentYear block) as [r|] eqn:E.
  - exists r. split; [reflexivity|].
    unfold parseStrict in E.
    destruct (includesCU _ _); [|discriminate].
    destruct (2 <=? _)%nat; [|discriminate].
    destruct (0 <? _)%nat; [|discriminate].
    injection E as <-. reflexivity.
  - eexists. split; reflexivity.
Qed.

Lemma parseMeetingPatterns_blocks (currentYear : Z) (cell : jstr) :
  parseMeetingPatterns currentYear (Text cell) = [] <->
  blankCell cell = true \/ patternBlocks cell = [].
Proof.
  unfold parseMeetingPatterns, blankCell.
  destruct (negb (truthy cell) || JS.eqb (trim cell) []).
  - split; auto.
  - split.
    + intros H. right. destruct (patternBlocks cell); [reflexivity|discriminate].
    + intros [H | H]; [discriminate|]. rewrite H. reflexivity.
Qed.

Lemma parseMeetingPatterns_no_error (currentYear : Z) (cell : Cell) :
  Forall (fun p => p_error p = false) (parseMeetingPatterns currentYear cell).
Proof.
  unfold parseMeetingPatterns. destruct cell as [str | shown]; [|constructor].
  destruct (negb (truthy str) || JS.eqb (trim str) []); [constructor|].
  apply Forall_forall. intros p Hin. apply in_map_iff in Hin.
  destruct Hin as [block [<- _]].
  destruct (parseSinglePattern_some currentYear block) as [q [-> Hq]].
  exact Hq.
Qed.

(** C10: [parseSinglePattern] returns a record for every block; hence no
    pattern of [parseMeetingPatterns] carries the [error] property,
    whatever the cell holds, and the test that sends [parseRow] to the
    branch building a pattern from the explicit columns holds exactly
    when [parseMeetingPatterns] returned no pattern: for a text, when it
    is blank or is cut into no block; for a number, always. *)
Theorem C10_single_pattern_never_null :
  forall (currentYear : Z) (cell : jstr) (value : Cell),
  (exists p, parseSinglePattern currentYear cell = Some p) /\
  Forall (fun p => p_error p = false)
         (parseMeetingPatterns currentYear value) /\
  (needsExplicit (parseMeetingPatterns currentYear value) = true <->
   parseMeetingPatterns currentYear value = []) /\
  (parseMeetingPatterns currentYear (Text cell) = [] <->
   blankCell cell = true \/ patternBlocks cell = []) /\
  (forall shown, parseMeetingPatterns currentYear (Num shown) = []).
Proof.
  intros currentYear cell value.
  split.
  { destruct (parseSinglePattern_some currentYear cell) as [p [Hp _]]. eauto. }
  split; [apply parseMeetingPatterns_no_error|].
  split; [|split; [apply parseMeetingPatterns_blocks|reflexivity]].
  pose proof (parseMeetingPatterns_no_error currentYear value) as Hall.
  destruct (parseMeetingPatterns currentYear value) as [|p [|q rest]];
    cbn [needsExplicit].
  - split; reflexivity.
  - inversion Hall as [|? ? Hp _]; subst. rewrite Hp.
    split; discriminate.
  - split; discriminate.
Qed.

(** C10 at an empty cell and at a cell that holds no pattern. *)
Lemma C10_single_pattern_never_null_witness :
  needsExplicit (parseMeetingPatterns 2024 (Text [])) = true /\
  (blankCell [] = true \/ patternBlocks [] = []) /\
  (exists p, parseSinglePattern 2024 (lit "TBA") = Some p) /\
  Forall (fun p => p_error p = false)
         (parseMeetingPatterns 2024 (Text (lit "TBA"))).
Proof.
  destruct (C10_single_pattern_never_null 2024 [] (Text []))
    as [_ [_ [Hneeds [Hblank _]]]].
  destruct (C10_single_pattern_never_null 2024 (lit "TBA") (Text (lit "TBA")))
    as [Hsome [Hall _]].
  assert (Hnil : parseMeetingPatterns 2024 (Text []) = []) by reflexivity.
  split; [apply (proj2 Hneeds Hnil)|].
  split; [apply (proj1 Hblank Hnil)|].
  split; assumption.
Defined.

(* ------------------------------------------------------------------ *)
(** ** [parseDays]: duplicates and order *)

Lemma DayCode_eqb_eq (a b : DayCode) : DayCode_eqb a b = true <-> a = b.
Proof. destruct a, b; cbn; split; congruence. Qed.

Lemma daysInclude_In (ds : list DayCode) (v : DayCode) :
  daysInclude ds v = true <-> In v ds.
Proof.
  unfold daysInclude. rewrite existsb_exists. split.
  - intros [x [Hin Heq]]. apply DayCode_eqb_eq in Heq. subst. exact Hin.
  - intros Hin. exists v. split; [exact Hin|]. apply DayCode_eqb_eq. reflexivity.
Qed.

Lemma filter_twice {A} (f g : A -> bool) (l : list A) :
  filter f (filter g l) = filter (fun x => g x && f x) l.
Proof.
  induction l as [|x l IH]; [reflexivity|]. cbn [filter].
  destruct (g x); cbn [filter andb]; [destruct (f x)|]; congruence.
Qed.

(** The loop of [parseDays], started with the codes [acc] already
    collected, appends the first-seen codes of the remaining tokens that
    [acc] lacks. *)
Lemma pushDay_fold (tokens : list jstr) (acc : list DayCode) :
  fold_left pushDay tokens acc =
  acc ++ filter (fun d => negb (daysInclude acc d)) (firstSeen (codesOf tokens)).
Proof.
  revert acc. induction tokens as [|token rest IH]; intros acc.
  - cbn. now rewrite app_nil_r.
  - cbn [fold_left codesOf flat_map]. fold (codesOf rest).
    rewrite IH. unfold pushDay.
    destruct (firstEntry token dayMap) as [v|]; [|reflexivity].
    cbn [app firstSeen filter].
    destruct (daysInclude acc v) eqn:Hin; cbn [negb].
    + f_equal. rewrite filter_twice. apply filter_ext_in. intros d _.
      destruct (DayCode_eqb v d) eqn:E; [|reflexivity].
      apply DayCode_eqb_eq in E. subst d. rewrite Hin. reflexivity.
    + rewrite <- app_assoc. cbn [app]. do 2 f_equal.
      rewrite filter_twice. apply filter_ext. intros d.
      unfold daysInclude. rewrite existsb_app. cbn [existsb].
      rewrite orb_false_r, negb_orb.
      replace (DayCode_eqb d v) with (DayCode_eqb v d)
        by (destruct v, d; reflexivity).
      apply andb_comm.
Qed.

Lemma firstSeen_In (codes : list DayCode) (c : DayCode) :
  In c (firstSeen codes) <-> In c codes.
Proof.
  induction codes as [|x rest IH]; [reflexivity|].
  cbn [firstSeen In]. rewrite filter_In, IH.
  split.
  - intros [H | [H _]]; auto.
  - intros [H | H]; [auto|].
    destruct (DayCode_eqb x c) eqn:E.
    + apply DayCode_eqb_eq in E. auto.
    + right. split; [exact H|reflexivity].
Qed.

Lemma firstSeen_NoDup (codes : list DayCode) : NoDup (firstSeen codes).
Proof.
  induction codes as [|x rest IH]; [constructor|].
  cbn [firstSeen]. constructor.
  - rewrite filter_In. intros [_ H].
    rewrite (proj2 (DayCode_eqb_eq x x) eq_refl) in H. discriminate.
  - apply NoDup_filter. exact IH.
Qed.

(** C8: for every input string, [parseDays] returns the codes of its
    tokens in first-seen order with later occurrences dropped, tokens
    without an entry contributing nothing; so the result has no duplicate
    and holds exactly the codes some token stands for.  In particular
    "Mon, Wed, Mon" gives [MO; WE]. *)
Theorem C8_parseDays_first_seen :
  forall (daysStr : jstr),
  let tokens := if truthy daysStr then dayTokensOf daysStr else [] in
  parseDays daysStr = firstSeen (codesOf tokens) /\
  NoDup (parseDays daysStr) /\
  (forall c, In c (parseDays daysStr) <-> In c (codesOf tokens)) /\
  parseDays (lit "Mon, Wed, Mon") = [MO; WE].
Proof.
  intros daysStr tokens.
  assert (Heq : parseDays daysStr = firstSeen (codesOf tokens)).
  { unfold parseDays, tokens. destruct (truthy daysStr); cbn [negb].
    - rewrite pushDay_fold. cbn [app].
      rewrite filter_ext with (g := fun _ => true) by reflexivity.
      clear. induction (firstSeen _) as [|x l IH]; [reflexivity|].
      cbn [filter]. now rewrite IH.
    - reflexivity. }
  split; [exact Heq|]. rewrite Heq.
  split; [apply firstSeen_NoDup|].
  split; [intros c; apply firstSeen_In|].
  vm_compute. reflexivity.
Qed.

(* ------------------------------------------------------------------ *)
(** ** [generateEvent]: what depends on the clock *)

(** C9: for an event with days, start date, both times and an end date,
    there are lines [before] and [after], fixed by the event alone, such
    that whatever the clock reads, [generateEvent] returns [before], the
    DTSTAMP line of that reading and [after], joined by CRLF; [before] is
    the BEGIN line and the UID line.  Two calls thus differ at most in the
    DTSTAMP line. *)
Theorem C9_generateEvent_only_dtstamp_varies :
  forall (e : MeetingEvent),
  startDate e <> None -> startTime e <> None -> endTime e <> None ->
  endDate e <> None -> days e <> [] ->
  exists before after : list jstr,
    before = [lit "BEGIN:VEVENT"; lit "UID:" ++ generateUID e] /\
    forall now : Instant,
      generateEvent now e =
      Ok (Some (join CRLF
                  (before ++ [lit "DTSTAMP:" ++ formatTimestamp now] ++ after))).
Proof.
  intros e Hsd Hst Het Hed Hds. unfold generateEvent.
  destruct (startDate e) as [sd|]; [|congruence].
  destruct (startTime e) as [st|] eqn:Est; [|congruence].
  destruct (endTime e) as [et|] eqn:Eet; [|congruence].
  destruct (endDate e) as [ed|] eqn:Eed; [|congruence].
  destruct (findFirstOccurrence_some sd (days e) Hds) as [fd Hfd].
  rewrite Hfd.
  destruct (days e) as [|d ds] eqn:Eds; [congruence|]. cbn [isNil].
  eexists. eexists. split; [reflexivity|]. intros now.
  cbn [formatUntilDate bind]. unfold eventLines.
  cbn [app]. reflexivity.
Qed.

(** C9 at the event of the well-formed sample row. *)
Lemma C9_generateEvent_only_dtstamp_varies_witness :
  exists before after : list jstr,
    before = [lit "BEGIN:VEVENT"; lit "UID:" ++ generateUID lectureEvent] /\
    forall now : Instant,
      generateEvent now lectureEvent =
      Ok (Some (join CRLF
                  (before ++ [lit "DTSTAMP:" ++ formatTimestamp now] ++ after))).
Proof.
  apply (C9_generateEvent_only_dtstamp_varies lectureEvent);
    cbn; discriminate.
Defined.

(* ------------------------------------------------------------------ *)
(** ** [parseRow]: explicit columns *)

Lemma parseDays_truthy (s : jstr) : parseDays s <> [] -> truthy s = true.
Proof. destruct s; [intros H; now contradiction H|reflexivity]. Qed.

Lemma normalizeTime_truthy (s : jstr) :
  normalizeTime s <> None -> truthy s = true.
Proof. destruct s; [intros H; now contradiction H|reflexivity]. Qed.

Lemma parseDate_truthy (currentYear : Z) (s : jstr) :
  parseDate currentYear s <> None -> truthy s = true.
Proof. destruct s; [intros H; now contradiction H|reflexivity]. Qed.

(** The explicit date columns of a row that holds no number in them: no
    exception; nothing unless both cells are populated, and then what
    [parseDate] makes of the two texts. *)
Lemma globalDatesOf_text (currentYear : Z) (row : Row) :
  noNumber (findColumnValue row startDateNames) ->
  noNumber (findColumnValue row endDateNames) ->
  exists gd,
    globalDatesOf currentYear row = Ok gd /\
    (truthyCell (findColumnValue row startDateNames)
     && truthyCell (findColumnValue row endDateNames) = false -> gd = None) /\
    (forall sdcell edcell,
       findColumnValue row startDateNames = Some (Text sdcell) ->
       findColumnValue row endDateNames = Some (Text edcell) ->
       truthy sdcell = true -> truthy edcell = true ->
       gd = Some (parseDate currentYear sdcell, parseDate currentYear edcell)).
Proof.
  intros Hsd Hed. unfold globalDatesOf.
  destruct (findColumnValue row startDateNames) as [[sdcell | n]|];
    [|now contradiction (Hsd n)|].
  - destruct (findColumnValue row endDateNames) as [[edcell | n]|];
      [|now contradiction (Hed n)|].
    + cbn [truthyCell cellTruthy].
      destruct (truthy sdcell) eqn:Es, (truthy edcell) eqn:Ee; cbn [andb].
      * eexists. split; [reflexivity|]. split; [discriminate|].
        intros ? ? [= <-] [= <-] _ _. reflexivity.
      * eexists. split; [reflexivity|]. split; [reflexivity|].
        intros ? ? [= <-] [= <-] _ H. congruence.
      * eexists. split; [reflexivity|]. split; [reflexivity|].
        intros ? ? [= <-] [= <-] H _. congruence.
      * eexists. split; [reflexivity|]. split; [reflexivity|].
        intros ? ? [= <-] [= <-] H _. congruence.
    + cbn [truthyCell]. rewrite andb_false_r.
      eexists. split; [reflexivity|]. split; [reflexivity|].
      intros ? ? _ H. discriminate H.
  - cbn [truthyCell andb].
    eexists. split; [reflexivity|]. split; [reflexivity|].
    intros ? ? H. discriminate H.
Qed.

(** The events of a row that holds no number in its Course Listing cell
    and its explicit date cells, whose meeting-pattern cell is
    [unparseable] and whose explicit Days, Start Time and End Time cells
    are texts that parse: one event, its days and times read from those
    cells, its dates the explicit ones. *)
Lemma parseRow_explicit (currentYear : Z) (row : Row)
      (dcell stcell etcell : jstr)
      (gd : option (option DateValue * option DateValue)) :
  noNumber (getCell row (lit "Course Listing")) ->
  globalDatesOf currentYear row = Ok gd ->
  unparseable currentYear (cellOrEmpty row "Meeting Patterns") ->
  findColumnValue row daysNames = Some (Text dcell) ->
  findColumnValue row startTimeNames = Some (Text stcell) ->
  findColumnValue row endTimeNames = Some (Text etcell) ->
  parseDays dcell <> [] ->
  normalizeTime stcell <> None -> normalizeTime etcell <> None ->
  exists e,
    parseRow currentYear row = Ok [e] /\
    days e = parseDays dcell /\
    startTime e = normalizeTime stcell /\
    endTime e = normalizeTime etcell /\
    startDate e = match gd with Some ds => fst ds | None => None end /\
    endDate e = match gd with Some ds => snd ds | None => None end.
Proof.
  intros Hcl Hgdates Hun Hd Hst Het Hdays Hstart Hend.
  unfold parseRow.
  assert (Hgd : globalDaysOf row = Ok (Some (parseDays dcell))).
  { unfold globalDaysOf. rewrite Hd. cbn [truthyCell cellTruthy applyTo].
    now rewrite (parseDays_truthy _ Hdays). }
  assert (Hgt : globalTimesOf row
                = Ok (Some (normalizeTime stcell, normalizeTime etcell))).
  { unfold globalTimesOf. rewrite Hst, Het. cbn [truthyCell cellTruthy applyTo].
    now rewrite (normalizeTime_truthy _ Hstart), (normalizeTime_truthy _ Hend). }
  assert (Hct : exists info,
             applyTo parseCourseTitle (Some (cellOrEmpty row "Course Listing"))
             = Ok info).
  { unfold cellOrEmpty.
    destruct (getCell row (lit "Course Listing")) as [[str | n]|];
      [|now contradiction (Hcl n)|].
    - destruct (cellTruthy (Text str)); eexists; reflexivity.
    - eexists; reflexivity. }
  destruct Hct as [info Hinfo].
  rewrite Hgdates, Hgt, Hgd, Hinfo. cbn [bind].
  pose proof (parseMeetingPatterns_no_error currentYear
                (cellOrEmpty row "Meeting Patterns")) as Hall.
  unfold unparseable in Hun.
  destruct (parseMeetingPatterns currentYear (cellOrEmpty row "Meeting Patterns"))
    as [|p [|q rest]]; [| |contradiction].
  - cbn [reconcile needsExplicit hd_error map].
    eexists. split; [reflexivity|].
    cbn [toEvent days startTime endTime startDate endDate
         p_days p_startTime p_endTime p_startDate p_endDate fst snd orOpt].
    destruct (normalizeTime stcell); [|congruence].
    destruct (normalizeTime etcell); [|congruence].
    destruct gd as [[[sd|] [ed|]]|]; repeat split; reflexivity.
  - inversion Hall as [|? ? Hp _]; subst.
    destruct Hun as [Hpd [Hps [Hpe [Hpsd Hped]]]].
    unfold reconcile. cbn [needsExplicit]. rewrite Hp. cbn [map].
    eexists. split; [reflexivity|].
    cbn [toEvent days startTime endTime startDate endDate
         p_days p_startTime p_endTime p_startDate p_endDate fst snd].
    rewrite Hpd, Hps, Hpe, Hpsd, Hped. cbn [List.length Nat.ltb Nat.leb orOpt].
    repeat split; reflexivity.
Qed.

(** C3 (as amended): take a two-row input, both rows kept by
    [filterDataRows], whose first row gives one encodable event and whose
    second row holds no number in its Course Listing cell and its explicit
    date cells, has an unparseable meeting-pattern cell, and has texts
    that parse in its explicit Days, Start Time and End Time cells.
    Parsing gives exactly two events and no error, the second with days
    and times from the explicit cells.  The second is encoded as [null]
    when the row has no populated pair of explicit date cells, and is
    encodable, with the dates of those cells, when both are populated and
    parse. *)
Theorem C3_explicit_columns_two_rows :
  forall (currentYear : Z) (now : Instant) (r1 r2 : Row) (e1 : MeetingEvent)
         (dcell stcell etcell : jstr),
  parseRow currentYear r1 = Ok [e1] -> encodable now e1 ->
  filterDataRows [r1; r2] = [r1; r2] ->
  noNumber (getCell r2 (lit "Course Listing")) ->
  noNumber (findColumnValue r2 startDateNames) ->
  noNumber (findColumnValue r2 endDateNames) ->
  unparseable currentYear (cellOrEmpty r2 "Meeting Patterns") ->
  findColumnValue r2 daysNames = Some (Text dcell) ->
  findColumnValue r2 startTimeNames = Some (Text stcell) ->
  findColumnValue r2 endTimeNames = Some (Text etcell) ->
  parseDays dcell <> [] ->
  normalizeTime stcell <> None -> normalizeTime etcell <> None ->
  exists e2,
    parse currentYear [r1; r2] = ([e1; e2], []) /\
    days e2 = parseDays dcell /\
    startTime e2 = normalizeTime stcell /\
    endTime e2 = normalizeTime etcell /\
    (truthyCell (findColumnValue r2 startDateNames)
     && truthyCell (findColumnValue r2 endDateNames) = false ->
     startDate e2 = None /\ generateEvent now e2 = Ok None) /\
    (forall sdcell edcell sd ed,
       findColumnValue r2 startDateNames = Some (Text sdcell) ->
       findColumnValue r2 endDateNames = Some (Text edcell) ->
       parseDate currentYear sdcell = Some sd ->
       parseDate currentYear edcell = Some ed ->
       startDate e2 = Some sd /\ endDate e2 = Some ed /\ encodable now e2).
Proof.
  intros currentYear now r1 r2 e1 dcell stcell etcell
         Hr1 _ Hfilter Hcl Hsdn Hedn Hun Hd Hst Het Hdays Hstart Hend.
  destruct (globalDatesOf_text currentYear r2 Hsdn Hedn)
    as [gd [Hgd [Hnone Hboth]]].
  destruct (parseRow_explicit currentYear r2 dcell stcell etcell gd
              Hcl Hgd Hun Hd Hst Het Hdays Hstart Hend)
    as [e2 [Hr2 [Hdy [Hs [He [Hsd Hed]]]]]].
  exists e2.
  split.
  { unfold parse. rewrite Hfilter. cbn [parseRows].
    rewrite Hr1, Hr2. reflexivity. }
  repeat (split; [assumption|]).
  split.
  - intros Hno. rewrite (Hnone Hno) in Hsd. split; [exact Hsd|].
    apply generateEvent_skips. auto.
  - intros sdcell edcell sd ed Hsc Hec Hpsd Hped.
    assert (Hts : truthy sdcell = true)
      by (apply (parseDate_truthy currentYear); congruence).
    assert (Hte : truthy edcell = true)
      by (apply (parseDate_truthy currentYear); congruence).
    rewrite (Hboth sdcell edcell Hsc Hec Hts Hte) in Hsd, Hed.
    cbn [fst snd] in Hsd, Hed. rewrite Hpsd in Hsd. rewrite Hped in Hed.
    repeat (split; [assumption|]).
    apply generateEvent_encodes; congruence.
Qed.

(** C3 at the two sample rows, the second with explicit date columns. *)
Lemma C3_explicit_columns_two_rows_witness :
  exists e2,
    parse 2024 [rowWellFormed; rowExplicitDated] = ([lectureEvent; e2], []) /\
    days e2 = [TU] /\ startTime e2 = time 14 0 /\ endTime e2 = time 15 30 /\
    startDate e2 = date 2024 9 3 /\ endDate e2 = date 2024 12 5 /\
    encodable noon e2.
Proof.
  assert (H1 : parseRow 2024 rowWellFormed = Ok [lectureEvent])
    by (vm_compute; reflexivity).
  assert (H2 : encodable noon lectureEvent)
    by (eexists; vm_compute; reflexivity).
  assert (H3 : filterDataRows [rowWellFormed; rowExplicitDated]
               = [rowWellFormed; rowExplicitDated])
    by (vm_compute; reflexivity).
  assert (Hn1 : noNumber (getCell rowExplicitDated (lit "Course Listing")))
    by (intros n H; vm_compute in H; discriminate H).
  assert (Hn2 : noNumber (findColumnValue rowExplicitDated startDateNames))
    by (intros n H; vm_compute in H; discriminate H).
  assert (Hn3 : noNumber (findColumnValue rowExplicitDated endDateNames))
    by (intros n H; vm_compute in H; discriminate H).
  assert (H4 : unparseable 2024 (cellOrEmpty rowExplicitDated "Meeting Patterns"))
    by (vm_compute; repeat split).
  assert (H5 : findColumnValue rowExplicitDated daysNames
               = Some (Text (lit "Tue")))
    by (vm_compute; reflexivity).
  assert (H6 : findColumnValue rowExplicitDated startTimeNames
               = Some (Text (lit "2:00 PM")))
    by (vm_compute; reflexivity).
  assert (H7 : findColumnValue rowExplicitDated endTimeNames
               = Some (Text (lit "3:30 PM")))
    by (vm_compute; reflexivity).
  assert (H8 : parseDays (lit "Tue") <> []) by (vm_compute; intros H; discriminate H).
  assert (H9 : normalizeTime (lit "2:00 PM") <> None)
    by (vm_compute; intros H; discriminate H).
  assert (H10 : normalizeTime (lit "3:30 PM") <> None)
    by (vm_compute; intros H; discriminate H).
  destruct (C3_explicit_columns_two_rows 2024 noon rowWellFormed
              rowExplicitDated lectureEvent
              (lit "Tue") (lit "2:00 PM") (lit "3:30 PM")
              H1 H2 H3 Hn1 Hn2 Hn3 H4 H5 H6 H7 H8 H9 H10)
    as [e2 [Hparse [Hd [Hs [He [_ Hdated]]]]]].
  assert (H11 : findColumnValue rowExplicitDated startDateNames
                = Some (Text (lit "2024-09-03")))
    by (vm_compute; reflexivity).
  assert (H12 : findColumnValue rowExplicitDated endDateNames
                = Some (Text (lit "2024-12-05")))
    by (vm_compute; reflexivity).
  assert (H13 : parseDate 2024 (lit "2024-09-03") = date 2024 9 3)
    by (vm_compute; reflexivity).
  assert (H14 : parseDate 2024 (lit "2024-12-05") = date 2024 12 5)
    by (vm_compute; reflexivity).
  destruct (Hdated _ _ _ _ H11 H12 H13 H14) as [Hsd [Hed Henc]].
  exists e2. repeat (split; [assumption|]). exact Henc.
Defined.

(** C3 as stated fails: with no explicit date columns the second row still
    gives an event with the explicit days and times, but it has no start
    date and [generateEvent] encodes it as [null]. *)
Lemma C3_counterexample_no_date_columns :
  exists e2,
    unparseable 2024 (cellOrEmpty rowExplicit "Meeting Patterns") /\
    parse 2024 [rowWellFormed; rowExplicit] = ([lectureEvent; e2], []) /\
    encodable noon lectureEvent /\
    days e2 = [TU] /\ startTime e2 = time 14 0 /\ endTime e2 = time 15 30 /\
    startDate e2 = None /\
    generateEvent noon e2 = Ok None /\
    ~ encodable noon e2.
Proof.
  eexists.
  split; [vm_compute; repeat split|].
  split; [vm_compute; reflexivity|].
  split; [eexists; vm_compute; reflexivity|].
  repeat (split; [reflexivity|]).
  intros [text Htext]. discriminate Htext.
Qed.

(* ------------------------------------------------------------------ *)
(** ** The calendar *)

Import Cal.

(** The parts of a day of the era: a century 0..3, a cycle 0..24, a year
    of the cycle 0..3 and a day of the year 0..365. *)
Lemma era_parts (doe : Z) :
  0 <= doe < 146097 ->
  0 <= centuryOf doe <= 3 /\ 0 <= cycleOf doe <= 24
  /\ 0 <= yearOfCycle doe <= 3 /\ 0 <= doyOf doe <= 365
  /\ doe = centuryOf doe * 36524 + cycleOf doe * 1461
           + yearOfCycle doe * 365 + doyOf doe.
Proof.
  intros H. unfold doyOf, yearOfCycle, dayOfCycle, cycleOf.
  assert (Hc : 0 <= centuryOf doe <= 3
               /\ 0 <= doe - centuryOf doe * 36524 <= 36524).
  { unfold centuryOf. Z.div_mod_to_equations. lia. }
  set (c := centuryOf doe) in *. destruct Hc as [Hc Hd1].
  set (d1 := doe - c * 36524) in *.
  assert (Hq : 0 <= d1 / 1461 <= 24 /\ 0 <= d1 - d1 / 1461 * 1461 <= 1460)
    by (Z.div_mod_to_equations; lia).
  set (q := d1 / 1461) in *. destruct Hq as [Hq Hd2].
  set (d2 := d1 - q * 1461) in *.
  assert (Hy : 0 <= Z.min 3 (d2 / 365) <= 3
               /\ 0 <= d2 - Z.min 3 (d2 / 365) * 365 <= 365)
    by (Z.div_mod_to_equations; lia).
  unfold d2, d1 in *. lia.
Qed.

Lemma yearStart_parts (c q yr : Z) :
  0 <= q <= 24 -> 0 <= yr <= 3 ->
  yearStart (100 * c + 4 * q + yr) = c * 36524 + q * 1461 + yr * 365.
Proof.
  intros Hq Hy. unfold yearStart.
  replace ((100 * c + 4 * q + yr) / 4) with (25 * c + q)
    by (apply Z.div_unique with (r := yr); lia).
  replace ((100 * c + 4 * q + yr) / 100) with c
    by (apply Z.div_unique with (r := 4 * q + yr); lia).
  lia.
Qed.

(** The parts are the only ones: a day of the era given by a century, a
    cycle, a year and a day of the year (day 365 only in a year that ends
    on a 29 February) has those parts. *)
Lemma era_parts_unique (c q yr doy : Z) :
  0 <= c <= 3 -> 0 <= q <= 24 -> 0 <= yr <= 3 -> 0 <= doy <= 365 ->
  (doy = 365 -> yr = 3 /\ (q < 24 \/ c = 3)) ->
  let doe := c * 36524 + q * 1461 + yr * 365 + doy in
  0 <= doe < 146097 /\ yoeOf doe = 100 * c + 4 * q + yr /\ doyOf doe = doy.
Proof.
  intros Hc Hq Hy Hd Hleap doe.
  assert (Hrange : 0 <= doe < 146097) by (unfold doe; lia).
  assert (Ec : centuryOf doe = c).
  { unfold centuryOf. unfold doe in *. Z.div_mod_to_equations. lia. }
  assert (Eq : cycleOf doe = q).
  { unfold cycleOf. rewrite Ec. unfold doe.
    symmetry. apply Z.div_unique with (r := yr * 365 + doy); lia. }
  assert (Ed : dayOfCycle doe = yr * 365 + doy).
  { unfold dayOfCycle. rewrite Ec, Eq. unfold doe. lia. }
  assert (Ey : yearOfCycle doe = yr).
  { unfold yearOfCycle. rewrite Ed. Z.div_mod_to_equations. lia. }
  split; [exact Hrange|]. unfold yoeOf, doyOf. rewrite Ec, Eq, Ey, Ed. lia.
Qed.

Lemma isLeap_era (k era : Z) : isLeap (k + era * 400) = isLeap k.
Proof.
  unfold isLeap.
  replace ((k + era * 400) mod 4) with (k mod 4)
    by (rewrite <- (Z.mod_add k (era * 100) 4) by lia; f_equal; lia).
  replace ((k + era * 400) mod 100) with (k mod 100)
    by (rewrite <- (Z.mod_add k (era * 4) 100) by lia; f_equal; lia).
  replace ((k + era * 400) mod 400) with (k mod 400)
    by (rewrite <- (Z.mod_add k era 400) by lia; f_equal; lia).
  reflexivity.
Qed.

Lemma daysInMonth_le_31 (y m : Z) : daysInMonth y m <= 31.
Proof.
  unfold daysInMonth.
  destruct (m =? 2); [destruct (isLeap y); lia|].
  destruct (_ || _); lia.
Qed.

Lemma mpOfMonth_cases (m : Z) :
  1 <= m <= 12 ->
  (m <=? 2) = true /\ mpOfMonth m = m + 9 /\ (mpOfMonth m <? 10) = false
  \/ (m <=? 2) = false /\ mpOfMonth m = m - 3 /\ (mpOfMonth m <? 10) = true.
Proof.
  intros Hm. unfold mpOfMonth. destruct (Z.leb_spec m 2).
  - left. replace ((m + 9) mod 12) with (m + 9)
      by (apply Z.mod_unique with (q := 0); lia).
    repeat split. apply Z.ltb_ge. lia.
  - right. replace ((m + 9) mod 12) with (m - 3)
      by (apply Z.mod_unique with (q := 1); lia).
    repeat split. apply Z.ltb_lt. lia.
Qed.

Lemma monthOfMp_cases (mp : Z) :
  0 <= mp <= 11 ->
  1 <= monthOfMp mp <= 12 /\ mpOfMonth (monthOfMp mp) = mp
  /\ (monthOfMp mp <=? 2) = negb (mp <? 10).
Proof.
  intros H. unfold monthOfMp, mpOfMonth. destruct (Z.ltb_spec mp 10).
  - replace ((mp + 3 + 9) mod 12) with mp
      by (apply Z.mod_unique with (q := 1); lia).
    repeat split; try lia; apply Z.leb_gt; lia.
  - replace ((mp - 9 + 9) mod 12) with mp
      by (apply Z.mod_unique with (q := 0); lia).
    repeat split; try lia; apply Z.leb_le; lia.
Qed.

(** The civil date of a day number counts back to that day number, and
    its month is one of the twelve. *)
Lemma daysFromCivil_civilFromDays (n : Z) :
  let c := civilFromDays n in
  1 <= month c <= 12 /\ daysFromCivil (year c) (month c) (day c) = n.
Proof.
  cbv zeta. unfold civilFromDays. cbn [year month day].
  set (z := n + 719468).
  assert (Hdoe : 0 <= z mod 146097 < 146097) by (apply Z.mod_pos_bound; lia).
  set (doe := z mod 146097) in *. set (era := z / 146097).
  destruct (era_parts doe Hdoe) as [Hc [Hq [Hy [Hd Hsum]]]].
  assert (Hyoe : 0 <= yoeOf doe < 400) by (unfold yoeOf; lia).
  assert (Hstart : yearStart (yoeOf doe) + doyOf doe = doe).
  { unfold yoeOf. rewrite yearStart_parts by assumption. lia. }
  assert (Hmp : 0 <= mpOf (doyOf doe) <= 11)
    by (unfold mpOf; Z.div_mod_to_equations; lia).
  destruct (monthOfMp_cases _ Hmp) as [Hm [Hback Hjan]].
  split; [exact Hm|].
  unfold daysFromCivil. rewrite Hback, Hjan.
  set (yoe := yoeOf doe) in *. set (mp := mpOf (doyOf doe)) in *.
  replace (if negb (mp <? 10)
           then yoe + era * 400 + (if negb (mp <? 10) then 1 else 0) - 1
           else yoe + era * 400 + (if negb (mp <? 10) then 1 else 0))
    with (yoe + era * 400) by (destruct (mp <? 10); cbn [negb]; lia).
  replace ((yoe + era * 400) / 400) with era
    by (apply Z.div_unique with (r := yoe); lia).
  replace ((yoe + era * 400) mod 400) with yoe
    by (apply Z.mod_unique with (q := era); lia).
  pose proof (Z.div_mod z 146097 ltac:(lia)). unfold era, doe, z in *. lia.
Qed.

(** The first day of each month of a year that begins in March, and the
    month a day of such a year falls in. *)
Lemma mpOf_monthStart (mp d : Z) (leap : bool) :
  0 <= mp <= 11 ->
  1 <= d <= (if mp =? 11 then (if leap then 29 else 28)
             else if (mp =? 1) || (mp =? 3) || (mp =? 6) || (mp =? 8)
             then 30 else 31) ->
  mpOf (monthStart mp + d - 1) = mp
  /\ 0 <= monthStart mp + d - 1 <= 365
  /\ (monthStart mp + d - 1 = 365 -> mp = 11 /\ leap = true).
Proof.
  intros Hmp Hd. unfold mpOf, monthStart.
  assert (Hcases : mp = 0 \/ mp = 1 \/ mp = 2 \/ mp = 3 \/ mp = 4 \/ mp = 5
                   \/ mp = 6 \/ mp = 7 \/ mp = 8 \/ mp = 9 \/ mp = 10
                   \/ mp = 11) by lia.
  repeat (destruct Hcases as [-> | Hcases]); try subst mp;
    cbn [Z.eqb Pos.eqb orb] in Hd;
    (split; [| split]);
    try (Z.div_mod_to_equations; destruct leap; lia).
Qed.

(** The length of a month, by its place in the year that begins in
    March. *)
Lemma daysInMonth_mp (y m : Z) :
  1 <= m <= 12 ->
  daysInMonth y m =
    let mp := mpOfMonth m in
    if mp =? 11 then (if isLeap y then 29 else 28)
    else if (mp =? 1) || (mp =? 3) || (mp =? 6) || (mp =? 8) then 30 else 31.
Proof.
  intros Hm.
  assert (Hcases : m = 1 \/ m = 2 \/ m = 3 \/ m = 4 \/ m = 5 \/ m = 6
                   \/ m = 7 \/ m = 8 \/ m = 9 \/ m = 10 \/ m = 11 \/ m = 12)
    by lia.
  repeat (destruct Hcases as [-> | Hcases]); try subst m; reflexivity.
Qed.

(** A year of the era that ends on a 29 February is the last of its
    cycle, and not the last of a century other than the fourth. *)
Lemma leap_year_of_era (yoe era : Z) :
  0 <= yoe < 400 ->
  isLeap (yoe + era * 400 + 1) = true ->
  yoe mod 4 = 3 /\ ((yoe mod 100) / 4 < 24 \/ yoe / 100 = 3).
Proof.
  intros Hy. replace (yoe + era * 400 + 1) with (yoe + 1 + era * 400) by lia.
  rewrite isLeap_era. unfold isLeap.
  rewrite orb_true_iff, andb_true_iff, negb_true_iff, !Z.eqb_eq, Z.eqb_neq.
  intros H. Z.div_mod_to_equations. lia.
Qed.

(** A date of the calendar is the civil date of its day number. *)
Lemma civilFromDays_daysFromCivil (d : CalendarDate) :
  validDate d -> civilFromDays (dayNumber d) = d.
Proof.
  destruct d as [y m dd]. unfold validDate, dayNumber. cbn [year month day].
  intros [Hm Hd].
  unfold daysFromCivil.
  set (y' := if m <=? 2 then y - 1 else y).
  set (era := y' / 400). set (yoe := y' mod 400). set (mp := mpOfMonth m).
  assert (Hyoe : 0 <= yoe < 400) by (apply Z.mod_pos_bound; lia).
  assert (Hmp : 0 <= mp <= 11)
    by (pose proof (Z.mod_pos_bound (m + 9) 12); unfold mp, mpOfMonth; lia).
  assert (Hy' : y' = yoe + era * 400)
    by (pose proof (Z.div_mod y' 400 ltac:(lia)); unfold yoe, era; lia).
  assert (Hcases : monthOfMp mp = m
                   /\ y = yoe + era * 400 + (if m <=? 2 then 1 else 0)
                   /\ (mp = 11 -> y = yoe + era * 400 + 1)).
  { unfold monthOfMp, mp, y' in *.
    destruct (mpOfMonth_cases m Hm) as [[E1 [E2 E3]] | [E1 [E2 E3]]];
      rewrite E1 in Hy' |- *; rewrite E3, E2; lia. }
  destruct Hcases as [Hm' [Hy Hfeb]].
  rewrite daysInMonth_mp in Hd by exact Hm. cbv zeta in Hd. fold mp in Hd.
  destruct (mpOf_monthStart mp dd (isLeap y) Hmp Hd) as [Hmonth [Hdoy Hlast]].
  set (doy := monthStart mp + dd - 1) in *.
  set (c := yoe / 100). set (q := (yoe mod 100) / 4). set (yr := yoe mod 4).
  assert (Hparts : yoe = 100 * c + 4 * q + yr /\ 0 <= c <= 3 /\ 0 <= q <= 24
                   /\ 0 <= yr <= 3)
    by (unfold c, q, yr; Z.div_mod_to_equations; lia).
  destruct Hparts as [Hsum [Hc [Hq Hyr]]].
  assert (Hleap : doy = 365 -> yr = 3 /\ (q < 24 \/ c = 3)).
  { intros H365. destruct (Hlast H365) as [H11 Hl].
    rewrite (Hfeb H11) in Hl. exact (leap_year_of_era yoe era Hyoe Hl). }
  destruct (era_parts_unique c q yr doy Hc Hq Hyr Hdoy Hleap)
    as [Hrange [Eyoe Edoy]].
  rewrite <- yearStart_parts, <- Hsum in Hrange, Eyoe, Edoy by assumption.
  unfold civilFromDays.
  replace (era * 146097 + (yearStart yoe + doy) - 719468 + 719468)
    with (yearStart yoe + doy + era * 146097) by lia.
  replace ((yearStart yoe + doy + era * 146097) / 146097) with era
    by (apply Z.div_unique with (r := yearStart yoe + doy); lia).
  replace ((yearStart yoe + doy + era * 146097) mod 146097)
    with (yearStart yoe + doy)
    by (apply Z.mod_unique with (q := era); lia).
  rewrite Eyoe, Edoy, Hmonth, Hm'. f_equal; [lia|]. unfold doy. lia.
Qed.
(* ------------------------------------------------------------------ *)
(** ** [findFirstOccurrence] *)

Lemma dayNumber_civilFromDays (n : Z) : dayNumber (civilFromDays n) = n.
Proof. apply daysFromCivil_civilFromDays. Qed.

Lemma daysFromCivil_day (y m d : Z) :
  daysFromCivil y m d = daysFromCivil y m 1 + d - 1.
Proof. unfold daysFromCivil. lia. Qed.

(** For a month 1..12 the [Date] constructor counts as the calendar does. *)
Lemma makeDay_month (y m d : Z) :
  1 <= m <= 12 -> makeDay y (m - 1) d = daysFromCivil y m d.
Proof.
  intros Hm. unfold makeDay.
  replace ((m - 1) / 12) with 0 by (apply Z.div_unique with (r := m - 1); lia).
  replace ((m - 1) mod 12) with (m - 1)
    by (apply Z.mod_unique with (q := 0); lia).
  rewrite (daysFromCivil_day y m d). do 3 f_equal; lia.
Qed.

Lemma timeClip_in_range (n : Z) :
  - 100000000 <= n <= 100000000 -> timeClip n = Some n.
Proof.
  intros H. unfold timeClip.
  destruct (Z.leb_spec (Z.abs n) 100000000); [reflexivity|lia].
Qed.

(** [checkDate.setDate(date.getDate() + i)] moves [i] days on. *)
Lemma setDate_offset (t i : Z) :
  - 100000000 <= t + i <= 100000000 ->
  setDate t (getDate t + i) = Some (t + i).
Proof.
  intros Hr. unfold setDate, getFullYear, getMonth, getDate.
  destruct (daysFromCivil_civilFromDays t) as [Hm Hback].
  rewrite makeDay_month by exact Hm.
  rewrite daysFromCivil_day. rewrite daysFromCivil_day in Hback.
  rewrite <- timeClip_in_range by exact Hr. f_equal. lia.
Qed.

Lemma monthStart_bounds (mp : Z) : 0 <= mp < 12 -> 0 <= monthStart mp <= 337.
Proof. intros H. unfold monthStart. Z.div_mod_to_equations. lia. Qed.

(** The day numbers of the years -271000 to 275000 are time values, with
    a week to spare. *)
Lemma dayNumber_in_range (d : CalendarDate) :
  - 271000 <= year d <= 275000 -> 1 <= month d <= 12 -> 1 <= day d <= 31 ->
  - 99999990 <= dayNumber d <= 99999990.
Proof.
  destruct d as [y m dd]. unfold dayNumber. cbn [year month day].
  intros Hy Hm Hd. unfold daysFromCivil, yearStart.
  assert (Hmp : 0 <= mpOfMonth m < 12) by (apply Z.mod_pos_bound; lia).
  pose proof (monthStart_bounds _ Hmp).
  destruct (m <=? 2); Z.div_mod_to_equations; lia.
Qed.

Lemma getDay_range (t : Z) : 0 <= getDay t < 7.
Proof. unfold getDay. apply Z.mod_pos_bound. lia. Qed.

Lemma dayToNum_codeOfNum (n : Z) : 0 <= n < 7 -> dayToNum (codeOfNum n) = n.
Proof.
  intros H.
  assert (n = 0 \/ n = 1 \/ n = 2 \/ n = 3 \/ n = 4 \/ n = 5 \/ n = 6) by lia.
  intuition (subst; reflexivity).
Qed.

Lemma codeOfNum_dayToNum (c : DayCode) : codeOfNum (dayToNum c) = c.
Proof. destruct c; reflexivity. Qed.

(** The test of the loop, in terms of day codes. *)
Lemma targetDays_hit (t : Z) (ds : list DayCode) :
  existsb (Z.eqb (getDay t)) (map dayToNum ds) = true
  <-> In (codeOfNum (getDay t)) ds.
Proof.
  rewrite existsb_exists. split.
  - intros [x [Hin Heq]]. apply Z.eqb_eq in Heq. apply in_map_iff in Hin.
    destruct Hin as [c [Hc Hinc]]. rewrite Heq, <- Hc, codeOfNum_dayToNum.
    exact Hinc.
  - intros Hin. exists (getDay t). split; [|apply Z.eqb_refl].
    apply in_map_iff. exists (codeOfNum (getDay t)).
    split; [apply dayToNum_codeOfNum, getDay_range|exact Hin].
Qed.

(** Every day of the week comes up within seven consecutive days. *)
Lemma weekday_within_seven (t target : Z) :
  0 <= target < 7 -> exists j, 0 <= j < 7 /\ getDay (t + j) = target.
Proof.
  intros H. exists ((target - getDay t) mod 7). unfold getDay.
  split; [apply Z.mod_pos_bound; lia|].
  pose proof (Z.mod_pos_bound (t + 4) 7 ltac:(lia)).
  pose proof (Z.div_mod (t + 4) 7 ltac:(lia)).
  pose proof (Z.mod_pos_bound (target - (t + 4) mod 7) 7 ltac:(lia)).
  pose proof (Z.div_mod (target - (t + 4) mod 7) 7 ltac:(lia)).
  symmetry. apply Z.mod_unique
    with (q := (t + 4) / 7 - (target - (t + 4) mod 7) / 7); lia.
Qed.

Lemma civil_fields (t : Z) :
  {| year := getFullYear t; month := getMonth t + 1; day := getDate t |}
  = civilFromDays t.
Proof.
  unfold getFullYear, getMonth, getDate.
  destruct (civilFromDays t) as [y m d].
  cbn [year month day]. f_equal. lia.
Qed.

(** The loop over consecutive offsets returns the date at the first
    offset whose weekday is a target, and runs to its end only if there
    is none. *)
Lemma scanDays_zrange (t : Z) (targetDays : list Z) (len : nat) (k : Z) :
  (forall j, k <= j < k + Z.of_nat len ->
             - 100000000 <= t + j <= 100000000) ->
  match scanDays t targetDays (zrange k len) with
  | Some found =>
      exists i, k <= i < k + Z.of_nat len /\
                found = civilFromDays (t + i) /\
                existsb (Z.eqb (getDay (t + i))) targetDays = true /\
                forall j, k <= j < i ->
                          existsb (Z.eqb (getDay (t + j))) targetDays = false
  | None =>
      forall j, k <= j < k + Z.of_nat len ->
                existsb (Z.eqb (getDay (t + j))) targetDays = false
  end.
Proof.
  revert k. induction len as [|len IH]; intros k Hr.
  - cbn [zrange scanDays]. intros j Hj. lia.
  - cbn [zrange scanDays]. rewrite setDate_offset by (apply Hr; lia).
    destruct (existsb (Z.eqb (getDay (t + k))) targetDays) eqn:Hk.
    + exists k. split; [lia|]. split; [apply civil_fields|].
      split; [exact Hk|]. intros j Hj. lia.
    + specialize (IH (k + 1)).
      assert (Hr' : forall j, k + 1 <= j < k + 1 + Z.of_nat len ->
                              - 100000000 <= t + j <= 100000000)
        by (intros j Hj; apply Hr; lia).
      specialize (IH Hr').
      destruct (scanDays t targetDays (zrange (k + 1) len)) as [found|].
      * destruct IH as [i [Hi [Hf [Hhit Hmin]]]].
        exists i. split; [lia|]. split; [exact Hf|]. split; [exact Hhit|].
        intros j Hj. destruct (Z.eq_dec j k) as [-> | Hne]; [exact Hk|].
        apply Hmin. lia.
      * intros j Hj. destruct (Z.eq_dec j k) as [-> | Hne]; [exact Hk|].
        apply IH. lia.
Qed.




(* ------------------------------------------------------------------ *)
(** ** The matcher *)

Lemma suffixOf_refl (a : jstr) : suffixOf a a.
Proof. exists []. reflexivity. Qed.

Lemma suffixOf_trans (a b c : jstr) : suffixOf a b -> suffixOf b c -> suffixOf a c.
Proof.
  intros [p1 ->] [p2 ->]. exists (p2 ++ p1). now rewrite app_assoc.
Qed.

Lemma suffixOf_tail (x : cu) (t : jstr) : suffixOf t (x :: t).
Proof. exists [x]. reflexivity. Qed.

Lemma suffixOf_In (a b : jstr) (x : cu) : suffixOf a b -> In x a -> In x b.
Proof. intros [pre ->] H. apply in_or_app. now right. Qed.

(** The loop of a star depends on its body only as a function. *)
Lemma starLoop_ext (body body' : st -> (st -> option st) -> option st)
      (k k' : st -> option st) (P : st -> Prop) (n : nat) :
  (forall s s1, P s -> suffixOf (rest s1) (rest s) -> P s1) ->
  (forall s f g, P s ->
     (forall s1, suffixOf (rest s1) (rest s) -> f s1 = g s1) ->
     body s f = body' s g) ->
  (forall s, P s -> k s = k' s) ->
  forall s0, P s0 -> starLoop body k n s0 = starLoop body' k' n s0.
Proof.
  intros HP Hbody Hk. induction n as [|n IH]; intros s0 Hs0; cbn [starLoop].
  - apply Hk, Hs0.
  - rewrite (Hk s0 Hs0). f_equal. apply Hbody; [exact Hs0|].
    intros s1 Hs1. destruct (progressed s0 s1); [|reflexivity].
    apply IH. apply (HP s0); assumption.
Qed.

(** A match looks at its continuation only on states further along the
    input. *)
Lemma mt_ext (ic : bool) (r : re) :
  forall (s : st) (k k' : st -> option st),
  (forall s1, suffixOf (rest s1) (rest s) -> k s1 = k' s1) ->
  mt ic r s k = mt ic r s k'.
Proof.
  induction r as [| c | p | a IHa b IHb | a IHa b IHb | a IHa | a IHa
                  | n a IHa | | |]; intros s k k' Hk; cbn [mt].
  - apply Hk, suffixOf_refl.
  - destruct (rest s) as [|x t] eqn:E; [reflexivity|].
    destruct (_ =? _); [|reflexivity]. apply Hk. cbn. apply suffixOf_tail.
  - destruct (rest s) as [|x t] eqn:E; [reflexivity|].
    destruct (inClass _ _ _); [|reflexivity]. apply Hk. cbn. apply suffixOf_tail.
  - apply IHa. intros s1 Hs1. apply IHb. intros s2 Hs2.
    apply Hk. eapply suffixOf_trans; eassumption.
  - rewrite (IHa s k k' Hk), (IHb s k k' Hk). reflexivity.
  - apply (starLoop_ext _ _ k k' (fun s0 => suffixOf (rest s0) (rest s))).
    + intros s0 s1 H0 H1. eapply suffixOf_trans; eassumption.
    + intros s0 f g H0 Hfg. apply IHa. exact Hfg.
    + intros s0 H0. apply Hk, H0.
    + apply suffixOf_refl.
  - rewrite (Hk s (suffixOf_refl _)). f_equal. apply IHa.
    intros s1 Hs1. destruct (progressed s s1); [|reflexivity]. apply Hk, Hs1.
  - apply IHa. intros s1 Hs1. apply Hk. exact Hs1.
  - destruct (prev s); [reflexivity|]. apply Hk, suffixOf_refl.
  - destruct (rest s) eqn:E; [|reflexivity]. apply Hk. rewrite E.
    apply suffixOf_refl.
  - destruct (xorb _ _); [|reflexivity]. apply Hk, suffixOf_refl.
Qed.

(** A continuation that refuses everything makes the match fail. *)
Lemma mt_refused (ic : bool) (r : re) :
  forall (s : st), mt ic r s (fun _ => None) = None.
Proof.
  induction r as [| c | p | a IHa b IHb | a IHa b IHb | a IHa | a IHa
                  | n a IHa | | |]; intros s; cbn [mt].
  - reflexivity.
  - destruct (rest s); [reflexivity|]. now destruct (_ =? _).
  - destruct (rest s); [reflexivity|]. now destruct (inClass _ _ _).
  - rewrite (mt_ext ic a s _ (fun _ => None)); [apply IHa|].
    intros s1 _. apply IHb.
  - now rewrite IHa, IHb.
  - generalize (List.length (rest s)) as n. intros n. revert s.
    induction n as [|n IH]; intros s; cbn [starLoop]; [reflexivity|].
    rewrite (mt_ext ic a s _ (fun _ => None)); [now rewrite IHa|].
    intros s1 _. destruct (progressed s s1); [apply IH|reflexivity].
  - rewrite (mt_ext ic a s _ (fun _ => None)); [now rewrite IHa|].
    intros s1 _. now destruct (progressed s s1).
  - apply IHa.
  - now destruct (prev s).
  - now destruct (rest s).
  - now destruct (xorb _ _).
Qed.

(** The count a star starts with is enough: a larger one changes
    nothing. *)
Lemma starLoop_enough (ic : bool) (a : re) (k : st -> option st) (n : nat) :
  forall s0, (List.length (rest s0) <= n)%nat ->
  starLoop (mt ic a) k (S n) s0 = starLoop (mt ic a) k n s0.
Proof.
  induction n as [|n IH]; intros s0 Hlen.
  - cbn [starLoop].
    rewrite (mt_ext ic a s0 _ (fun _ => None)); [now rewrite mt_refused|].
    intros s1 _. unfold progressed.
    destruct (Nat.ltb_spec (List.length (rest s1)) (List.length (rest s0)));
      [lia|reflexivity].
  - change (starLoop (mt ic a) k (S (S n)) s0)
      with (orElse (mt ic a s0 (fun s1 => if progressed s0 s1
                                          then starLoop (mt ic a) k (S n) s1
                                          else None))
                   (k s0)).
    change (starLoop (mt ic a) k (S n) s0)
      with (orElse (mt ic a s0 (fun s1 => if progressed s0 s1
                                          then starLoop (mt ic a) k n s1
                                          else None))
                   (k s0)).
    f_equal. apply mt_ext. intros s1 _. unfold progressed.
    destruct (Nat.ltb_spec (List.length (rest s1)) (List.length (rest s0)));
      [|reflexivity].
    apply IH. lia.
Qed.

(** A pattern that needs a code unit satisfying [q] does not match an
    input without one. *)
Lemma needs_no_match (ic : bool) (q : cu -> bool) (r : re) :
  Needs ic q r ->
  forall (s : st) (k : st -> option st),
  (forall x, In x (rest s) -> q x = false) -> mt ic r s k = None.
Proof.
  induction 1 as [c Hc | p Hp | a b _ IHa | a b _ IHb | a b _ IHa _ IHb
                  | n a _ IHa]; intros s k Hq; cbn [mt].
  - destruct (rest s) as [|x t] eqn:E; [reflexivity|].
    destruct (Z.eqb_spec (canon ic x) (canon ic c)) as [Heq|]; [|reflexivity].
    specialize (Hq x (or_introl eq_refl)). rewrite (Hc x Heq) in Hq.
    discriminate.
  - destruct (rest s) as [|x t] eqn:E; [reflexivity|].
    destruct (inClass ic p x) eqn:Hin; [|reflexivity].
    specialize (Hq x (or_introl eq_refl)). rewrite (Hp x Hin) in Hq.
    discriminate.
  - apply IHa, Hq.
  - rewrite (mt_ext ic a s _ (fun _ => None)); [apply mt_refused|].
    intros s1 Hs1. apply IHb. intros x Hx. apply Hq.
    eapply suffixOf_In; eassumption.
  - now rewrite IHa, IHb.
  - apply IHa, Hq.
Qed.

Lemma exec_no_match (ic : bool) (q : cu -> bool) (r : re) (s : jstr) :
  Needs ic q r -> (forall x, In x s -> q x = false) -> exec ic r s = None.
Proof.
  intros Hn. unfold exec. generalize (@None cu) as p. generalize O as i.
  induction s as [|c t IH]; intros i p Hq; cbn [searchFrom]; unfold matchAt.
  - now rewrite (needs_no_match ic q r Hn).
  - rewrite (needs_no_match ic q r Hn) by exact Hq.
    apply IH. intros x Hx. apply Hq. now right.
Qed.

(** A successful match ends in a state further along the input, accepted
    by the continuation. *)
Lemma mt_some (ic : bool) (r : re) :
  forall (s : st) (k : st -> option st) (e : st),
  mt ic r s k = Some e ->
  exists s1, suffixOf (rest s1) (rest s) /\ k s1 = Some e.
Proof.
  induction r as [| c | p | a IHa b IHb | a IHa b IHb | a IHa | a IHa
                  | n a IHa | | |]; intros s k e H; cbn [mt] in H.
  - exists s. split; [apply suffixOf_refl|exact H].
  - destruct (rest s) as [|x t] eqn:E; [discriminate|].
    destruct (_ =? _); [|discriminate].
    exists (advance x t s). split; [apply suffixOf_tail|exact H].
  - destruct (rest s) as [|x t] eqn:E; [discriminate|].
    destruct (inClass _ _ _); [|discriminate].
    exists (advance x t s). split; [apply suffixOf_tail|exact H].
  - destruct (IHa _ _ _ H) as [s1 [Hs1 H1]].
    destruct (IHb _ _ _ H1) as [s2 [Hs2 H2]].
    exists s2. split; [eapply suffixOf_trans; eassumption|exact H2].
  - unfold orElse in H. destruct (mt ic a s k) as [r0|] eqn:Ea.
    + injection H as <-. apply (IHa _ _ _ Ea).
    + apply (IHb _ _ _ H).
  - assert (Hloop : forall n s0,
               suffixOf (rest s0) (rest s) ->
               starLoop (mt ic a) k n s0 = Some e ->
               exists s1, suffixOf (rest s1) (rest s) /\ k s1 = Some e).
    { induction n as [|n IH]; intros s0 Hs0 H0; cbn [starLoop] in H0.
      - exists s0. split; assumption.
      - unfold orElse in H0.
        destruct (mt ic a s0 _) as [r0|] eqn:Ea.
        + injection H0 as <-. destruct (IHa _ _ _ Ea) as [s1 [Hs1 H1]].
          destruct (progressed s0 s1); [|discriminate].
          apply (IH s1); [eapply suffixOf_trans; eassumption|exact H1].
        + exists s0. split; assumption. }
    apply (Hloop _ s (suffixOf_refl _) H).
  - unfold orElse in H. destruct (mt ic a s _) as [r0|] eqn:Ea.
    + injection H as <-. destruct (IHa _ _ _ Ea) as [s1 [Hs1 H1]].
      destruct (progressed s s1); [|discriminate].
      exists s1. split; assumption.
    + exists s. split; [apply suffixOf_refl|exact H].
  - destruct (IHa _ _ _ H) as [s1 [Hs1 H1]].
    exists (setCap n (consumed s s1) s1). split; assumption.
  - destruct (prev s); [discriminate|].
    exists s. split; [apply suffixOf_refl|exact H].
  - destruct (rest s) eqn:E; [|discriminate].
    exists s. split; [rewrite E; apply suffixOf_refl|exact H].
  - destruct (xorb _ _); [|discriminate].
    exists s. split; [apply suffixOf_refl|exact H].
Qed.

Lemma suffixOf_length (a b : jstr) :
  suffixOf a b -> (List.length a <= List.length b)%nat.
Proof. intros [pre ->]. rewrite length_app. lia. Qed.

Lemma matchAt_suffix (ic : bool) (r : re) (p : option cu) (s : jstr) (e : st) :
  matchAt ic r p s = Some e -> suffixOf (rest e) s.
Proof.
  unfold matchAt. intros H. destruct (mt_some _ _ _ _ _ H) as [s1 [Hs1 H1]].
  injection H1 as <-. exact Hs1.
Qed.

(** What a search leaves to read is part of the input, and less than the
    input if the match is not empty. *)
Lemma searchFrom_after (ic : bool) (r : re) (s : jstr) :
  forall (p : option cu) (i : nat) (m : rmatch),
  searchFrom ic r p s i = Some m ->
  (List.length (rest (after m)) <= List.length s)%nat
  /\ (whole m <> [] -> (List.length (rest (after m)) < List.length s)%nat).
Proof.
  induction s as [|c t IH]; intros p i m H; cbn [searchFrom] in H.
  - destruct (matchAt ic r p []) as [e|] eqn:E; [|discriminate].
    injection H as <-. apply matchAt_suffix, suffixOf_length in E.
    cbn in *. split; [lia|]. replace (List.length (rest e)) with O by lia.
    intros Hw. now contradiction Hw.
  - destruct (matchAt ic r p (c :: t)) as [e|] eqn:E.
    + injection H as <-. apply matchAt_suffix, suffixOf_length in E.
      unfold mkMatch. cbn [after whole]. split; [exact E|].
      intros Hw.
      destruct (Nat.eq_dec (List.length (rest e)) (List.length (c :: t)))
        as [Heq|Hne]; [|lia].
      rewrite Heq, Nat.sub_diag in Hw. now contradiction Hw.
    + destruct (IH _ _ _ H) as [Hle Hlt]. cbn [List.length].
      split; [lia|]. intros Hw. specialize (Hlt Hw). lia.
Qed.

(** The counts of the loops over all matches are no cut-offs either. *)
Lemma matchAllFrom_enough (ic : bool) (r : re) (n : nat) :
  forall (p : option cu) (s : jstr),
  (List.length s < n)%nat ->
  matchAllFrom (S n) ic r p s = matchAllFrom n ic r p s.
Proof.
  induction n as [|n IH]; intros p s Hlen; [lia|].
  change (matchAllFrom (S (S n)) ic r p s)
    with (match searchFrom ic r p s O with
          | None => []
          | Some m =>
              whole m ::
              match whole m, rest (after m) with
              | [], [] => []
              | [], c :: t => matchAllFrom (S n) ic r (Some c) t
              | _ :: _, _ =>
                  matchAllFrom (S n) ic r (prev (after m)) (rest (after m))
              end
          end).
  change (matchAllFrom (S n) ic r p s)
    with (match searchFrom ic r p s O with
          | None => []
          | Some m =>
              whole m ::
              match whole m, rest (after m) with
              | [], [] => []
              | [], c :: t => matchAllFrom n ic r (Some c) t
              | _ :: _, _ =>
                  matchAllFrom n ic r (prev (after m)) (rest (after m))
              end
          end).
  destruct (searchFrom ic r p s O) as [m|] eqn:E; [|reflexivity].
  destruct (searchFrom_after _ _ _ _ _ _ E) as [Hle Hlt]. f_equal.
  destruct (whole m) as [|w ws].
  - destruct (rest (after m)) as [|c t]; [reflexivity|].
    apply IH. cbn [List.length] in Hle. lia.
  - apply IH. assert ((w :: ws) <> []) by discriminate. specialize (Hlt H). lia.
Qed.

Lemma replaceAllFrom_enough (ic : bool) (r : re) (by_ : jstr) (n : nat) :
  forall (p : option cu) (s : jstr),
  (List.length s < n)%nat ->
  replaceAllFrom (S n) ic r by_ p s = replaceAllFrom n ic r by_ p s.
Proof.
  induction n as [|n IH]; intros p s Hlen; [lia|].
  change (replaceAllFrom (S (S n)) ic r by_ p s)
    with (match searchFrom ic r p s O with
          | None => s
          | Some m =>
              firstn (index m) s ++ by_ ++
              match whole m, rest (after m) with
              | [], [] => []
              | [], c :: t => c :: replaceAllFrom (S n) ic r by_ (Some c) t
              | _ :: _, _ =>
                  replaceAllFrom (S n) ic r by_ (prev (after m)) (rest (after m))
              end
          end).
  change (replaceAllFrom (S n) ic r by_ p s)
    with (match searchFrom ic r p s O with
          | None => s
          | Some m =>
              firstn (index m) s ++ by_ ++
              match whole m, rest (after m) with
              | [], [] => []
              | [], c :: t => c :: replaceAllFrom n ic r by_ (Some c) t
              | _ :: _, _ =>
                  replaceAllFrom n ic r by_ (prev (after m)) (rest (after m))
              end
          end).
  destruct (searchFrom ic r p s O) as [m|] eqn:E; [|reflexivity].
  destruct (searchFrom_after _ _ _ _ _ _ E) as [Hle Hlt]. do 2 f_equal.
  destruct (whole m) as [|w ws].
  - destruct (rest (after m)) as [|c t]; [reflexivity|].
    f_equal. apply IH. cbn [List.length] in Hle. lia.
  - apply IH. assert ((w :: ws) <> []) by discriminate. specialize (Hlt H). lia.
Qed.

Lemma splitFrom_enough (ic : bool) (r : re) (n : nat) :
  forall (acc : jstr) (p : option cu) (s : jstr),
  (2 * List.length s + (if isNil acc then 0 else 1) < n)%nat ->
  splitFrom (S n) ic r acc p s = splitFrom n ic r acc p s.
Proof.
  induction n as [|n IH]; intros acc p s Hlen; [lia|].
  destruct s as [|c t]; [reflexivity|].
  change (splitFrom (S (S n)) ic r acc p (c :: t))
    with (match matchAt ic r p (c :: t) with
          | None => splitFrom (S n) ic r (c :: acc) (Some c) t
          | Some e =>
              if (List.length (rest e) <? List.length (c :: t))%nat
              then rev acc :: splitFrom (S n) ic r [] (prev e) (rest e)
              else match acc with
                   | [] => splitFrom (S n) ic r [c] (Some c) t
                   | _ :: _ => rev acc :: splitFrom (S n) ic r [] p (c :: t)
                   end
          end).
  change (splitFrom (S n) ic r acc p (c :: t))
    with (match matchAt ic r p (c :: t) with
          | None => splitFrom n ic r (c :: acc) (Some c) t
          | Some e =>
              if (List.length (rest e) <? List.length (c :: t))%nat
              then rev acc :: splitFrom n ic r [] (prev e) (rest e)
              else match acc with
                   | [] => splitFrom n ic r [c] (Some c) t
                   | _ :: _ => rev acc :: splitFrom n ic r [] p (c :: t)
                   end
          end).
  cbn [List.length] in Hlen.
  destruct (matchAt ic r p (c :: t)) as [e|] eqn:E.
  - destruct (Nat.ltb_spec (List.length (rest e)) (List.length (c :: t)))
      as [Hlt|Hge].
    + f_equal. apply IH. cbn [isNil List.length] in *. lia.
    + destruct acc as [|a acc'].
      * apply IH. cbn [isNil]. lia.
      * f_equal. apply IH. cbn [isNil List.length] in *. lia.
  - apply IH. cbn [isNil]. lia.
Qed.

(* ------------------------------------------------------------------ *)
(** ** [parseDate] *)

Lemma dropWhile_In (p : cu -> bool) (s : jstr) (x : cu) :
  In x s -> p x = true \/ In x (dropWhile p s).
Proof.
  induction s as [|c r IH]; [contradiction|]. cbn [dropWhile].
  destruct (p c) eqn:E.
  - intros [-> | H]; auto.
  - auto.
Qed.

(** [trim] only removes white space. *)
Lemma trim_In (s : jstr) (x : cu) :
  In x s -> isSpace x = true \/ In x (trim s).
Proof.
  intros H. unfold trim, trimEnd, trimStart.
  destruct (dropWhile_In isSpace s x H) as [Hs | H1]; [now left|].
  apply in_rev in H1.
  destruct (dropWhile_In isSpace _ x H1) as [Hs | H2]; [now left|].
  right. apply in_rev. now rewrite rev_involutive.
Qed.

Lemma isoDate_needs_hyphen : Needs false (Z.eqb Pat.HYPHEN) Pat.isoDate.
Proof.
  apply Needs_cat_r, Needs_cat_l, Needs_chr.
  intros x Hx. cbn in Hx. subst x. reflexivity.
Qed.

Lemma inClass_alpha (x : cu) : inClass true isAlpha x = true -> isAlpha x = true.
Proof.
  unfold inClass, isAlpha, lowerCU, upperCU, isUpper, isLower, between.
  destruct (Z.leb_spec 65 x), (Z.leb_spec x 90), (Z.leb_spec 97 x),
    (Z.leb_spec x 122); cbn; try reflexivity; try lia;
    repeat match goal with
           | |- context [?a <=? ?b] => destruct (Z.leb_spec a b); cbn; try lia
           end; auto.
Qed.

Lemma textDate_needs_letter : Needs true isAlpha Pat.textDate.
Proof.
  apply Needs_cat_l, Needs_grp, Needs_cat_l, Needs_cls. exact inClass_alpha.
Qed.

Lemma space_or_digit (x : cu) :
  isSpace x = true \/ isDigit x = true ->
  (Pat.HYPHEN =? x) = false /\ isAlpha x = false.
Proof.
  unfold isSpace, isDigit, isAlpha, isUpper, isLower, between, Pat.HYPHEN.
  intros H.
  repeat (rewrite orb_true_iff in H || rewrite andb_true_iff in H
          || rewrite Z.eqb_eq in H || rewrite Z.leb_le in H).
  split.
  - apply Z.eqb_neq. lia.
  - apply orb_false_iff. split; apply andb_false_iff;
      rewrite !Z.leb_gt; lia.
Qed.

(** *** Rounding *)

Import Num.

Lemma nearestEven_floor (n d : Z) : 0 < d -> n / d <= nearestEven n d.
Proof.
  intros Hd. unfold nearestEven.
  destruct (2 * (n mod d) <? d); [lia|].
  destruct (d <? 2 * (n mod d)); [lia|].
  destruct (Z.even (n / d)); lia.
Qed.

Lemma nearestEven_lower (n d k : Z) :
  0 < d -> k * d <= n -> k <= nearestEven n d.
Proof.
  intros Hd Hk. pose proof (nearestEven_floor n d Hd).
  assert (k <= n / d) by (apply Z.div_le_lower_bound; lia). lia.
Qed.

Lemma nearestEven_exact (k d : Z) : 0 < d -> nearestEven (k * d) d = k.
Proof.
  intros Hd. unfold nearestEven.
  rewrite Z.div_mul, Z.mod_mul by lia.
  destruct (Z.ltb_spec (2 * 0) d); [reflexivity|lia].
Qed.

Lemma ilog2_int (k d : Z) : 0 < d -> 0 < k -> ilog2 (k * d) d = Z.log2 k.
Proof.
  intros Hd Hk. unfold ilog2.
  destruct (Z.leb_spec d (k * d)); [|nia].
  now rewrite Z.div_mul by lia.
Qed.

Lemma roundPos_int (k d : Z) :
  0 < d -> 0 < k < 2 ^ 53 -> isInt k (roundPos (k * d) d).
Proof.
  intros Hd Hk. unfold roundPos. rewrite ilog2_int by lia.
  assert (He : 0 <= Z.log2 k < 53).
  { split; [apply Z.log2_nonneg|]. apply Z.log2_lt_pow2; lia. }
  set (e := Z.log2 k) in *.
  replace (Z.max (e - 52) (- 1074)) with (e - 52) by lia.
  destruct (Z.leb_spec 0 (e - 52)) as [Hs | Hs].
  - assert (e = 52) by lia. subst e. replace (Z.log2 k - 52) with 0 by lia.
    change (2 ^ 0) with 1. rewrite !Z.mul_1_r.
    rewrite nearestEven_exact by lia.
    destruct (Z.leb_spec (2 ^ 1024) k) as [Hbig | _].
    + assert (2 ^ 53 < 2 ^ 1024) by (apply Z.pow_lt_mono_r; lia). lia.
    + exists 1. split; [lia|]. now rewrite Z.mul_1_r.
  - exists (2 ^ (- (e - 52))).
    assert (0 < 2 ^ (- (e - 52))) by (apply Z.pow_pos_nonneg; lia).
    split; [assumption|].
    replace (k * d * 2 ^ (- (e - 52))) with (k * 2 ^ (- (e - 52)) * d) by lia.
    now rewrite nearestEven_exact by lia.
Qed.

Lemma round_int (k d : Z) :
  0 < d -> - 2 ^ 53 < k < 2 ^ 53 -> isInt k (round (k * d) d).
Proof.
  intros Hd Hk. unfold round.
  destruct (Z.eqb_spec (k * d) 0) as [H0 | H0].
  - assert (k = 0) by nia. subst k. exists 1. split; [lia|reflexivity].
  - destruct (Z.ltb_spec 0 (k * d)) as [Hpos | Hneg].
    + apply roundPos_int; [lia|nia].
    + replace (- (k * d)) with (- k * d) by lia.
      destruct (roundPos_int (- k) d) as [d' [Hd' ->]]; [lia|nia|].
      exists d'. split; [assumption|]. cbn [negate]. f_equal. lia.
Qed.

Lemma roundPos_lower (L n d : Z) :
  1 <= L < 2 ^ 53 -> 0 < d -> L * d <= n -> atLeast L (roundPos n d).
Proof.
  intros HL Hd Hn. unfold roundPos, ilog2.
  destruct (Z.leb_spec d n); [|nia].
  assert (Hq : L <= n / d) by (apply Z.div_le_lower_bound; lia).
  pose proof (Z.log2_nonneg (n / d)) as He0.
  destruct (Z.log2_spec (n / d)) as [Hlo _]; [lia|].
  set (e := Z.log2 (n / d)) in *.
  replace (Z.max (e - 52) (- 1074)) with (e - 52) by lia.
  destruct (Z.leb_spec 0 (e - 52)) as [Hs | Hs].
  - set (s := e - 52) in *.
    assert (Hpow : 0 < 2 ^ s) by (apply Z.pow_pos_nonneg; lia).
    set (m := nearestEven n (d * 2 ^ s)).
    destruct (2 ^ 1024 <=? m * 2 ^ s); [now left|]. right.
    exists (m * 2 ^ s), 1. split; [lia|]. split; [reflexivity|].
    destruct (Z.eq_dec s 0) as [Hs0 | Hs0].
    + assert (L <= m); [|rewrite Hs0; change (2 ^ 0) with 1; lia].
      apply nearestEven_lower; [nia|]. rewrite Hs0. change (2 ^ 0) with 1. lia.
    + assert (He : 2 ^ e = 2 ^ 52 * 2 ^ s).
      { unfold s. rewrite <- Z.pow_add_r by lia. f_equal. lia. }
      assert (Hm : 2 ^ 52 <= m).
      { apply nearestEven_lower; [nia|].
        pose proof (Z.mul_div_le n d Hd). nia. }
      assert (2 ^ 53 <= 2 ^ e) by (apply Z.pow_le_mono_r; lia).
      nia.
  - set (j := - (e - 52)) in *.
    assert (Hpow : 0 < 2 ^ j) by (apply Z.pow_pos_nonneg; lia).
    right. exists (nearestEven (n * 2 ^ j) d), (2 ^ j).
    split; [assumption|]. split; [reflexivity|].
    apply nearestEven_lower; [lia|nia].
Qed.

Lemma round_lower (L n d : Z) :
  1 <= L < 2 ^ 53 -> 0 < d -> L * d <= n -> atLeast L (round n d).
Proof.
  intros HL Hd Hn. unfold round.
  destruct (Z.eqb_spec n 0); [nia|].
  destruct (Z.ltb_spec 0 n); [|nia].
  now apply roundPos_lower.
Qed.

Lemma round_not_NaN (n d : Z) : isNaN (round n d) = false.
Proof.
  unfold round, roundPos.
  destruct (n =? 0); [reflexivity|].
  destruct (0 <? n).
  - destruct (0 <=? _); [destruct (_ <=? _)|]; reflexivity.
  - destruct (0 <=? _); [destruct (_ <=? _)|]; reflexivity.
Qed.

Lemma sub_int (k c : Z) (x : number) :
  isInt k x -> - 2 ^ 53 < k - c < 2 ^ 53 -> isInt (k - c) (sub x c).
Proof.
  intros [d [Hd ->]] Hk. cbn [sub].
  replace (k * d - c * d) with ((k - c) * d) by lia.
  now apply round_int.
Qed.

Lemma mul_int (k c : Z) (x : number) :
  isInt k x -> - 2 ^ 53 < k * c < 2 ^ 53 -> isInt (k * c) (mul x c).
Proof.
  intros [d [Hd ->]] Hk. cbn [mul].
  replace (k * d * c) with (k * c * d) by lia.
  now apply round_int.
Qed.

Lemma sub_atLeast (L c : Z) (x : number) :
  atLeast L x -> 1 <= L - c < 2 ^ 53 -> atLeast (L - c) (sub x c).
Proof.
  intros [-> | [n [d [Hd [-> Hn]]]]] HL; [now left|]. cbn [sub].
  apply round_lower; [assumption|assumption|lia].
Qed.

Lemma mul_atLeast (L c : Z) (x : number) :
  atLeast L x -> 0 < c -> 1 <= L * c < 2 ^ 53 -> atLeast (L * c) (mul x c).
Proof.
  intros [-> | [n [d [Hd [-> Hn]]]]] Hc HL; [now left|]. cbn [mul].
  apply round_lower; [assumption|assumption|nia].
Qed.

Lemma gt_int (k c : Z) (x : number) : isInt k x -> gt x c = (c <? k).
Proof.
  intros [d [Hd ->]]. cbn [gt].
  destruct (Z.ltb_spec (c * d) (k * d)), (Z.ltb_spec c k);
    try reflexivity; nia.
Qed.

Lemma gt_atLeast (L c : Z) (x : number) : atLeast L x -> c < L -> gt x c = true.
Proof.
  intros [-> | [n [d [Hd [-> Hn]]]]] Hc; [reflexivity|]. cbn [gt].
  apply Z.ltb_lt. nia.
Qed.

Lemma dayOfTime_int (k : Z) (x : number) :
  isInt k x -> Z.abs k <= 8640000000000000 ->
  dayOfTime x = Some (k / 86400000).
Proof.
  intros [d [Hd ->]] Hk. cbn [dayOfTime].
  destruct (Z.leb_spec (Z.abs (k * d)) (8640000000000000 * d)) as [_ | H].
  - now rewrite Z.quot_mul by lia.
  - rewrite Z.abs_mul, (Z.abs_eq d) in H by lia. nia.
Qed.

Lemma dayOfTime_atLeast (L : Z) (x : number) :
  atLeast L x -> 8640000000000000 < L -> dayOfTime x = None.
Proof.
  intros [-> | [n [d [Hd [-> Hn]]]]] HL; [reflexivity|]. cbn [dayOfTime].
  destruct (Z.leb_spec (Z.abs n) (8640000000000000 * d)) as [H | _];
    [|reflexivity].
  rewrite Z.abs_eq in H by nia. nia.
Qed.

(** *** The serial branch *)

(** One day is 86400 seconds of 1000 ms: an integer serial [v] is day
    [v - 25569] of the epoch, as long as that day is one a [Date] can
    hold; every step of the arithmetic is then exact. *)
Lemma serialDate_int (v : Z) (x : number) :
  isInt v x -> 20000 < v <= 100025569 ->
  serialDate x = Calendar (Cal.civilFromDays (v - 25569)).
Proof.
  intros Hx Hv. unfold serialDate.
  assert (H53 : 2 ^ 53 = 9007199254740992) by reflexivity.
  assert (H1 : isInt (v - 25569) (sub x 25569)) by (apply sub_int; [assumption|lia]).
  assert (H2 : isInt ((v - 25569) * 86400) (mul (sub x 25569) 86400))
    by (apply mul_int; [assumption|lia]).
  assert (H3 : isInt ((v - 25569) * 86400 * 1000)
                     (mul (mul (sub x 25569) 86400) 1000))
    by (apply mul_int; [assumption|lia]).
  rewrite (dayOfTime_int _ _ H3) by lia.
  replace ((v - 25569) * 86400 * 1000) with ((v - 25569) * 86400000) by lia.
  now rewrite Z.div_mul by lia.
Qed.

(** A serial beyond 100025569 is beyond the days a [Date] can hold: the
    date is invalid and its fields are NaN. *)
Lemma serialDate_beyond (x : number) :
  atLeast 100025570 x -> serialDate x = NaNDate.
Proof.
  intros Hx. unfold serialDate.
  assert (H53 : 2 ^ 53 = 9007199254740992) by reflexivity.
  assert (H1 : atLeast (100025570 - 25569) (sub x 25569))
    by (apply sub_atLeast; [assumption|lia]).
  assert (H2 : atLeast ((100025570 - 25569) * 86400) (mul (sub x 25569) 86400))
    by (apply mul_atLeast; [assumption|lia|lia]).
  assert (H3 : atLeast ((100025570 - 25569) * 86400 * 1000)
                       (mul (mul (sub x 25569) 86400) 1000))
    by (apply mul_atLeast; [assumption|lia|lia]).
  now rewrite (dayOfTime_atLeast _ _ H3) by lia.
Qed.

(** *** Texts of digits *)

Lemma parseInt_acc_nonneg (ds : jstr) (acc : Z) :
  forallb isDigit ds = true -> 0 <= acc ->
  0 <= fold_left (fun a c => 10 * a + (c - 48)) ds acc.
Proof.
  revert acc. induction ds as [|c r IH]; intros acc Hds Hacc; [exact Hacc|].
  cbn [forallb] in Hds. apply andb_true_iff in Hds. destruct Hds as [Hc Hr].
  cbn [fold_left]. apply IH; [exact Hr|].
  unfold isDigit, between in Hc. apply andb_true_iff in Hc.
  destruct Hc as [Hlo _]. apply Z.leb_le in Hlo. lia.
Qed.

Lemma parseInt_nonneg (ds : jstr) :
  forallb isDigit ds = true -> 0 <= parseInt ds.
Proof. intros H. apply parseInt_acc_nonneg; [exact H|lia]. Qed.

Lemma digit_not_space (c : cu) : isDigit c = true -> isSpace c = false.
Proof.
  unfold isDigit, isSpace, between. intros H.
  apply andb_true_iff in H. destruct H as [H1 H2].
  apply Z.leb_le in H1. apply Z.leb_le in H2.
  repeat (apply orb_false_iff; split);
    try (apply andb_false_iff; rewrite !Z.leb_gt; lia);
    apply Z.eqb_neq; lia.
Qed.

Lemma dropWhile_all (p : cu -> bool) (l r : jstr) :
  forallb p l = true -> dropWhile p (l ++ r) = dropWhile p r.
Proof.
  induction l as [|c l IH]; [reflexivity|]. cbn [forallb app dropWhile].
  intros H. apply andb_true_iff in H. destruct H as [-> H]. now apply IH.
Qed.

Lemma dropWhile_stop (p : cu -> bool) (c : cu) (r : jstr) :
  p c = false -> dropWhile p (c :: r) = c :: r.
Proof. intros H. cbn [dropWhile]. now rewrite H. Qed.

Lemma forallb_rev (p : cu -> bool) (l : jstr) :
  forallb p (rev l) = forallb p l.
Proof.
  induction l as [|c l IH]; [reflexivity|]. cbn [rev forallb].
  rewrite forallb_app, IH. cbn [forallb]. rewrite andb_true_r. apply andb_comm.
Qed.

(** White space around a text of digits is what [trimStart] and [trim]
    remove. *)
Lemma trimStart_digits (ws1 ds ws2 : jstr) :
  forallb isSpace ws1 = true -> forallb isDigit ds = true -> ds <> [] ->
  trimStart (ws1 ++ ds ++ ws2) = ds ++ ws2.
Proof.
  intros H1 Hd Hne. unfold trimStart. rewrite dropWhile_all by exact H1.
  destruct ds as [|c r]; [congruence|]. cbn [app].
  apply dropWhile_stop, digit_not_space.
  cbn [forallb] in Hd. now apply andb_true_iff in Hd.
Qed.

Lemma trim_digits (ws1 ds ws2 : jstr) :
  forallb isSpace ws1 = true -> forallb isSpace ws2 = true ->
  forallb isDigit ds = true -> ds <> [] ->
  trim (ws1 ++ ds ++ ws2) = ds.
Proof.
  intros H1 H2 Hd Hne. unfold trim. rewrite trimStart_digits by assumption.
  unfold trimEnd. rewrite rev_app_distr.
  rewrite dropWhile_all by (now rewrite forallb_rev).
  assert (Hrd : forallb isDigit (rev ds) = true) by (now rewrite forallb_rev).
  destruct (rev ds) as [|c r] eqn:E.
  - apply (f_equal (@rev cu)) in E. rewrite rev_involutive in E. now subst ds.
  - rewrite dropWhile_stop.
    + rewrite <- E. apply rev_involutive.
    + apply digit_not_space. cbn [forallb] in Hrd.
      now apply andb_true_iff in Hrd.
Qed.

Lemma spanDigits_app (ds rest : jstr) :
  forallb isDigit ds = true ->
  match rest with c :: _ => isDigit c = false | [] => True end ->
  spanDigits (ds ++ rest) = (ds, rest).
Proof.
  intros Hd Hrest. induction ds as [|c r IH].
  - cbn [app]. destruct rest as [|x t]; [reflexivity|].
    cbn [spanDigits]. now rewrite Hrest.
  - cbn [forallb] in Hd. apply andb_true_iff in Hd. destruct Hd as [Hc Hr].
    cbn [app spanDigits]. rewrite Hc, (IH Hr). reflexivity.
Qed.

Lemma space_no_literal (c : cu) :
  isSpace c = true ->
  isDigit c = false /\ (c =? 46) = false /\ ((c =? 101) || (c =? 69)) = false.
Proof.
  intros Hs. split.
  - destruct (isDigit c) eqn:E; [|reflexivity].
    rewrite (digit_not_space c E) in Hs. discriminate.
  - unfold isSpace, between in Hs.
    repeat (rewrite orb_true_iff in Hs || rewrite andb_true_iff in Hs
            || rewrite Z.eqb_eq in Hs || rewrite Z.leb_le in Hs).
    split; [apply Z.eqb_neq; lia|].
    apply orb_false_iff. split; apply Z.eqb_neq; lia.
Qed.

(** The literal at the head of a text of digits followed by white space
    is the digits. *)
Lemma decimalLiteral_digits (ds ws2 : jstr) :
  forallb isDigit ds = true -> ds <> [] -> forallb isSpace ws2 = true ->
  decimalLiteral (ds ++ ws2) = Some (false, LitDecimal (parseInt ds) 0, ws2).
Proof.
  intros Hd Hne Hw.
  assert (Hrest : match ws2 with c :: _ => isDigit c = false | [] => True end).
  { destruct ws2 as [|c t]; [exact I|]. cbn [forallb] in Hw.
    apply andb_true_iff in Hw. now apply space_no_literal. }
  pose proof (spanDigits_app ds ws2 Hd Hrest) as Hspan.
  destruct ds as [|c r]; [congruence|].
  assert (Hrange : 48 <= c <= 57).
  { cbn [forallb] in Hd. apply andb_true_iff in Hd. destruct Hd as [Hc _].
    unfold isDigit, between in Hc. apply andb_true_iff in Hc.
    rewrite !Z.leb_le in Hc. lia. }
  unfold decimalLiteral. cbn [app] in *.
  replace (c =? 43) with false by (symmetry; apply Z.eqb_neq; lia).
  replace (c =? 45) with false by (symmetry; apply Z.eqb_neq; lia).
  unfold unsignedLiteral.
  change (lit "Infinity") with (73 :: lit "nfinity").
  cbn [startsWith].
  replace (c =? 73) with false by (symmetry; apply Z.eqb_neq; lia).
  cbn [andb]. rewrite Hspan.
  destruct ws2 as [|x t]; [reflexivity|].
  cbn [forallb] in Hw. apply andb_true_iff in Hw. destruct Hw as [Hx _].
  destruct (space_no_literal x Hx) as [_ [Hdot He]].
  rewrite Hdot. unfold exponentPart. rewrite He. reflexivity.
Qed.

Lemma radixLiteral_digits (ds : jstr) :
  forallb isDigit ds = true -> radixLiteral ds = None.
Proof.
  intros Hd. unfold radixLiteral.
  destruct ds as [|a t]; [reflexivity|].
  destruct (Z.eq_dec a 48) as [-> | Hna].
  - destruct t as [|x [|d r]]; try reflexivity.
    cbn [forallb] in Hd.
    apply andb_true_iff in Hd. destruct Hd as [_ Hd].
    apply andb_true_iff in Hd. destruct Hd as [Hx _].
    unfold isDigit, between in Hx. apply andb_true_iff in Hx.
    rewrite !Z.leb_le in Hx.
    replace ((x =? 120) || (x =? 88)) with false
      by (symmetry; apply orb_false_iff; split; apply Z.eqb_neq; lia).
    replace ((x =? 111) || (x =? 79)) with false
      by (symmetry; apply orb_false_iff; split; apply Z.eqb_neq; lia).
    replace ((x =? 98) || (x =? 66)) with false
      by (symmetry; apply orb_false_iff; split; apply Z.eqb_neq; lia).
    reflexivity.
  - destruct a as [|p|p]; try reflexivity.
    repeat (destruct p; try reflexivity). now contradiction Hna.
Qed.

(** [parseFloat] and [Number] of a text of digits with white space around
    it: the double nearest to the number the digits write. *)
Lemma parseFloat_digits (ws1 ds ws2 : jstr) :
  forallb isSpace ws1 = true -> forallb isSpace ws2 = true ->
  forallb isDigit ds = true -> ds <> [] ->
  parseFloat (ws1 ++ ds ++ ws2) = round (parseInt ds * 1) 1.
Proof.
  intros H1 H2 Hd Hne. unfold parseFloat.
  rewrite trimStart_digits, decimalLiteral_digits by assumption.
  reflexivity.
Qed.

Lemma toNumber_digits (ws1 ds ws2 : jstr) :
  forallb isSpace ws1 = true -> forallb isSpace ws2 = true ->
  forallb isDigit ds = true -> ds <> [] ->
  toNumber (ws1 ++ ds ++ ws2) = round (parseInt ds * 1) 1.
Proof.
  intros H1 H2 Hd Hne. unfold toNumber. rewrite trim_digits by assumption.
  destruct ds as [|c r] eqn:E; [congruence|]. rewrite <- E in *.
  rewrite radixLiteral_digits by assumption.
  pose proof (decimalLiteral_digits ds [] Hd Hne eq_refl) as Hlit.
  rewrite app_nil_r in Hlit. rewrite Hlit. reflexivity.
Qed.

(** A text of digits, white space around it allowed, is no date up to
    20000, the day [v - 25569] of the epoch up to 100025569, and a date
    of NaN fields beyond. *)
Lemma parseDate_digits (currentYear : Z) (ws1 ds ws2 : jstr) :
  forallb isSpace ws1 = true -> forallb isSpace ws2 = true ->
  forallb isDigit ds = true -> ds <> [] ->
  parseDate currentYear (ws1 ++ ds ++ ws2) =
    if parseInt ds <=? 20000 then None
    else if parseInt ds <=? 100025569
         then Some (Calendar (Cal.civilFromDays (parseInt ds - 25569)))
         else Some NaNDate.
Proof.
  intros H1 H2 Hd Hne.
  assert (H53 : 2 ^ 53 = 9007199254740992) by reflexivity.
  pose proof (parseInt_nonneg ds Hd) as Hv.
  set (s := ws1 ++ ds ++ ws2).
  assert (Hchars : forall x, In x s -> isSpace x = true \/ isDigit x = true).
  { intros x Hx. unfold s in Hx. rewrite forallb_forall in H1, H2, Hd.
    apply in_app_or in Hx. destruct Hx as [Hx | Hx]; [left; auto|].
    apply in_app_or in Hx. destruct Hx as [Hx | Hx]; [right | left]; auto. }
  assert (Ht : truthy s = true).
  { unfold s. destruct ws1; [|reflexivity]. destruct ds; [congruence|reflexivity]. }
  unfold parseDate. rewrite Ht. cbn [negb].
  rewrite (exec_no_match false (Z.eqb Pat.HYPHEN) Pat.isoDate s
             isoDate_needs_hyphen)
    by (intros x Hx; apply space_or_digit, Hchars, Hx).
  unfold s at 1 2 3.
  rewrite toNumber_digits, parseFloat_digits by assumption.
  rewrite round_not_NaN. cbn [negb andb].
  destruct (Z.leb_spec (parseInt ds) 20000) as [Hsmall | Hbig].
  - assert (Hx : isInt (parseInt ds) (round (parseInt ds * 1) 1))
      by (apply round_int; lia).
    rewrite (gt_int _ 20000 _ Hx).
    replace (20000 <? parseInt ds) with false by (symmetry; apply Z.ltb_ge; lia).
    rewrite (exec_no_match true isAlpha Pat.textDate s textDate_needs_letter)
      by (intros x Hx'; apply space_or_digit, Hchars, Hx').
    reflexivity.
  - destruct (Z.leb_spec (parseInt ds) 100025569) as [Hin | Hout].
    + assert (Hx : isInt (parseInt ds) (round (parseInt ds * 1) 1))
        by (apply round_int; lia).
      rewrite (gt_int _ 20000 _ Hx).
      replace (20000 <? parseInt ds) with true by (symmetry; apply Z.ltb_lt; lia).
      now rewrite (serialDate_int (parseInt ds)) by (assumption || lia).
    + assert (Hx : atLeast 100025570 (round (parseInt ds * 1) 1))
        by (apply round_lower; lia).
      rewrite (gt_atLeast 100025570 20000 _ Hx) by lia.
      now rewrite serialDate_beyond.
Qed.

(** C6: [parseDate] takes the ISO form first, wherever it stands in the
    text.  Failing that, it takes the text as a day serial exactly when
    [Number] of it is not NaN and [parseFloat] of it exceeds 20000, and
    decodes that Number; a text of digits, the bare numeric string of the
    specification, is then no date up to 20000, day [v - 25569] from
    1970-01-01 for a value [v] up to 100025569 (the last day a [Date] can
    hold), and a date of NaN fields beyond.  Failing both, it takes the
    textual form looked up in the twelve-entry month table, and is [null]
    when none applies.  The three inputs of the specification parse as
    stated, and serial 25569 is 1970-01-01. *)
Theorem C6_parseDate_order :
  forall (currentYear : Z) (s : jstr),
  (forall m, truthy s = true -> exec false Pat.isoDate s = Some m ->
     parseDate currentYear s =
       Some (Calendar {| year := parseInt (group' m 1);
                         month := parseInt (group' m 2);
                         day := parseInt (group' m 3) |})) /\
  (truthy s = true -> exec false Pat.isoDate s = None ->
   negb (isNaN (toNumber s)) && gt (parseFloat s) 20000 = true ->
     parseDate currentYear s = Some (serialDate (parseFloat s))) /\
  (forall ws1 ds ws2,
     s = ws1 ++ ds ++ ws2 ->
     forallb isSpace ws1 = true -> forallb isSpace ws2 = true ->
     forallb isDigit ds = true -> ds <> [] ->
     parseDate currentYear s =
       if parseInt ds <=? 20000 then None
       else if parseInt ds <=? 100025569
            then Some (Calendar (Cal.civilFromDays (parseInt ds - 25569)))
            else Some NaNDate) /\
  (exec false Pat.isoDate s = None ->
   negb (isNaN (toNumber s)) && gt (parseFloat s) 20000 = false ->
     parseDate currentYear s =
       match exec true Pat.textDate s with
       | Some m =>
           match lookupMonth (toLowerCase (group' m 1)) monthNames with
           | Some mo =>
               Some (Calendar {| year := match group m 3 with
                                         | Some t => parseInt t
                                         | None => currentYear
                                         end;
                                 month := mo;
                                 day := parseInt (group' m 2) |})
           | None => None
           end
       | None => None
       end) /\
  List.length monthNames = 12%nat /\
  parseDate currentYear (lit "2024-09-03") = date 2024 9 3 /\
  parseDate currentYear (lit "Sep 3, 2024") = date 2024 9 3 /\
  parseDate currentYear (lit "45538") = date 2024 9 3 /\
  parseDate currentYear (lit "25569") = date 1970 1 1 /\
  parseDate currentYear (lit "20000") = None /\
  parseDate currentYear (lit "Tuesday") = None /\
  parseDate currentYear (lit "45538.5") = date 2024 9 3 /\
  parseDate currentYear (lit "200000000") = Some NaNDate.
Proof.
  intros currentYear s.
  split.
  { intros m Ht Hm. unfold parseDate. rewrite Ht, Hm. reflexivity. }
  split.
  { intros Ht Hiso Hser. unfold parseDate. rewrite Ht, Hiso, Hser. reflexivity. }
  split.
  { intros ws1 ds ws2 ->. apply parseDate_digits. }
  split.
  { intros Hiso Hser. unfold parseDate. rewrite Hiso, Hser.
    destruct s; reflexivity. }
  repeat split; vm_compute; reflexivity.
Qed.

(** C6 at a day serial, at an ISO date and at a textual date without a
    year. *)
Lemma C6_parseDate_order_witness :
  parseDate 2024 (lit "45538") = Some (Calendar (Cal.civilFromDays 19969)) /\
  parseDate 2024 (lit "2024-09-03") = date 2024 9 3 /\
  parseDate 2024 (lit "Sep 3") = date 2024 9 3 /\
  parseDate 2024 (lit "1e5") = Some (serialDate (parseFloat (lit "1e5"))).
Proof.
  destruct (C6_parseDate_order 2024 (lit "45538")) as [_ [_ [Hdigits _]]].
  destruct (C6_parseDate_order 2024 (lit "2024-09-03")) as [Hiso _].
  destruct (C6_parseDate_order 2024 (lit "Sep 3")) as [_ [_ [_ [Htext _]]]].
  destruct (C6_parseDate_order 2024 (lit "1e5")) as [_ [Hserial _]].
  split.
  { rewrite (Hdigits [] (lit "45538") []); try reflexivity.
    intros H; discriminate H. }
  split.
  { destruct (exec false Pat.isoDate (lit "2024-09-03")) as [m|] eqn:E;
      [|vm_compute in E; discriminate E].
    rewrite (Hiso m eq_refl eq_refl).
    vm_compute in E. injection E as <-. vm_compute. reflexivity. }
  split.
  { rewrite Htext by (vm_compute; reflexivity). vm_compute. reflexivity. }
  apply Hserial; vm_compute; reflexivity.
Defined.

(* ================================================================== *)
(** * Further properties *)

Import App Extra.

(* ------------------------------------------------------------------ *)
(** ** [escapeText] *)

Lemma flat_map_twice {A B C} (f : A -> list B) (g : B -> list C) (l : list A) :
  flat_map g (flat_map f l) = flat_map (fun x => flat_map g (f x)) l.
Proof.
  induction l as [|x l IH]; [reflexivity|].
  cbn [flat_map]. now rewrite flat_map_app, IH.
Qed.

(** The four replacements of [escapeText] amount to one pass. *)
Lemma escapeText_one_pass (text : jstr) :
  escapeText text = flat_map escapeChar text.
Proof.
  unfold escapeText, replaceCU. rewrite !flat_map_twice.
  apply flat_map_ext. intros c. unfold escapeChar.
  change (Pat.chr "\") with 92. change (Pat.chr ";") with 59.
  change (Pat.chr ",") with 44. change (Pat.chr "n") with 110.
  change Pat.LF with 10.
  destruct (Z.eqb_spec c 92) as [->|H92]; [reflexivity|].
  destruct (Z.eqb_spec c 59) as [->|H59]; [reflexivity|].
  destruct (Z.eqb_spec c 44) as [->|H44]; [reflexivity|].
  destruct (Z.eqb_spec c 10) as [->|H10]; [reflexivity|].
  rewrite (proj2 (Z.eqb_neq 92 c)) by lia. cbn [flat_map app].
  rewrite (proj2 (Z.eqb_neq 59 c)) by lia. cbn [flat_map app].
  rewrite (proj2 (Z.eqb_neq 44 c)) by lia. cbn [flat_map app].
  rewrite (proj2 (Z.eqb_neq 10 c)) by lia. reflexivity.
Qed.

Lemma escapeChars_read_back (text : jstr) :
  unescapeText (flat_map escapeChar text) = text.
Proof.
  induction text as [|c r IH]; [reflexivity|].
  cbn [flat_map]. unfold escapeChar at 1.
  destruct (Z.eqb_spec c 92) as [->|H92]; [cbn; now rewrite IH|].
  destruct (Z.eqb_spec c 59) as [->|H59]; [cbn; now rewrite IH|].
  destruct (Z.eqb_spec c 44) as [->|H44]; [cbn; now rewrite IH|].
  destruct (Z.eqb_spec c 10) as [->|H10]; [cbn; now rewrite IH|].
  cbn [app unescapeText]. rewrite (proj2 (Z.eqb_neq c 92)) by lia.
  now rewrite IH.
Qed.

(** X1: [escapeText] loses nothing and leaves no line feed: reading the
    escaped text back (backslash-n as a line feed, backslash-x as x) gives
    the text, and no code unit of the escaped text is a line feed. *)
Theorem X1_escapeText_round_trip :
  forall (text : jstr),
  unescapeText (escapeText text) = text /\
  Forall (fun c => c <> 10) (escapeText text).
Proof.
  intros text. rewrite escapeText_one_pass. split.
  - apply escapeChars_read_back.
  - induction text as [|c r IH]; [constructor|].
    cbn [flat_map]. apply Forall_app. split; [|exact IH].
    unfold escapeChar.
    destruct (Z.eqb_spec c 92); [repeat constructor; lia|].
    destruct (Z.eqb_spec c 59); [repeat constructor; lia|].
    destruct (Z.eqb_spec c 44); [repeat constructor; lia|].
    destruct (Z.eqb_spec c 10); repeat constructor; lia.
Qed.

Lemma flat_map_join (f : cu -> jstr) (sep : jstr) (parts : list jstr) :
  flat_map f (join sep parts) = join (flat_map f sep) (map (flat_map f) parts).
Proof.
  induction parts as [|p ps IH]; [reflexivity|].
  destruct ps as [|q qs]; [reflexivity|].
  change (join sep (p :: q :: qs)) with (p ++ sep ++ join sep (q :: qs)).
  rewrite !flat_map_app, IH. reflexivity.
Qed.

(** X2: escaping a joined text is joining the escaped parts with the
    escaped separator.  The parts of a DESCRIPTION are joined by a
    backslash and [n] before the whole is escaped, so in the output they
    are separated by backslash, backslash, [n]. *)
Theorem X2_escapeText_join :
  forall (sep : jstr) (parts : list jstr),
  escapeText (join sep parts) = join (escapeText sep) (map escapeText parts)
  /\ escapeText [92; 110] = [92; 92; 110].
Proof.
  intros sep parts. split; [|reflexivity].
  rewrite !escapeText_one_pass, flat_map_join. f_equal.
  apply map_ext. intros p. now rewrite escapeText_one_pass.
Qed.

(* ------------------------------------------------------------------ *)
(** ** [foldLine] *)

Lemma foldLoop_head (fuel : nat) (c : cu) (r : jstr) :
  exists q qs, foldLoop fuel (c :: r) = (c :: q) :: qs.
Proof.
  destruct fuel as [|f]; cbn [foldLoop]; [eauto|].
  destruct (75 <? List.length (c :: r))%nat; [|eauto].
  cbn [firstn]. eauto.
Qed.

(** The pieces of a line that the count covers: none is longer than 75,
    every piece after the first begins with a space, and unfolding gives
    the line. *)
Lemma foldLoop_pieces (fuel : nat) :
  forall (remaining : jstr),
  (List.length remaining <= 75 + 74 * fuel)%nat ->
  Forall (fun p => (List.length p <= 75)%nat) (foldLoop fuel remaining)
  /\ Forall (fun p => hd_error p = Some 32) (tl (foldLoop fuel remaining))
  /\ unfoldPieces (foldLoop fuel remaining) = remaining.
Proof.
  induction fuel as [|f IH]; intros remaining Hlen; cbn [foldLoop].
  - split; [constructor; [lia|constructor]|]. split; [constructor|].
    cbn. now rewrite app_nil_r.
  - destruct (Nat.ltb_spec 75 (List.length remaining)) as [Hlong|Hshort].
    + assert (Hrest : (List.length (Pat.chr " " :: skipn 75 remaining)
                       <= 75 + 74 * f)%nat)
        by (cbn [List.length]; rewrite length_skipn; lia).
      destruct (IH _ Hrest) as [Hall [Hsp Hun]].
      destruct (foldLoop_head f (Pat.chr " ") (skipn 75 remaining))
        as [q [qs Hq]].
      rewrite Hq in *. cbn [tl unfoldPieces flat_map] in *.
      split; [constructor; [rewrite length_firstn; lia|exact Hall]|].
      split; [constructor; [reflexivity|exact Hsp]|].
      injection Hun as Hun. rewrite Hun. apply firstn_skipn.
    + split; [constructor; [lia|constructor]|]. split; [constructor|].
      cbn. now rewrite app_nil_r.
Qed.

(** A larger count changes nothing. *)
Lemma foldLoop_enough (fuel : nat) :
  forall (remaining : jstr),
  (List.length remaining <= 75 + 74 * fuel)%nat ->
  foldLoop (S fuel) remaining = foldLoop fuel remaining.
Proof.
  induction fuel as [|f IH]; intros remaining Hlen.
  - cbn [foldLoop].
    destruct (Nat.ltb_spec 75 (List.length remaining)); [lia|reflexivity].
  - change (foldLoop (S (S f)) remaining)
      with (if (75 <? List.length remaining)%nat
            then firstn 75 remaining
                 :: foldLoop (S f) (Pat.chr " " :: skipn 75 remaining)
            else [remaining]).
    change (foldLoop (S f) remaining)
      with (if (75 <? List.length remaining)%nat
            then firstn 75 remaining
                 :: foldLoop f (Pat.chr " " :: skipn 75 remaining)
            else [remaining]).
    destruct (Nat.ltb_spec 75 (List.length remaining)); [|reflexivity].
    f_equal. apply IH. cbn [List.length]. rewrite length_skipn. lia.
Qed.

(** X3: [foldLine] cuts a line into pieces of at most 75 code units,
    joined by CRLF, each piece after the first beginning with one space;
    dropping those spaces and putting the pieces together gives the line
    back.  A line of at most 75 code units is returned as it is. *)
Theorem X3_foldLine_pieces :
  forall (line : jstr),
  let pieces := foldLoop (List.length line) line in
  foldLine line = join CRLF pieces /\
  Forall (fun p => (List.length p <= 75)%nat) pieces /\
  Forall (fun p => hd_error p = Some 32) (tl pieces) /\
  unfoldPieces pieces = line /\
  ((List.length line <= 75)%nat -> foldLine line = line).
Proof.
  intros line pieces.
  destruct (foldLoop_pieces (List.length line) line ltac:(lia))
    as [Hall [Hsp Hun]].
  assert (Hshort : (List.length line <= 75)%nat -> foldLine line = line).
  { intros H. unfold foldLine.
    destruct (Nat.leb_spec (List.length line) 75); [reflexivity|lia]. }
  repeat split; try assumption.
  unfold foldLine. destruct (Nat.leb_spec (List.length line) 75) as [Hs|Hl];
    [|reflexivity].
  unfold pieces. destruct (List.length line) as [|n] eqn:E; [reflexivity|].
  cbn [foldLoop]. rewrite E.
  destruct (Nat.ltb_spec 75 (S n)); [lia|reflexivity].
Qed.

(* ------------------------------------------------------------------ *)
(** ** [simpleHash] *)

Lemma toInt32_range (z : Z) : - 2 ^ 31 <= toInt32 z < 2 ^ 31.
Proof.
  unfold toInt32. pose proof (Z.mod_pos_bound (z + 2 ^ 31) (2 ^ 32)). lia.
Qed.

Lemma toInt32_congr (a b k : Z) : a = b + k * 2 ^ 32 -> toInt32 a = toInt32 b.
Proof.
  intros ->. unfold toInt32.
  replace (b + k * 2 ^ 32 + 2 ^ 31) with (b + 2 ^ 31 + k * 2 ^ 32) by lia.
  now rewrite Z.mod_add by lia.
Qed.

Lemma toInt32_spec (z : Z) : exists k, toInt32 z = z + k * 2 ^ 32.
Proof.
  unfold toInt32. exists (- ((z + 2 ^ 31) / 2 ^ 32)).
  pose proof (Z.div_mod (z + 2 ^ 31) (2 ^ 32)). lia.
Qed.

(** One turn of the loop of [simpleHash] is a step of the polynomial,
    wrapped to 32 bits. *)
Lemma simpleHash_step (p h c : Z) :
  h = toInt32 p ->
  Z.land (toInt32 (toInt32 (Z.shiftl h 5) - h + c))
         (toInt32 (toInt32 (Z.shiftl h 5) - h + c))
  = toInt32 (31 * p + c).
Proof.
  intros ->. rewrite Z.land_diag, Z.shiftl_mul_pow2 by lia.
  destruct (toInt32_spec p) as [k1 Hk1].
  destruct (toInt32_spec (toInt32 p * 2 ^ 5)) as [k2 Hk2].
  apply toInt32_congr with (k := 31 * k1 + k2). rewrite Hk2, Hk1. lia.
Qed.

Lemma simpleHash_fold (str : jstr) (p h : Z) :
  h = toInt32 p ->
  fold_left (fun hash char =>
               let hash := (toInt32 (Z.shiftl hash 5) - hash) + char in
               Z.land (toInt32 hash) (toInt32 hash)) str h
  = toInt32 (fold_left (fun h c => 31 * h + c) str p).
Proof.
  revert p h. induction str as [|c r IH]; intros p h Hh; cbn [fold_left].
  - exact Hh.
  - apply IH. cbv zeta. apply simpleHash_step. exact Hh.
Qed.

Lemma hexDigit_ok (d : Z) : 0 <= d < 16 -> isHexDigit (hexDigit d) = true.
Proof.
  intros H. unfold hexDigit, isHexDigit, isDigit, between.
  destruct (Z.ltb_spec d 10).
  - apply orb_true_iff. left. apply andb_true_iff. split; apply Z.leb_le; lia.
  - apply orb_true_iff. right. apply andb_true_iff. split; apply Z.leb_le; lia.
Qed.

(** The digits [hexOf] writes: hexadecimal ones, and at most [k] of them
    for a number below [16^k]. *)
Lemma hexOf_digits (fuel : nat) :
  forall (n : Z) (acc : jstr) (k : nat),
  0 <= n < 16 ^ Z.of_nat (S k) ->
  Forall (fun c => isHexDigit c = true) acc ->
  Forall (fun c => isHexDigit c = true) (hexOf fuel n acc)
  /\ (List.length (hexOf fuel n acc) <= S k + List.length acc)%nat.
Proof.
  induction fuel as [|f IH]; intros n acc k Hn Hacc; cbn [hexOf].
  - split; [exact Hacc|lia].
  - assert (Hd : isHexDigit (hexDigit (n mod 16)) = true)
      by (apply hexDigit_ok, Z.mod_pos_bound; lia).
    destruct (Z.eqb_spec (n / 16) 0) as [Hz|Hnz].
    + split; [constructor; assumption|cbn [List.length]; lia].
    + destruct k as [|k].
      * exfalso. apply Hnz. apply Z.div_small. cbn in Hn. lia.
      * assert (Hn' : 0 <= n / 16 < 16 ^ Z.of_nat (S k)).
        { split; [apply Z.div_pos; lia|].
          apply Z.div_lt_upper_bound; [lia|].
          replace (Z.of_nat (S (S k))) with (Z.of_nat (S k) + 1) in Hn by lia.
          rewrite Z.pow_add_r in Hn by lia. lia. }
        destruct (IH (n / 16) (hexDigit (n mod 16) :: acc) k Hn'
                     ltac:(constructor; assumption)) as [Hall Hlen].
        split; [exact Hall|]. cbn [List.length] in Hlen. lia.
Qed.

(** X4: [simpleHash] is the polynomial hash with multiplier 31 of the
    code units, wrapped to a signed 32-bit integer, in absolute value and
    in hexadecimal: its text is the hexadecimal writing of a number from 0
    to 2^31, made of one to eight digits [0-9a-f]. *)
Theorem X4_simpleHash_value :
  forall (str : jstr),
  let h := toInt32 (polyHash str) in
  simpleHash str = toHex (Z.abs h) /\
  0 <= Z.abs h <= 2 ^ 31 /\
  (1 <= List.length (simpleHash str) <= 8)%nat /\
  Forall (fun c => isHexDigit c = true) (simpleHash str).
Proof.
  intros str h.
  assert (Heq : simpleHash str = toHex (Z.abs h)).
  { unfold simpleHash, h, polyHash. f_equal. f_equal.
    apply simpleHash_fold. reflexivity. }
  pose proof (toInt32_range (polyHash str)) as Hr. fold h in Hr.
  split; [exact Heq|]. split; [lia|]. rewrite Heq. unfold toHex.
  destruct (hexOf_digits (S (Z.to_nat (Z.log2 (Z.abs h)))) (Z.abs h) [] 7)
    as [Hall Hlen]; [change (16 ^ Z.of_nat 8) with (2 ^ 32); lia|constructor|].
  split; [|exact Hall]. split; [|cbn [List.length] in Hlen; lia].
  cbn [hexOf]. destruct (_ =? 0); [cbn; lia|].
  generalize (Z.abs h / 16) (hexDigit (Z.abs h mod 16)). intros n d.
  assert (Hge : forall fuel n acc,
             (List.length acc <= List.length (hexOf fuel n acc))%nat).
  { induction fuel as [|f IH]; intros m acc; cbn [hexOf]; [lia|].
    destruct (_ =? 0); [cbn; lia|].
    specialize (IH (m / 16) (hexDigit (m mod 16) :: acc)).
    cbn [List.length] in IH. lia. }
  specialize (Hge (Z.to_nat (Z.log2 (Z.abs h))) n [d]). cbn [List.length] in Hge.
  lia.
Qed.

(* ------------------------------------------------------------------ *)
(** ** [formatDateTime] and [formatUntilDate] *)

Lemma zrange_In (len : nat) :
  forall (k z : Z), k <= z < k + Z.of_nat len -> In z (zrange k len).
Proof.
  induction len as [|l IH]; intros k z Hz; [lia|].
  cbn [zrange]. destruct (Z.eq_dec z k) as [->|Hne]; [now left|].
  right. apply IH. lia.
Qed.

(** A check evaluated on an interval holds on that interval. *)
Lemma zrange_forallb (f : Z -> bool) (k : Z) (len : nat) :
  forallb f (zrange k len) = true ->
  forall z, k <= z < k + Z.of_nat len -> f z = true.
Proof.
  intros H z Hz. rewrite forallb_forall in H. apply H, zrange_In, Hz.
Qed.

(** A number of two digits at most, padded: two code units that read
    back as the number. *)
Lemma padStart2_field (n : Z) :
  0 <= n <= 99 ->
  exists a b, padStart2 (ofInt n) = [a; b] /\ parseInt [a; b] = n.
Proof.
  intros Hn.
  assert (H : forallb (fun n => match padStart2 (ofInt n) with
                                | [a; b] => parseInt [a; b] =? n
                                | _ => false
                                end) (zrange 0 100) = true)
    by (vm_compute; reflexivity).
  pose proof (zrange_forallb _ _ _ H n ltac:(lia)) as Hz. cbv beta in Hz.
  clear H.
  destruct (padStart2 (ofInt n)) as [|a [|b [|c r]]]; try discriminate.
  exists a, b. split; [reflexivity|]. now apply Z.eqb_eq.
Qed.

(** A year of four digits: four code units that read back as the year. *)
Lemma year_field (y : Z) :
  1000 <= y <= 9999 ->
  exists a b c d, ofInt y = [a; b; c; d] /\ parseInt [a; b; c; d] = y.
Proof.
  intros Hy.
  assert (H : forallb (fun y => match ofInt y with
                                | [a; b; c; d] => parseInt [a; b; c; d] =? y
                                | _ => false
                                end) (zrange 1000 (Z.to_nat 9000)) = true)
    by (vm_compute; reflexivity).
  pose proof (zrange_forallb _ _ _ H y ltac:(rewrite Z2Nat.id; lia)) as Hz.
  cbv beta in Hz. clear H.
  destruct (ofInt y) as [|a [|b [|c [|d [|e r]]]]]; try discriminate.
  exists a, b, c, d. split; [reflexivity|]. now apply Z.eqb_eq.
Qed.

(** X5: for a date with a four-digit year and a month and day below 100,
    and a time with hours and minutes below 100, [formatDateTime] writes
    15 code units: the year, month, day, a [T], the hours, the minutes and
    [00], each field reading back as the number it stands for; and
    [formatUntilDate] writes the same eight code units of the date
    followed by [T235959Z], whatever the end time. *)
Theorem X5_formatDateTime_fields :
  forall (d : CalendarDate) (t : ClockTime) (endTime : option ClockTime),
  1000 <= year d <= 9999 -> 0 <= month d <= 99 -> 0 <= day d <= 99 ->
  0 <= hours t <= 99 -> 0 <= minutes t <= 99 ->
  let s := formatDateTime (Calendar d) t in
  List.length s = 15%nat /\
  parseInt (firstn 4 s) = year d /\
  parseInt (firstn 2 (skipn 4 s)) = month d /\
  parseInt (firstn 2 (skipn 6 s)) = day d /\
  firstn 1 (skipn 8 s) = lit "T" /\
  parseInt (firstn 2 (skipn 9 s)) = hours t /\
  parseInt (firstn 2 (skipn 11 s)) = minutes t /\
  skipn 13 s = lit "00" /\
  formatUntilDate (Some (Calendar d)) endTime
  = Ok (firstn 8 s ++ lit "T235959Z").
Proof.
  intros d t endTime Hy Hm Hd Hh Hmi s.
  unfold s, formatDateTime, formatUntilDate, fieldText.
  destruct (year_field _ Hy) as [y1 [y2 [y3 [y4 [-> Ey]]]]].
  destruct (padStart2_field _ Hm) as [m1 [m2 [-> Em]]].
  destruct (padStart2_field _ Hd) as [d1 [d2 [-> Ed]]].
  destruct (padStart2_field _ Hh) as [h1 [h2 [-> Eh]]].
  destruct (padStart2_field _ Hmi) as [n1 [n2 [-> En]]].
  cbn [app firstn skipn List.length].
  repeat split; assumption.
Qed.

(** X5 at 2024-09-04, 10:00. *)
Lemma X5_formatDateTime_fields_witness :
  formatDateTime (Calendar {| year := 2024; month := 9; day := 4 |})
                 {| hours := 10; minutes := 0 |}
  = lit "20240904T100000" /\
  List.length (formatDateTime (Calendar {| year := 2024; month := 9; day := 4 |})
                              {| hours := 10; minutes := 0 |}) = 15%nat /\
  formatUntilDate (Some (Calendar {| year := 2024; month := 9; day := 4 |}))
                  None
  = Ok (lit "20240904T235959Z").
Proof.
  destruct (X5_formatDateTime_fields
              {| year := 2024; month := 9; day := 4 |}
              {| hours := 10; minutes := 0 |} None)
    as [Hlen [_ [_ [_ [_ [_ [_ [_ Huntil]]]]]]]]; try (cbn; lia).
  split; [reflexivity|]. split; [exact Hlen|]. rewrite Huntil. reflexivity.
Defined.

(* ------------------------------------------------------------------ *)
(** ** [generate] *)

(** A text [generateEvent] returns begins with the BEGIN line, and so is
    not empty. *)
Lemma generateEvent_text (now : Instant) (e : MeetingEvent) (text : jstr) :
  generateEvent now e = Ok (Some text) ->
  startsWith text (lit "BEGIN:VEVENT") = true.
Proof.
  unfold generateEvent.
  destruct (startDate e) as [sd|]; [|discriminate].
  destruct (startTime e) as [st|]; [|discriminate].
  destruct (endTime e) as [et|]; [|discriminate].
  destruct (isNil (days e)); [discriminate|].
  destruct (findFirstOccurrence sd (days e)) as [fd|]; [|discriminate].
  destruct (formatUntilDate (endDate e) (Some et)) as [until|]; [|discriminate].
  cbn [bind]. intros [= <-]. reflexivity.
Qed.

Lemma eventBlocks_texts (now : Instant) (events : list MeetingEvent) :
  Forall (fun e => generateEvent now e <> Throw TypeError) events ->
  eventBlocks now events = Ok (encodedTexts now events).
Proof.
  induction 1 as [|e rest He _ IH]; [reflexivity|].
  cbn [eventBlocks]. rewrite IH. unfold encodedTexts. cbn [flat_map].
  destruct (generateEvent now e) as [[text|]|[]] eqn:E; cbn [bind app].
  - apply generateEvent_text in E.
    destruct text; [discriminate|]. reflexivity.
  - reflexivity.
  - congruence.
Qed.

(** X6: when no event makes [generateEvent] throw, [generate] returns the
    seven header lines, the time-zone block, the texts of the events that
    [generateEvent] encodes, in the order of the events, and the END
    line, joined by CRLF; an event encoded as [null] leaves nothing in
    the document. *)
Theorem X6_generate_document :
  forall (now : Instant) (events : list MeetingEvent),
  Forall (fun e => generateEvent now e <> Throw TypeError) events ->
  generate now events =
    Ok (join CRLF
          (map lit ["BEGIN:VCALENDAR";
                    "VERSION:2.0";
                    "PRODID:-//UBC Workday to Calendar//EN";
                    "CALSCALE:GREGORIAN";
                    "METHOD:PUBLISH";
                    "X-WR-CALNAME:UBC Class Schedule";
                    "X-WR-TIMEZONE:America/Vancouver"]%string
           ++ [generateTimezone] ++ encodedTexts now events
           ++ [lit "END:VCALENDAR"])) /\
  (List.length (encodedTexts now events) <= List.length events)%nat /\
  forall a e b, events = a ++ e :: b -> generateEvent now e = Ok None ->
                encodedTexts now events = encodedTexts now (a ++ b).
Proof.
  intros now events Hall. unfold generate.
  rewrite (eventBlocks_texts now events Hall). cbn [bind].
  split; [reflexivity|]. split.
  - unfold encodedTexts. clear Hall.
    induction events as [|e rest IH]; [cbn; lia|].
    cbn [flat_map List.length]. rewrite length_app.
    destruct (generateEvent now e) as [[text|]|]; cbn [List.length]; lia.
  - intros a e b -> He. unfold encodedTexts.
    rewrite !flat_map_app. cbn [flat_map]. now rewrite He.
Qed.

(** X6 at the event of the well-formed sample row and an event without a
    start date. *)
Lemma X6_generate_document_witness :
  exists text,
    generateEvent noon lectureEvent = Ok (Some text) /\
    encodedTexts noon
      [lectureEvent;
       {| courseCode := []; courseTitle := []; section := Text [];
          format := Text []; deliveryMode := Text []; instructor := Text [];
          days := [MO]; startTime := time 9 0; endTime := time 10 0;
          startDate := None; endDate := None; location := [];
          raw := Text [] |}]
    = [text] /\
    exists doc,
      generate noon
        [lectureEvent;
         {| courseCode := []; courseTitle := []; section := Text [];
            format := Text []; deliveryMode := Text []; instructor := Text [];
            days := [MO]; startTime := time 9 0; endTime := time 10 0;
            startDate := None; endDate := None; location := [];
            raw := Text [] |}]
      = Ok doc.
Proof.
  eexists. split; [vm_compute; reflexivity|]. split; [vm_compute; reflexivity|].
  eexists.
  refine (proj1 (X6_generate_document noon _ _)).
  repeat constructor; vm_compute; intros H; discriminate H.
Defined.

(* ------------------------------------------------------------------ *)
(** ** The page's test and the generator's guard *)

(** X7: an event the page counts as valid (days, start time and end time
    present) is encoded as [null] by [generateEvent] exactly when it has
    no start date; with a start date it is encoded when it has an end
    date, and makes [generateEvent] throw when it has none.  So the
    filter of [downloadICS] lets through events that are left out of the
    file, and events on which [generate] fails. *)
Theorem X7_valid_events_and_guard :
  forall (now : Instant) (e : MeetingEvent),
  isValid e = true ->
  (startDate e = None <-> generateEvent now e = Ok None) /\
  (startDate e <> None /\ endDate e = None
   <-> generateEvent now e = Throw TypeError) /\
  (startDate e <> None /\ endDate e <> None
   <-> exists text, generateEvent now e = Ok (Some text)).
Proof.
  intros now e Hv. unfold isValid in Hv.
  apply andb_true_iff in Hv. destruct Hv as [Hv Het].
  apply andb_true_iff in Hv. destruct Hv as [Hds Hst].
  assert (Hdays : days e <> []) by (destruct (days e); [discriminate|congruence]).
  assert (Hst' : startTime e <> None) by (destruct (startTime e); congruence).
  assert (Het' : endTime e <> None) by (destruct (endTime e); congruence).
  destruct (startDate e) as [sd|] eqn:Esd.
  - destruct (endDate e) as [ed|] eqn:Eed.
    + destruct (generateEvent_encodes now e) as [text Htext];
        try congruence.
      rewrite Htext. split; [|split].
      * split; intros H; discriminate H.
      * split; [intros [_ H]; discriminate H | intros H; discriminate H].
      * split; [intros _; exists text; reflexivity
               | intros _; split; discriminate].
    + rewrite (generateEvent_throws now e) by congruence.
      split; [|split].
      * split; intros H; discriminate H.
      * split; [reflexivity | intros _; split; [discriminate|reflexivity]].
      * split; [intros [_ H]; congruence | intros [text H]; discriminate H].
  - rewrite (generateEvent_skips now e) by auto.
    split; [|split].
    + split; reflexivity.
    + split; [intros [H _]; congruence | intros H; discriminate H].
    + split; [intros [H _]; congruence | intros [text H]; discriminate H].
Qed.

(** X7 at the second event of the sample rows without date columns. *)
Lemma X7_valid_events_and_guard_witness :
  exists e,
    parse 2024 [rowWellFormed; rowExplicit] = ([lectureEvent; e], []) /\
    validEvents [lectureEvent; e] = [lectureEvent; e] /\
    generateEvent noon e = Ok None.
Proof.
  eexists. split; [vm_compute; reflexivity|].
  split; [vm_compute; reflexivity|].
  refine (proj1 (proj1 (X7_valid_events_and_guard noon _ _)) _);
    vm_compute; reflexivity.
Defined.

(* ------------------------------------------------------------------ *)
(** ** [formatTime] and [normalizeTime] *)

(** X8: a time of day shown by [formatTime] is read back by
    [normalizeTime]: for hours 0..23 and minutes 0..59 the one undoes the
    other. *)
Theorem X8_formatTime_normalizeTime :
  forall (h m : Z),
  0 <= h <= 23 -> 0 <= m <= 59 ->
  normalizeTime (formatTime (Some {| hours := h; minutes := m |}))
  = Some {| hours := h; minutes := m |}.
Proof.
  intros h m Hh Hm.
  assert (H : forallb (fun h =>
                forallb (fun m =>
                  ClockTime_eqb
                    (normalizeTime
                       (formatTime (Some {| hours := h; minutes := m |})))
                    (Some {| hours := h; minutes := m |}))
                  (zrange 0 60))
                (zrange 0 24) = true) by (vm_compute; reflexivity).
  pose proof (zrange_forallb _ _ _ H h ltac:(lia)) as Hrow. cbv beta in Hrow.
  pose proof (zrange_forallb _ _ _ Hrow m ltac:(lia)) as Hcell.
  apply ClockTime_eqb_eq, Hcell.
Qed.

(** X8 at a quarter past midnight and at half past one in the afternoon. *)
Lemma X8_formatTime_normalizeTime_witness :
  formatTime (time 0 15) = lit "12:15 AM" /\
  normalizeTime (lit "12:15 AM") = time 0 15 /\
  formatTime (time 13 30) = lit "1:30 PM" /\
  normalizeTime (formatTime (time 13 30)) = time 13 30.
Proof.
  split; [reflexivity|].
  split; [exact (X8_formatTime_normalizeTime 0 15 ltac:(lia) ltac:(lia))|].
  split; [reflexivity|].
  exact (X8_formatTime_normalizeTime 13 30 ltac:(lia) ltac:(lia)).
Defined.

(* ------------------------------------------------------------------ *)
(** ** [parseDays]: what a token is read by *)

Lemma firstEntry_skip (c k0 : cu) (r tail : jstr) (v : DayCode)
      (entries : list (jstr * DayCode)) :
  c <> k0 ->
  firstEntry (c :: r) ((k0 :: tail, v) :: entries) = firstEntry (c :: r) entries.
Proof.
  intros Hne. cbn [firstEntry JS.eqb startsWith].
  rewrite (proj2 (Z.eqb_neq c k0) Hne). cbn [andb].
  rewrite andb_false_r. reflexivity.
Qed.

Lemma firstEntry_hit (c : cu) (r : jstr) (v : DayCode)
      (entries : list (jstr * DayCode)) :
  firstEntry (c :: r) (([c], v) :: entries) = Some v.
Proof.
  cbn [firstEntry JS.eqb startsWith]. rewrite Z.eqb_refl. cbn [andb].
  destruct r as [|d r']; [reflexivity|].
  cbn [JS.eqb List.length]. reflexivity.
Qed.

(** A token is read by its first code unit alone. *)
Lemma firstEntry_letter (c : cu) (r : jstr) :
  firstEntry (c :: r) dayMap = letterCode c.
Proof.
  unfold letterCode.
  change dayMap with
    [([109], MO); ([109; 111], MO); ([109; 111; 110], MO);
     ([109; 111; 110; 100; 97; 121], MO);
     ([116], TU); ([116; 117], TU); ([116; 117; 101], TU);
     ([116; 117; 101; 115], TU); ([116; 117; 101; 115; 100; 97; 121], TU);
     ([119], WE); ([119; 101], WE); ([119; 101; 100], WE);
     ([119; 101; 100; 110; 101; 115; 100; 97; 121], WE);
     ([116; 104], TH); ([116; 104; 117], TH); ([116; 104; 117; 114], TH);
     ([116; 104; 117; 114; 115], TH);
     ([116; 104; 117; 114; 115; 100; 97; 121], TH);
     ([114], TH);
     ([102], FR); ([102; 114; 105], FR); ([102; 114; 105; 100; 97; 121], FR);
     ([115], SA); ([115; 97], SA); ([115; 97; 116], SA);
     ([115; 97; 116; 117; 114; 100; 97; 121], SA);
     ([115; 117], SU); ([115; 117; 110], SU);
     ([115; 117; 110; 100; 97; 121], SU)].
  destruct (Z.eqb_spec c 109) as [->|Hm]; [apply firstEntry_hit|].
  rewrite !(firstEntry_skip c 109) by exact Hm.
  destruct (Z.eqb_spec c 116) as [->|Ht]; [apply firstEntry_hit|].
  rewrite !(firstEntry_skip c 116) by exact Ht.
  destruct (Z.eqb_spec c 119) as [->|Hw]; [apply firstEntry_hit|].
  rewrite !(firstEntry_skip c 119) by exact Hw.
  rewrite !(firstEntry_skip c 116) by exact Ht.
  destruct (Z.eqb_spec c 114) as [->|Hr]; [apply firstEntry_hit|].
  rewrite !(firstEntry_skip c 114) by exact Hr.
  destruct (Z.eqb_spec c 102) as [->|Hf]; [apply firstEntry_hit|].
  rewrite !(firstEntry_skip c 102) by exact Hf.
  destruct (Z.eqb_spec c 115) as [->|Hs]; [apply firstEntry_hit|].
  rewrite !(firstEntry_skip c 115) by exact Hs.
  reflexivity.
Qed.

(** X9: [parseDays] reads a token by its first code unit alone: [m] gives
    MO, [t] TU, [w] WE, [r] TH, [f] FR, [s] SA, and any other first code
    unit (or the empty token) gives no code.  Hence no input makes
    [parseDays] return SU, and TH comes only from a token that begins
    with [r]. *)
Theorem X9_parseDays_first_letter :
  forall (daysStr : jstr),
  (forall c r, firstEntry (c :: r) dayMap = letterCode c) /\
  firstEntry [] dayMap = None /\
  ~ In SU (parseDays daysStr) /\
  (In TH (parseDays daysStr) ->
   exists r, In (114 :: r) (dayTokensOf daysStr)).
Proof.
  intros daysStr.
  split; [exact firstEntry_letter|]. split; [reflexivity|].
  assert (Hin : forall d, In d (parseDays daysStr) ->
                          exists c r, In (c :: r) (dayTokensOf daysStr)
                                      /\ letterCode c = Some d).
  { intros d. unfold parseDays. destruct (truthy daysStr); cbn [negb];
      [|contradiction].
    rewrite pushDay_fold. cbn [app]. rewrite filter_In, firstSeen_In.
    intros [H _]. unfold codesOf in H. apply in_flat_map in H.
    destruct H as [token [Htok Hd]].
    destruct token as [|c r]; [contradiction|].
    rewrite firstEntry_letter in Hd. exists c, r. split; [exact Htok|].
    destruct (letterCode c); [destruct Hd as [->|[]]; reflexivity|contradiction]. }
  split.
  - intros H. destruct (Hin SU H) as [c [r [_ Hc]]]. unfold letterCode in Hc.
    repeat (destruct (_ =? _); [discriminate|]). discriminate.
  - intros H. destruct (Hin TH H) as [c [r [Htok Hc]]]. exists r.
    unfold letterCode in Hc.
    destruct (c =? 109); [discriminate|]. destruct (c =? 116); [discriminate|].
    destruct (c =? 119); [discriminate|].
    destruct (Z.eqb_spec c 114) as [->|]; [exact Htok|].
    repeat (destruct (_ =? _); [discriminate|]). discriminate.
Qed.

(* ------------------------------------------------------------------ *)
(** ** [parse] and [filterDataRows] *)

Lemma parseRows_events (currentYear : Z) (rows : list Row) :
  fst (parseRows currentYear rows)
  = flat_map (fun row => match parseRow currentYear row with
                         | Ok rowEvents => rowEvents
                         | Throw _ => []
                         end) rows.
Proof.
  induction rows as [|row rest IH]; [reflexivity|].
  cbn [parseRows flat_map]. rewrite <- IH.
  destruct (parseRows currentYear rest) as [events errors].
  destruct (parseRow currentYear row); reflexivity.
Qed.

Lemma parse_events (currentYear : Z) (rows : list Row) :
  fst (parse currentYear rows)
  = fst (parseRows currentYear (filterDataRows rows)).
Proof. destruct rows; reflexivity. Qed.

Lemma filterDataRows_app (before after : list Row) :
  filterDataRows (before ++ after)
  = filterDataRows before ++ filterDataRows after.
Proof. apply filter_app. Qed.

Lemma filterDataRows_cons (row : Row) (rows : list Row) :
  filterDataRows (row :: rows)
  = if headerRow row then filterDataRows rows
    else if existsb (fun kv => match snd kv with
                               | Text [] => false
                               | _ => true
                               end) row
         then row :: filterDataRows rows
         else filterDataRows rows.
Proof.
  unfold filterDataRows, headerRow. cbn [filter]. cbv zeta.
  destruct (cellOrEmpty row "Course Listing") as [str | shown].
  - destruct (includes _ _); reflexivity.
  - reflexivity.
Qed.

(** X10: the events of a sheet are the events of its rows, in row order:
    parsing two runs of rows one after the other gives the events of the
    first followed by the events of the second.  A row that repeats the
    header, and a row whose cells are all empty, give no event wherever
    they stand. *)
Theorem X10_parse_row_wise :
  forall (currentYear : Z) (before after : list Row) (row : Row),
  fst (parse currentYear (before ++ after))
  = fst (parse currentYear before) ++ fst (parse currentYear after) /\
  (headerRow row = true \/ Forall (fun kv => snd kv = Text []) row ->
   fst (parse currentYear (before ++ row :: after))
   = fst (parse currentYear (before ++ after))).
Proof.
  intros currentYear before after row.
  rewrite !parse_events, !filterDataRows_app, filterDataRows_cons.
  rewrite !parseRows_events.
  split; [apply flat_map_app|].
  intros Hdrop.
  destruct Hdrop as [-> | Hempty]; [reflexivity|].
  destruct (headerRow row); [reflexivity|].
  replace (existsb (fun kv => match snd kv with
                              | Text [] => false
                              | _ => true
                              end) row) with false;
    [reflexivity|].
  symmetry. induction Hempty as [|[k v] rest Hkv _ IH]; [reflexivity|].
  cbn [snd] in Hkv. subst v. cbn [existsb snd]. rewrite IH. reflexivity.
Qed.

(* ------------------------------------------------------------------ *)
(** ** [findColumnValue] *)

Lemma findColumnValue_unfold (row : Row) (names : list jstr) :
  findColumnValue row names =
  match row with
  | [] => None
  | (key, v) :: rest =>
      if keyMatches names key then Some v else findColumnValue rest names
  end.
Proof. destruct row as [|[key v] rest]; reflexivity. Qed.

(** X11: [findColumnValue] returns the cell of the first column, in
    column order, whose header is one of the names once both are put in
    lower case and the header is trimmed, whatever columns follow it; it
    returns [null] exactly when the row has no such column. *)
Theorem X11_findColumnValue_first_match :
  forall (row : Row) (names : list jstr),
  (findColumnValue row names = None <->
   Forall (fun kv => keyMatches names (fst kv) = false) row) /\
  (forall v, findColumnValue row names = Some v ->
     exists pre key post,
       row = pre ++ (key, v) :: post /\ keyMatches names key = true /\
       Forall (fun kv => keyMatches names (fst kv) = false) pre).
Proof.
  intros row names. split.
  - induction row as [|[key v] rest IH]; rewrite findColumnValue_unfold.
    + split; [constructor|reflexivity].
    + destruct (keyMatches names key) eqn:E.
      * split; [discriminate|]. intros H. inversion H as [|? ? Hk _]; subst.
        cbn [fst] in Hk. congruence.
      * rewrite IH. split.
        -- intros H. constructor; [exact E|exact H].
        -- intros H. inversion H; assumption.
  - induction row as [|[key v] rest IH]; intros w; rewrite findColumnValue_unfold.
    + discriminate.
    + destruct (keyMatches names key) eqn:E.
      * intros [= <-]. exists [], key, rest. repeat split; [exact E|constructor].
      * intros H. destruct (IH w H) as [pre [k [post [-> [Hk Hpre]]]]].
        exists ((key, v) :: pre), k, post.
        repeat split; [exact Hk|constructor; [exact E|exact Hpre]].
Qed.

(* ------------------------------------------------------------------ *)
(** ** [parseRow]: when a row throws, and one event per pattern *)

Lemma applyTo_cases {A} (f : jstr -> A) (v : option Cell) :
  applyTo f v = if throwsOn v then Throw TypeError else Ok (f (textOf v)).
Proof.
  destruct v as [[str | shown]|]; cbn [applyTo throwsOn textOf];
    try reflexivity;
    try (destruct (cellTruthy (Num shown)); reflexivity).
Qed.

Lemma globalDatesOf_cases (currentYear : Z) (row : Row) :
  let a := findColumnValue row startDateNames in
  let b := findColumnValue row endDateNames in
  globalDatesOf currentYear row =
    if populated a b then
      if throwsOn a || throwsOn b then Throw TypeError
      else Ok (Some (parseDate currentYear (textOf a),
                     parseDate currentYear (textOf b)))
    else Ok None.
Proof.
  intros a b. unfold globalDatesOf, populated. fold a b.
  destruct (truthyCell a && truthyCell b); [|reflexivity].
  rewrite !applyTo_cases.
  destruct (throwsOn a), (throwsOn b); reflexivity.
Qed.

Lemma globalTimesOf_cases (row : Row) :
  let a := findColumnValue row startTimeNames in
  let b := findColumnValue row endTimeNames in
  globalTimesOf row =
    if populated a b then
      if throwsOn a || throwsOn b then Throw TypeError
      else Ok (Some (normalizeTime (textOf a), normalizeTime (textOf b)))
    else Ok None.
Proof.
  intros a b. unfold globalTimesOf, populated. fold a b.
  destruct (truthyCell a && truthyCell b); [|reflexivity].
  rewrite !applyTo_cases.
  destruct (throwsOn a), (throwsOn b); reflexivity.
Qed.

Lemma throwsOn_truthy (v : option Cell) :
  throwsOn v = true -> truthyCell v = true.
Proof. destruct v as [[str | shown]|]; cbn; congruence. Qed.

Lemma globalDaysOf_cases (row : Row) :
  let d := findColumnValue row daysNames in
  globalDaysOf row =
    if throwsOn d then Throw TypeError
    else Ok (if truthyCell d then Some (parseDays (textOf d)) else None).
Proof.
  intros d. unfold globalDaysOf. fold d. rewrite applyTo_cases.
  destruct (throwsOn d) eqn:E.
  - now rewrite (throwsOn_truthy d E).
  - destruct (truthyCell d); reflexivity.
Qed.

Lemma courseListing_cases (row : Row) :
  throwsOn (Some (cellOrEmpty row "Course Listing"))
  = throwsOn (getCell row (lit "Course Listing")).
Proof.
  unfold cellOrEmpty.
  destruct (getCell row (lit "Course Listing")) as [[str | shown]|];
    try reflexivity.
  - destruct (cellTruthy (Text str)); reflexivity.
  - cbn [throwsOn]. destruct (cellTruthy (Num shown)) eqn:E; cbn [throwsOn].
    + exact E.
    + reflexivity.
Qed.

Lemma needsExplicit_patterns (currentYear : Z) (cell : Cell) :
  needsExplicit (parseMeetingPatterns currentYear cell)
  = isNil (parseMeetingPatterns currentYear cell).
Proof.
  pose proof (parseMeetingPatterns_no_error currentYear cell) as Hall.
  destruct (parseMeetingPatterns currentYear cell) as [|p [|q rest]];
    cbn [needsExplicit isNil]; try reflexivity.
  inversion Hall; subst. assumption.
Qed.

(** The [raw] of a pattern is the block it was read from, which is not
    empty. *)
Lemma parseMeetingPatterns_raw (currentYear : Z) (cell : Cell) :
  Forall (fun p => cellTruthy (p_raw p) = true)
         (parseMeetingPatterns currentYear cell).
Proof.
  unfold parseMeetingPatterns. destruct cell as [str | shown]; [|constructor].
  destruct (negb (truthy str) || JS.eqb (trim str) []); [constructor|].
  apply Forall_forall. intros p Hin. apply in_map_iff in Hin.
  destruct Hin as [block [<- Hblock]].
  assert (Hraw : p_raw (match parseSinglePattern currentYear block with
                        | Some pattern => withRaw pattern block
                        | None => errorPattern block
                        end) = Text block)
    by (destruct (parseSinglePattern currentYear block); reflexivity).
  rewrite Hraw. unfold patternBlocks in Hblock.
  apply filter_In in Hblock. destruct Hblock as [_ Hlen].
  destruct block; [discriminate|reflexivity].
Qed.

(** What [parseRow] returns: it throws when one of the four calls does,
    and otherwise builds its events from what they return. *)
Lemma parseRow_cases (currentYear : Z) (row : Row) :
  parseRow currentYear row =
    if rowThrows row then Throw TypeError
    else
      let meetingPatterns := cellOrEmpty row "Meeting Patterns" in
      Ok (map (toEvent
                 (parseCourseTitle
                    (textOf (Some (cellOrEmpty row "Course Listing"))))
                 (cellOrEmpty row "Section")
                 (cellOrEmpty row "Instructional Format")
                 (cellOrEmpty row "Delivery Mode")
                 (cellOrEmpty row "Instructor")
                 meetingPatterns)
              (reconcile meetingPatterns
                 (explicitDays row) (explicitDates currentYear row)
                 (explicitTimes row)
                 (parseMeetingPatterns currentYear meetingPatterns))).
Proof.
  unfold parseRow, rowThrows, explicitDays, explicitDates, explicitTimes.
  rewrite globalDatesOf_cases, globalTimesOf_cases, globalDaysOf_cases,
    applyTo_cases, courseListing_cases.
  cbv zeta.
  destruct (populated (findColumnValue row startDateNames)
                      (findColumnValue row endDateNames));
    destruct (throwsOn (findColumnValue row startDateNames)
              || throwsOn (findColumnValue row endDateNames));
    cbn [andb orb bind]; try reflexivity;
    destruct (populated (findColumnValue row startTimeNames)
                        (findColumnValue row endTimeNames));
    destruct (throwsOn (findColumnValue row startTimeNames)
              || throwsOn (findColumnValue row endTimeNames));
    cbn [andb orb bind]; try reflexivity;
    destruct (throwsOn (findColumnValue row daysNames));
    cbn [andb orb bind]; try reflexivity;
    destruct (throwsOn (getCell row (lit "Course Listing")));
    cbn [andb orb bind]; reflexivity.
Qed.

(** X12: [parseRow] throws exactly when one of the texts it parses is a
    number that is not zero: the Course Listing cell, the explicit days
    cell, or a cell of an explicit pair of date or time cells that are
    both populated.  When it returns, a row gives one event for each
    pattern of its meeting-pattern cell; when the cell gives no pattern
    it gives one event if the explicit days cell, the pair of date cells
    or the pair of time cells is populated, and none otherwise. *)
Theorem X12_parseRow_event_count :
  forall (currentYear : Z) (row : Row),
  let patterns :=
    parseMeetingPatterns currentYear (cellOrEmpty row "Meeting Patterns") in
  (parseRow currentYear row = Throw TypeError <-> rowThrows row = true) /\
  (forall events,
     parseRow currentYear row = Ok events ->
     List.length events
     = match patterns with
       | [] =>
           if truthyCell (findColumnValue row daysNames)
              || populated (findColumnValue row startDateNames)
                           (findColumnValue row endDateNames)
              || populated (findColumnValue row startTimeNames)
                           (findColumnValue row endTimeNames)
           then 1%nat else 0%nat
       | _ :: _ => List.length patterns
       end).
Proof.
  intros currentYear row patterns. rewrite parseRow_cases. cbv zeta.
  fold patterns.
  destruct (rowThrows row).
  - split; [split; reflexivity|]. intros events H. discriminate H.
  - split; [split; intros H; discriminate H|].
    intros events [= <-]. rewrite length_map. unfold reconcile.
    unfold patterns at 1. rewrite needsExplicit_patterns. fold patterns.
    destruct patterns as [|p ps]; cbn [isNil].
    + unfold explicitDays, explicitDates, explicitTimes.
      destruct (truthyCell (findColumnValue row daysNames)),
        (populated (findColumnValue row startDateNames)
                   (findColumnValue row endDateNames)),
        (populated (findColumnValue row startTimeNames)
                   (findColumnValue row endTimeNames)); reflexivity.
    + now rewrite length_map.
Qed.

(** X13: in a row that parses, what a pattern of the meeting-pattern cell
    holds wins over the explicit cells: the event at the place of a
    pattern has the pattern's days, times and dates where the pattern has
    them and those of the explicit cells where it has not, and always
    the pattern's location and, as [raw], the block the pattern was read
    from. *)
Theorem X13_parseRow_pattern_first :
  forall (currentYear : Z) (row : Row) (events : list MeetingEvent)
         (i : nat) (p : MeetingPattern),
  parseRow currentYear row = Ok events ->
  nth_error
    (parseMeetingPatterns currentYear (cellOrEmpty row "Meeting Patterns")) i
  = Some p ->
  exists e,
    nth_error events i = Some e /\
    days e = (if isNil (p_days p)
              then match explicitDays row with Some ds => ds | None => [] end
              else p_days p) /\
    startTime e = orOpt (p_startTime p)
                    match explicitTimes row with
                    | Some ts => fst ts | None => None end /\
    endTime e = orOpt (p_endTime p)
                  match explicitTimes row with
                  | Some ts => snd ts | None => None end /\
    startDate e = orOpt (p_startDate p)
                    match explicitDates currentYear row with
                    | Some ds => fst ds | None => None end /\
    endDate e = orOpt (p_endDate p)
                  match explicitDates currentYear row with
                  | Some ds => snd ds | None => None end /\
    location e = p_location p /\
    raw e = p_raw p /\ cellTruthy (raw e) = true.
Proof.
  intros currentYear row events i p Hrow Hp.
  pose proof (parseMeetingPatterns_raw currentYear
                (cellOrEmpty row "Meeting Patterns")) as Hraw.
  rewrite Forall_forall in Hraw.
  pose proof (Hraw p (nth_error_In _ _ Hp)) as Hne.
  rewrite parseRow_cases in Hrow. cbv zeta in Hrow.
  destruct (rowThrows row); [discriminate Hrow|].
  injection Hrow as <-. unfold reconcile. rewrite needsExplicit_patterns.
  destruct (parseMeetingPatterns currentYear (cellOrEmpty row "Meeting Patterns"))
    as [|q qs] eqn:E; [destruct i; discriminate|].
  cbn [isNil]. rewrite !nth_error_map, Hp. cbn [option_map].
  eexists. split; [reflexivity|].
  cbn [toEvent days startTime endTime startDate endDate location raw
       p_days p_startTime p_endTime p_startDate p_endDate p_location p_raw].
  rewrite isNil_length, Hne.
  destruct (isNil (p_days p)); cbn [negb]; repeat split; assumption.
Qed.

(** X13 at the well-formed sample row with explicit cells beside it, its
    section a number. *)
Lemma X13_parseRow_pattern_first_witness :
  exists e,
    parseRow 2024
      ((lit "Section", Num (lit "101"))
       :: rowWellFormed
       ++ cells [("Days", "Fri"); ("Start Time", "8:00");
                 ("End Time", "9:00")]%string)
    = Ok [e] /\
    section e = Num (lit "101") /\
    days e = [MO; WE] /\ startTime e = time 10 0 /\ endTime e = time 11 0.
Proof.
  set (row := (lit "Section", Num (lit "101"))
              :: rowWellFormed
              ++ cells [("Days", "Fri"); ("Start Time", "8:00");
                        ("End Time", "9:00")]%string).
  destruct (parseRow 2024 row) as [events | err] eqn:Hrow;
    [|vm_compute in Hrow; discriminate Hrow].
  assert (Hp : nth_error
                 (parseMeetingPatterns 2024 (cellOrEmpty row "Meeting Patterns"))
                 0
               = Some (withRaw (mkPattern [MO; WE] (time 10 0, time 11 0)
                                          (date 2024 9 3, date 2024 12 5)
                                          (lit "Room 200"))
                               pipeBlock))
    by (vm_compute; reflexivity).
  destruct (X13_parseRow_pattern_first 2024 row events 0 _ Hrow Hp)
    as [e [He [Hd [Hs [Het _]]]]].
  vm_compute in Hrow. injection Hrow as <-.
  cbn [nth_error] in He. injection He as <-.
  eexists. split; [reflexivity|]. repeat split.
Defined.

(* ------------------------------------------------------------------ *)
(** ** [parseTimeRange] and [parseDateRange]: what a range needs *)

Lemma inClass_digit (x : cu) : inClass true isDigit x = true -> isDigit x = true.
Proof.
  unfold inClass, isDigit, lowerCU, upperCU, isUpper, isLower, between.
  destruct (Z.leb_spec 65 x), (Z.leb_spec x 90), (Z.leb_spec 97 x),
    (Z.leb_spec x 122); cbn [andb orb];
    repeat match goal with
           | |- context [?a <=? ?b] => destruct (Z.leb_spec a b); cbn [andb orb]
           end; intros; try reflexivity; try discriminate; lia.
Qed.

Lemma inClass_rangeMark (x : cu) :
  inClass true (fun c => existsb (Z.eqb c)
                           [Pat.HYPHEN; Pat.EN_DASH; Pat.EM_DASH;
                            Pat.chr "t"; Pat.chr "o"]) x = true ->
  rangeMark x = true.
Proof.
  unfold inClass, rangeMark, lowerCU, upperCU, isUpper, isLower, between,
    Pat.HYPHEN, Pat.EN_DASH, Pat.EM_DASH.
  change (Pat.chr "t") with 116. change (Pat.chr "o") with 111.
  cbn [existsb].
  destruct (Z.leb_spec 65 x), (Z.leb_spec x 90), (Z.leb_spec 97 x),
    (Z.leb_spec x 122); cbn [andb orb];
    repeat match goal with
           | |- context [?a =? ?b] => destruct (Z.eqb_spec a b); cbn [andb orb]
           end; intros; try reflexivity; try discriminate; lia.
Qed.

Lemma timeRange_needs_digit : Needs true isDigit Pat.timeRange.
Proof.
  apply Needs_cat_l, Needs_grp, Needs_cat_l, Needs_cat_l, Needs_cat_l, Needs_cls.
  exact inClass_digit.
Qed.

Lemma timeRange_needs_mark : Needs true rangeMark Pat.timeRange.
Proof.
  apply Needs_cat_r, Needs_cat_r, Needs_cat_l, Needs_cat_l, Needs_cls.
  exact inClass_rangeMark.
Qed.

Lemma dateRange_needs_digit : Needs true isDigit Pat.dateRange.
Proof.
  apply Needs_cat_l, Needs_grp, Needs_alt.
  - apply Needs_cat_r, Needs_cat_r, Needs_cat_l, Needs_cat_l, Needs_cat_l,
      Needs_cls. exact inClass_digit.
  - apply Needs_cat_l, Needs_cat_l, Needs_cls. exact inClass_digit.
Qed.

Lemma dateRange_needs_mark : Needs true rangeMark Pat.dateRange.
Proof.
  apply Needs_cat_r, Needs_cat_r, Needs_cat_l, Needs_cat_l, Needs_cls.
  exact inClass_rangeMark.
Qed.

(** X14: a text without a digit, and a text without any of the code units
    a range separator is made of (hyphen, en dash, em dash, [t], [o] in
    either case), gives no times from [parseTimeRange] and no dates from
    [parseDateRange]: both return the pair of [null]s. *)
Theorem X14_ranges_need_digit_and_mark :
  forall (currentYear : Z) (s : jstr),
  Forall (fun c => isDigit c = false) s
  \/ Forall (fun c => rangeMark c = false) s ->
  parseTimeRange s = (None, None) /\
  parseDateRange currentYear s = (None, None).
Proof.
  intros currentYear s H. unfold parseTimeRange, parseDateRange.
  destruct H as [H|H]; rewrite Forall_forall in H.
  - rewrite (exec_no_match true isDigit _ s timeRange_needs_digit H),
            (exec_no_match true isDigit _ s dateRange_needs_digit H).
    split; reflexivity.
  - rewrite (exec_no_match true rangeMark _ s timeRange_needs_mark H),
            (exec_no_match true rangeMark _ s dateRange_needs_mark H).
    split; reflexivity.
Qed.

(** X14 at two times with only a space between them. *)
Lemma X14_ranges_need_digit_and_mark_witness :
  parseTimeRange (lit "10:00 11:00") = (None, None) /\
  parseDateRange 2024 (lit "10:00 11:00") = (None, None).
Proof.
  apply (X14_ranges_need_digit_and_mark 2024 (lit "10:00 11:00")).
  right. repeat constructor.
Defined.

(* ------------------------------------------------------------------ *)
(** ** [findFirstOccurrence]: years written with two digits *)

(** X15: [new Date(year, month, day)] takes a year from 0 to 99 as a year
    of the 1900s, and [findFirstOccurrence] inherits it: for a start date
    with such a year (month 1..12, day 1..31) and a non-empty list of day
    codes it returns what it returns for the same day and month of the
    year 1900 + year, a date at most six days after that one whose weekday
    is in the list. *)
Theorem X15_findFirstOccurrence_two_digit_year :
  forall (d : CalendarDate) (ds : list DayCode),
  0 <= year d <= 99 -> 1 <= month d <= 12 -> 1 <= day d <= 31 -> ds <> [] ->
  let d' := {| year := 1900 + year d; month := month d; day := day d |} in
  findFirstOccurrence (Calendar d) ds = findFirstOccurrence (Calendar d') ds /\
  exists i,
    0 <= i < 7 /\
    findFirstOccurrence (Calendar d) ds = Some (Calendar (addDays d' i)) /\
    In (weekdayOf (addDays d' i)) ds.
Proof.
  intros d ds Hy Hm Hd Hds d'.
  assert (Hy' : - 271000 <= year d' <= 275000)
    by (unfold d'; cbn [year]; lia).
  pose proof (dayNumber_in_range d' Hy' Hm Hd) as Hrange.
  assert (Hnew : newDate (year d) (month d - 1) (day d) = Some (dayNumber d')).
  { unfold newDate.
    replace ((0 <=? year d) && (year d <=? 99)) with true
      by (symmetry; apply andb_true_iff; split; apply Z.leb_le; lia).
    rewrite makeDay_month by exact Hm. apply timeClip_in_range. lia. }
  assert (Hnew' : newDate (year d') (month d' - 1) (day d')
                  = Some (dayNumber d')).
  { unfold newDate.
    replace ((0 <=? year d') && (year d' <=? 99)) with false
      by (symmetry; apply andb_false_iff; right; apply Z.leb_gt;
          unfold d'; cbn [year]; lia).
    rewrite makeDay_month by exact Hm. apply timeClip_in_range. lia. }
  unfold findFirstOccurrence, dateOf. rewrite Hnew, Hnew'.
  destruct ds as [|c0 ds0]; [congruence|].
  set (cs := c0 :: ds0) in *.
  replace (List.length (map dayToNum cs) =? 0)%nat with false by reflexivity.
  change [0; 1; 2; 3; 4; 5; 6] with (zrange 0 7).
  pose proof (scanDays_zrange (dayNumber d') (map dayToNum cs) 7 0) as Hscan.
  assert (Hr : forall j, 0 <= j < 0 + Z.of_nat 7 ->
                         - 100000000 <= dayNumber d' + j <= 100000000)
    by (intros j Hj; lia).
  specialize (Hscan Hr).
  destruct (scanDays (dayNumber d') (map dayToNum cs) (zrange 0 7))
    as [found|].
  - split; [reflexivity|].
    destruct Hscan as [i [Hi [Hf [Hhit _]]]].
    exists i. split; [lia|]. split; [rewrite Hf; reflexivity|].
    unfold weekdayOf, addDays. rewrite dayNumber_civilFromDays.
    apply targetDays_hit. exact Hhit.
  - exfalso.
    destruct (weekday_within_seven (dayNumber d') (dayToNum c0))
      as [j [Hj Hday]]; [destruct c0; cbn; lia|].
    assert (Hhit : existsb (Z.eqb (getDay (dayNumber d' + j)))
                           (map dayToNum cs) = true).
    { apply targetDays_hit. rewrite Hday, codeOfNum_dayToNum. now left. }
    rewrite (Hscan j) in Hhit by lia. discriminate.
Qed.

(** X15 at 24-09-01 with Monday: Monday 1924-09-01 itself. *)
Lemma X15_findFirstOccurrence_two_digit_year_witness :
  findFirstOccurrence (Calendar {| year := 24; month := 9; day := 1 |}) [MO]
  = findFirstOccurrence (Calendar {| year := 1924; month := 9; day := 1 |})
                        [MO] /\
  findFirstOccurrence (Calendar {| year := 24; month := 9; day := 1 |}) [MO]
  = Some (Calendar {| year := 1924; month := 9; day := 1 |}).
Proof.
  assert (Hy : 0 <= year {| year := 24; month := 9; day := 1 |} <= 99)
    by (cbn; lia).
  assert (Hm : 1 <= month {| year := 24; month := 9; day := 1 |} <= 12)
    by (cbn; lia).
  assert (Hd : 1 <= day {| year := 24; month := 9; day := 1 |} <= 31)
    by (cbn; lia).
  assert (Hds : [MO] <> []) by discriminate.
  destruct (X15_findFirstOccurrence_two_digit_year
              {| year := 24; month := 9; day := 1 |} [MO] Hy Hm Hd Hds)
    as [Heq _].
  split; [exact Heq|]. vm_compute. reflexivity.
Defined.

(* ------------------------------------------------------------------ *)
(** ** [generateUID]: what the identifier is made from *)

Lemma ofInt_digit (n : Z) : 0 <= n <= 9 -> ofInt n = [48 + n].
Proof.
  intros Hn.
  assert (H : forallb (fun n => match ofInt n with
                                | [a] => a =? 48 + n
                                | _ => false
                                end) (zrange 0 10) = true)
    by (vm_compute; reflexivity).
  pose proof (zrange_forallb _ _ _ H n ltac:(lia)) as Hz.
  cbv beta in Hz. clear H.
  destruct (ofInt n) as [|a [|b r]]; try discriminate.
  apply Z.eqb_eq in Hz. now subst a.
Qed.

Lemma ofInt_two_digits (x y : Z) :
  1 <= x <= 9 -> 0 <= y <= 9 -> ofInt (10 * x + y) = [48 + x; 48 + y].
Proof.
  intros Hx Hy.
  assert (H : forallb (fun n => match ofInt n with
                                | [a; b] => (a =? 48 + n / 10)
                                            && (b =? 48 + n mod 10)
                                | _ => false
                                end) (zrange 10 90) = true)
    by (vm_compute; reflexivity).
  pose proof (zrange_forallb _ _ _ H (10 * x + y) ltac:(lia)) as Hz.
  cbv beta in Hz. clear H.
  destruct (ofInt (10 * x + y)) as [|a [|b [|c r]]]; try discriminate.
  apply andb_true_iff in Hz. destruct Hz as [Ha Hb].
  apply Z.eqb_eq in Ha. apply Z.eqb_eq in Hb. subst a b.
  f_equal; [|f_equal]; f_equal; Z.div_mod_to_equations; lia.
Qed.

(** X16: the identifier [generateUID] gives an event is made from its
    course code, section, days and start time alone, and the hours and
    minutes of the start time are written one after the other with
    nothing between them.  So two events that agree on code, section and
    days have the same identifier when they start at the same time,
    whatever their dates, end time and location, and also when one starts
    at [a]:[bc] and the other at [ab]:[c] ([a], [b] digits from 1 to 9,
    [c] a digit). *)
Theorem X16_generateUID_collisions :
  forall (e1 e2 : MeetingEvent),
  courseCode e1 = courseCode e2 -> section e1 = section e2 ->
  days e1 = days e2 ->
  (startTime e1 = startTime e2
   \/ exists a b c,
        1 <= a <= 9 /\ 1 <= b <= 9 /\ 0 <= c <= 9 /\
        startTime e1 = Some {| hours := a; minutes := 10 * b + c |} /\
        startTime e2 = Some {| hours := 10 * a + b; minutes := c |}) ->
  generateUID e1 = generateUID e2.
Proof.
  intros e1 e2 Hc Hs Hd Ht. unfold generateUID. rewrite Hc, Hs, Hd.
  destruct Ht as [-> | [a [b [c [Ha [Hb [Hcc [-> ->]]]]]]]]; [reflexivity|].
  cbn [hours minutes].
  rewrite (ofInt_digit a), (ofInt_digit c) by lia.
  rewrite (ofInt_two_digits b c), (ofInt_two_digits a b) by lia.
  reflexivity.
Qed.

(** X16 at the sample lecture, once from 1:10 and once from 11:00 in
    another term. *)
Lemma X16_generateUID_collisions_witness :
  generateUID
    {| courseCode := courseCode lectureEvent;
       courseTitle := courseTitle lectureEvent;
       section := section lectureEvent; format := format lectureEvent;
       deliveryMode := deliveryMode lectureEvent;
       instructor := instructor lectureEvent; days := days lectureEvent;
       startTime := time 1 10; endTime := time 2 0;
       startDate := date 2024 9 3; endDate := date 2024 12 5;
       location := lit "Room 200"; raw := Text [] |}
  = generateUID
      {| courseCode := courseCode lectureEvent;
         courseTitle := courseTitle lectureEvent;
         section := section lectureEvent; format := format lectureEvent;
         deliveryMode := deliveryMode lectureEvent;
         instructor := instructor lectureEvent; days := days lectureEvent;
         startTime := time 11 0; endTime := time 12 0;
         startDate := date 2025 1 6; endDate := date 2025 4 8;
         location := lit "Room 300"; raw := Text [] |}.
Proof.
  apply X16_generateUID_collisions; try reflexivity.
  right. exists 1, 1, 0. repeat split; lia.
Defined.
